(* ===== verification/_CoqProject ===== *)
-Q . S2P
Prelude.v
Series.v
CrossCorrelation.v
Indicators.v
Mlmi.v
Registry.v
Aggregator.v
MovingAverages.v
Engine.v
Agents.v
Strategy.v
Dashboard.v
Interaction.v
Broker.v
DataSources.v
MarketData.v
CopilotMain.v
ComputationEngine.v
StrategyStub.v
