(* ===== verification/Prelude.v ===== *)
(** * A verification development of the Quant signal core

    The repository ([src/]) computes technical-analysis signals from price
    series and merges them with trading-agent actions. Its parts, and how
    they interact:

    - stateful indicators, each an object whose [calculate(data)] reads a
      pandas DataFrame and mutates the instance: MLMI
      ([core/indicator/mlmi.py]) and CrossCorrelationPair
      ([core/indicator/cross_correlation_pair.py]);
    - stateless indicators: the helpers of [core/indicator/utils.py] and
      [core/indicator/manager.py], the classes SMA, EMA, RSI, MACD and
      BollingerBands, and the plain-list averages of
      [strategies/indicators/moving_averages.py];
    - two registries: the core [IndicatorManager] (a fixed dict of five
      instances) and the copilot [IndicatorManager] (registration by id);
    - the [SignalAggregator] ([tournament/signal/SignalAggregator.py]),
      which calls the core registry once per submitted signal, and the
      Flask endpoint ([Dashboard/api/indicators.py]) that composes
      aggregation and summary;
    - the [TradingEngine] ([core/engine.py]) that loops over strategies,
      the strategy base class whose [execute] the engine calls, and the
      start-up in the copilot [main] that adds each strategy to the engine
      and then starts the same object;
    - the copilot agents: [SignalAgent] (runs registered models) and
      [LeverageAgent] (position sizing, left unfinished in the source),
      and the copilot [main.py] that chains a data fetcher, a signal
      agent, a portfolio manager and a trading strategy;
    - the data side: [Config] (API keys from the environment),
      [TwelveDataClient] (HTTP), the mock [DataFetcher] (random prices)
      and the [DataHandler] stubs;
    - the web dashboard ([DashboardManager] and its routes) and the
      [IBKRWrapper] broker client;
    - the Python computation engine ([src/computation/python/engine.py]),
      a websocket client of an integration server that dispatches alerts,
      market data and model requests to plug-in models it imports and
      caches;
    - the stale strategy stub [strategies/base copy.py].

    ** Files

    - [Prelude.v] (this file): the float model [fl], Python exceptions
      ([py_error]), the state and error monad [PyM] (state passing; the
      state reached before an exception is kept, as Python keeps its
      mutations), list and dict helpers ([py_index], [iloc_neg],
      [py_slice], [dict_set], [dict_del], [keep_last]), the reflexive
      transitive closure [star] and infinite runs [infseq] of a step
      relation, the lemma library of [PyM] ([preserves], [never_ok],
      [mmap]) and the tactics [fl_bool_split] and [q_contra].
    - [Series.v]: the pandas and numpy operations the code calls
      (rolling windows, EWM, pct_change, rolling correlation, argsort),
      with Cauchy-Schwarz for the correlation bound and the stable-sort
      specification of [argsort].
    - [CrossCorrelation.v], Module [CCP]: [CrossCorrelationPair]; state
      = the two history lists, [calculate] in [PyM].
    - [Indicators.v]: Modules [Utils] (utils.py), [CoreFns] (module
      functions of manager.py) and [Classes] (the indicator classes as one
      inductive type with [calculate]); range lemmas (RSI, ATR).
    - [Mlmi.v], Module [MLMI]: [MLMI] with its four lists; feature values
      are Python values ([pyval]) because [calculate] passes whole Series.
    - [Registry.v]: the class [Registry] (the interface the aggregator
      uses: an unknown name raises and keeps the state), Module
      [CoreManager] (an instance; its state is the tuple of the five
      instance states) and Module [Copilot] (refined to a [gmap]).
    - [Aggregator.v]: [aggregate_signals], [summarize_signals] and the
      endpoint, proved against [Registry].
    - [MovingAverages.v], Module [MA]: the three list averages.
    - [Engine.v], Module [Engine]: [TradingEngine]; the [while] loop is a
      step relation and [start] a run of it with fuel.
    - [Agents.v], Modules [SignalAgent] and [LeverageAgent].
    - [Strategy.v], Modules [BaseStrategy] (its log of position events is
      the output of [execute]) and [Wiring] (main.py's set-up; strategy
      objects live in a shared heap and the engine holds references, so
      the aliasing of [engine.add_strategy(s); s.start()] is modelled),
      from the loaded config file to [engine.start()].
    - [Dashboard.v], Module [Dashboard]: the manager and the module's
      global [VERBOSE_MODE] as one state; Python's [int()] for query
      arguments and Python slicing with negative bounds ([py_slice_z] in
      this file); [handle] dispatches a request to the blueprint's
      routes as Flask does (404, redirect, 405, OPTIONS, 500 on an
      exception in a view).
    - [Interaction.v]: what the interaction-tree files share: the bind
      notations of [ib_scope] and the lemmas on leaves and
      postconditions ([has_post], after ITree's [Props]).
    - [Broker.v], Module [IBKR]: the wrapper's methods as interaction
      trees ([ITree]) over the client's calls, with exceptions as
      [exceptE] events, and [run], which executes a tree against a
      gateway with fuel and records the calls.
    - [DataSources.v], Modules [Config] and [TwelveData] (with the
      module's unit test and its patched [requests.get]); the HTTP
      server, [pd.to_datetime] and pandas' constructor on other inputs
      are section variables.
    - [MarketData.v], Modules [DataFetcher] (the random module as an
      abstract generator state, threaded through [PyM]) and
      [DataHandler].
    - [CopilotMain.v], Module [CopilotMain]: [main.py]'s pipeline and
      its run as a script (the imports first).
    - [ComputationEngine.v], Module [ComputationEngine]: the engine's
      record ([port], the [models] cache, the [data_cache]), its message
      handlers in [PyM], Python dict keys ([True == 1 == 1.0]), and
      [start] as an interaction tree over the websocket calls whose
      [while True] is [ITree.iter]; [run] executes a tree with fuel against
      any peer (a handler of the calls with a state of its own), [server]
      is the peer that delivers an inbox, and [replies] folds the handlers
      over the inbox. The model plug-ins,
      [importlib], [pd.DataFrame] and [json] are section variables.
    - [StrategyStub.v], Module [StrategyStub]: [base copy.py].

    ** What the theorems show

    Invariants over all reachable states (bounded FIFO histories of
    CrossCorrelationPair; the shape of MLMI's training lists); value
    bounds (correlation in [-1, 1], strength in [0, 1], RSI in [0, 100],
    Bollinger band ordering); error behaviour (MLMI's [calculate] always
    raises once it has enough data, with the error of its prediction step
    or the [AttributeError] of line 86; [IndexError] of its kNN; fail-fast
    and non-atomic aggregation; [ValueError] guards); functional
    behaviour on every branch (signal direction, the first call of
    CrossCorrelationPair, the routing of each name of the core registry
    to its own instance, the mean-index result of [utils.knn_predict]);
    equivalences (list SMA = rolling mean, list WMA = reversed weighted
    window, EMA loop = EMA recursion); a refinement (the copilot registry
    implements a finite map) with a round trip; termination behaviour of
    the engine loop (it never returns unless [time.sleep] raises, and then
    it stops after one pass); liveness of the wired engine (the started
    strategy acts in every pass, forever, from the config file on); the
    dashboard's capped history (an equivalence with [keep_last] and an
    invariant with the global flag), its page bounds and the failure of
    its standard view; the broker's call order and its [NameError]; the
    sorted, permuted rows of the time series; the ranges of the mock
    market data for every generator; that only a POST to the toggle route
    changes the dashboard's state. For the computation engine: against
    any peer and for every fuel its [start] never returns, and raises
    only the error with which connecting or sending the status message
    failed; run against a server, the loop sends exactly the replies of
    the fold of the handlers over the inbox, in order (a refinement of the
    tree by the fold); which messages can raise; the cache of
    [_get_model], which serves a second request whatever [importlib]
    would do; the [GenericModel] fallback taken on [ImportError] only; and
    the reply to an alert with a signal, with the model's mutation kept
    in the cache.

    ** Numeric model and bounds

    Python floats are exact rationals plus [+inf], [-inf] and NaN, with
    IEEE rules for the special values (division by zero, NaN compares
    false). Rounding is not modelled: results are the exact real values,
    so a bound proved here is the bound of the real computation, not of
    its rounding. [np.sqrt] is a rational rounded upwards on a grid of
    [2^-32] relative to the denominator, which keeps [q <= sqrt(q)^2]
    and so keeps the correlation bound. Python ints are [Z] or [nat]
    (unbounded, as in Python). Only [Engine.run] and [IBKR.run] use
    fuel: the first counts loop passes and its theorems quantify over
    every fuel; the second counts the steps of a finite tree, and the
    broker theorem holds for every fuel from 4 on, the number of calls
    plus one. The computation engine's loop is an [ITree.iter]; that
    [start] never returns is proved of its [run] against every peer for
    every fuel, so no fuel is too small or too large for it. Its [run]
    against a server takes at most four steps a message (receive, read
    the clock, send, re-enter the loop), so the replies theorem holds for
    every fuel from four times the length of the inbox on. The random
    module is abstract: the bounds hold for every generator with
    [0 <= random() < 1] and [_randbelow(n) < n]. [np.argsort] is
    modelled as a stable sort; numpy's default quicksort agrees with it
    whenever the distances are distinct.

    ** Not modelled

    Plumbing: the Flask application objects (the dashboard's routing is
    modelled, the template folder is a parameter), argument parsing,
    logging set-up and the [KeyboardInterrupt] handler of the entry
    points (an asynchronous signal). Copies: the indicator classes of
    the copilot [FuturesQuant_core_indicator_manager.py] and the
    aggregated-signals route of [Dashboard/api/api/indicators.py] are
    line for line those of [core/indicator/manager.py] and
    [Dashboard/api/indicators.py], whose models ([Classes],
    [get_aggregated_signals]) stand for both. The network, the broker gateway,
    the files and the clock are parameters, not models. PortfolioManager
    and TradingStrategy of the copilot [main.py] are not in the
    repository either and are parameters. SuperTrendAI,
    SuperTrend, Scalping and CathieWoodStrategy are imported from modules
    that are not in the repository; they are parameters of the models
    (the registry's instances, the strategy's [generate_signals]). The
    computation engine does not parse as Python (its class header and
    [__init__] are garbled and it ends in JavaScript): its methods are
    modelled as written, and its garbled [__main__] block, which names
    an undefined [engine], is not. Python strings are sequences of ASCII
    characters in that model: [lower] and [capitalize] change ASCII
    letters only. The leverage
    agent is modelled as far as it goes: its sizing method has no body.
    Logging and timing are not modelled; the broker's [print] calls are
    events of its trees. Lines 87-106 of MLMI's [calculate] are reached
    only with a Series prediction and are modelled by the [ValueError]
    their first Series test raises. MLMI's [num_neighbors] is a [nat]
    (a negative [k] would slice from the end). [pct_change] is modelled
    without the forward fill pandas applies first; the two agree on
    series without missing values, which the theorems' hypotheses give.
    [time.sleep] is modelled with its [TypeError] and [ValueError]; its
    [OverflowError] on huge intervals is not. *)

From Stdlib Require Import String QArith Qabs Qminmax Lqa ZArith List Lia Bool DecimalString.
Import ListNotations.

(** ** Floating-point values: exact rationals with IEEE special values

    A finite float is a rational kept in lowest terms ([Qred] after every
    operation), so equal values are equal terms and long computations stay
    small. *)

Inductive fl : Type :=
| Fin (q : Q)
| PInf
| NInf
| NaN.

Declare Scope fl_scope.
Delimit Scope fl_scope with fl.

Definition Qltb (a b : Q) : bool := negb (Qle_bool b a).

Definition fneg (x : fl) : fl :=
  match x with
  | Fin q => Fin (- q)
  | PInf => NInf
  | NInf => PInf
  | NaN => NaN
  end.

Definition fadd (x y : fl) : fl :=
  match x, y with
  | NaN, _ | _, NaN => NaN
  | PInf, NInf | NInf, PInf => NaN
  | PInf, _ | _, PInf => PInf
  | NInf, _ | _, NInf => NInf
  | Fin a, Fin b => Fin (Qred (a + b))
  end.

Definition fsub (x y : fl) : fl := fadd x (fneg y).

(** Product of an infinity [i] by a finite [a]: NaN when [a] is zero. *)
Definition fscale_inf (a : Q) (i : fl) : fl :=
  if Qeq_bool a 0 then NaN else if Qltb 0 a then i else fneg i.

Definition fmul (x y : fl) : fl :=
  match x, y with
  | NaN, _ | _, NaN => NaN
  | Fin a, Fin b => Fin (Qred (a * b))
  | Fin a, i | i, Fin a => fscale_inf a i
  | PInf, PInf | NInf, NInf => PInf
  | _, _ => NInf
  end.

Definition fdiv (x y : fl) : fl :=
  match x, y with
  | NaN, _ | _, NaN => NaN
  | Fin a, Fin b =>
      if Qeq_bool b 0 then
        (if Qeq_bool a 0 then NaN else if Qltb 0 a then PInf else NInf)
      else Fin (Qred (a / b))
  | Fin _, _ => Fin 0
  | PInf, Fin b => if Qltb b 0 then NInf else PInf
  | NInf, Fin b => if Qltb b 0 then PInf else NInf
  | _, _ => NaN
  end.

(** Ordered comparisons are false as soon as one side is NaN. *)
Definition flt (x y : fl) : bool :=
  match x, y with
  | Fin a, Fin b => Qltb a b
  | NInf, (Fin _ | PInf) => true
  | Fin _, PInf => true
  | _, _ => false
  end.

Definition fle (x y : fl) : bool :=
  match x, y with
  | Fin a, Fin b => Qle_bool a b
  | NInf, (Fin _ | PInf | NInf) => true
  | (Fin _ | PInf), PInf => true
  | _, _ => false
  end.

(** [x == y]: never true for NaN. *)
Definition feqb (x y : fl) : bool :=
  match x, y with
  | Fin a, Fin b => Qeq_bool a b
  | PInf, PInf | NInf, NInf => true
  | _, _ => false
  end.

Definition fgt (x y : fl) : bool := flt y x.
Definition fge (x y : fl) : bool := fle y x.

Definition fabs (x : fl) : fl :=
  match x with
  | Fin q => Fin (Qabs q)
  | NInf => PInf
  | v => v
  end.

(** Python's builtin [min(a, b)]: keeps [a] unless [b < a]. *)
Definition py_min (a b : fl) : fl := if flt b a then b else a.

Definition is_nan (x : fl) : bool :=
  match x with NaN => true | _ => false end.

(** Square root. The model is exact rational arithmetic; [np.sqrt] of a
    non-negative rational is rounded upwards to a grid of [2^-32] relative
    to the denominator, so [q <= qsqrt q * qsqrt q] always holds. *)
Definition sqrt_scale : Z := 4294967296.

Definition qsqrt (q : Q) : Q :=
  let r := Qred q in
  if Z.leb (Qnum r) 0 then 0
  else Qred (Z.sqrt_up (Qnum r * Zpos (Qden r) * sqrt_scale * sqrt_scale)
             # (Qden r * Z.to_pos sqrt_scale)).

Definition fsqrt (x : fl) : fl :=
  match x with
  | Fin q => if Qltb q 0 then NaN else Fin (qsqrt q)
  | PInf => PInf
  | _ => NaN
  end.

Definition fof_nat (n : nat) : fl := Fin (inject_Z (Z.of_nat n)).

Infix "⊕" := fadd (at level 50, left associativity) : fl_scope.
Infix "⊖" := fsub (at level 50, left associativity) : fl_scope.
Infix "⊗" := fmul (at level 40, left associativity) : fl_scope.
Infix "⊘" := fdiv (at level 40, left associativity) : fl_scope.

(** The string signals the indicators return ('BUY' / 'SELL'); Python's
    [None] (no signal) is [option]'s [None]. *)
Inductive signal_kind : Type := BUY | SELL.

(** ** Python exceptions and a state + error monad

    A Python method that mutates [self] and may raise is a function from
    the state to a result and the new state. The state is returned on the
    error path too: mutations made before a [raise] are not undone. *)

Inductive py_error : Type :=
| KeyError
| ValueError
| IndexError
| TypeError
| AttributeError
| NotImplementedError
| NameError
| HTTPError
| ImportError
| AssertionError.

Inductive result (A : Type) : Type :=
| Ok (a : A)
| Err (e : py_error).
Arguments Ok {A} a.
Arguments Err {A} e.

Definition PyM (S A : Type) : Type := S -> result A * S.

Definition ret {S A} (a : A) : PyM S A := fun s => (Ok a, s).
Definition raise {S A} (e : py_error) : PyM S A := fun s => (Err e, s).
Definition bind {S A B} (m : PyM S A) (k : A -> PyM S B) : PyM S B :=
  fun s => match m s with
           | (Ok a, s') => k a s'
           | (Err e, s') => (Err e, s')
           end.
Definition get {S} : PyM S S := fun s => (Ok s, s).
Definition put {S} (s : S) : PyM S unit := fun _ => (Ok tt, s).
Definition modify {S} (f : S -> S) : PyM S unit := fun s => (Ok tt, f s).
(** Lift a pure fallible computation. *)
Definition lift {S A} (r : result A) : PyM S A := fun s => (r, s).

(** [try: m except Exception as e: h(e)]: the handler runs from the state
    [m] reached when it raised. *)
Definition py_try {S A} (m : PyM S A) (h : py_error -> PyM S A) : PyM S A :=
  fun s => let (r, s') := m s in
           match r with Ok a => (Ok a, s') | Err e => h e s' end.

Declare Scope py_scope.
Delimit Scope py_scope with py.
Notation "x <- m ;; k" := (bind m (fun x => k))
  (at level 62, m at next level, right associativity) : py_scope.
Notation "m ;;; k" := (bind m (fun _ => k))
  (at level 62, right associativity) : py_scope.

(** [result] as a plain error monad. *)
Definition rbind {A B} (r : result A) (k : A -> result B) : result B :=
  match r with Ok a => k a | Err e => Err e end.
Notation "x <-? r ;; k" := (rbind r (fun x => k))
  (at level 62, r at next level, right associativity) : py_scope.

(** [[f(x) for x in xs]] where [f] may raise: the first error wins. *)
Fixpoint rmap {A B} (f : A -> result B) (xs : list A) : result (list B) :=
  match xs with
  | [] => Ok []
  | x :: xs' => rbind (f x) (fun y => rbind (rmap f xs') (fun ys => Ok (y :: ys)))
  end.

(** The call returned (did not raise). *)
Definition is_ok {A} (r : result A) : bool := match r with Ok _ => true | Err _ => false end.

(** Run a computation on one field of a larger state ([self.x.f(...)]
    where only [self.x] changes). *)
Definition zoom {S T A} (getf : S -> T) (setf : T -> S -> S) (m : PyM T A) : PyM S A :=
  fun s => let (r, t) := m (getf s) in (r, setf t s).

(** A [for] loop that appends [f(x)] for each [x]; the first exception
    leaves the loop with the state it reached. *)
Fixpoint mmap {S A B} (f : A -> PyM S B) (xs : list A) : PyM S (list B) :=
  match xs with
  | [] => ret []
  | x :: xs' => (y <- f x ;; ys <- mmap f xs' ;; ret (y :: ys))%py
  end.

(** ** Python list helpers *)

(** [xs[-k]] for [k >= 1]; [IndexError] when [len(xs) < k]. *)
Definition iloc_neg {A} (k : nat) (xs : list A) : result A :=
  match nth_error (rev xs) (pred k) with
  | Some x => Ok x
  | None => Err IndexError
  end.

(** [xs[i]] for [i >= 0]. *)
Definition py_index {A} (xs : list A) (i : nat) : result A :=
  match nth_error xs i with
  | Some x => Ok x
  | None => Err IndexError
  end.

(** [xs[a:b]] for [0 <= a]: the elements at indexes [a] to [b - 1]. *)
Definition py_slice {A} (a b : nat) (xs : list A) : list A := firstn (b - a) (skipn a xs).

(** A slice bound as Python reads it on a list of length [n]: a negative
    bound counts from the end, and the result is clamped to [0, n]. *)
Definition py_bound (i : Z) (n : nat) : nat :=
  if (i <? 0)%Z then Z.to_nat (Z.max 0 (i + Z.of_nat n)) else Nat.min (Z.to_nat i) n.

(** [xs[a:b]] for any integers [a] and [b]. *)
Definition py_slice_z {A} (a b : Z) (xs : list A) : list A :=
  let i := py_bound a (length xs) in
  let j := py_bound b (length xs) in
  firstn (j - i) (skipn i xs).

(** [xs[a:]]. *)
Definition py_slice_from {A} (a : Z) (xs : list A) : list A :=
  py_slice_z a (Z.of_nat (length xs)) xs.

(** [d[k] = v] on a dict kept as an association list in insertion
    order: an existing key keeps its position. *)
Fixpoint dict_set {K V} (eqb : K -> K -> bool) (k : K) (v : V) (d : list (K * V)) : list (K * V) :=
  match d with
  | [] => [(k, v)]
  | (k', v') :: d' => if eqb k' k then (k, v) :: d' else (k', v') :: dict_set eqb k v d'
  end.

(** [str(n)] for an [int]. *)
Definition str_of_int (z : Z) : string := NilZero.string_of_int (Z.to_int z).

(** [sep.join(parts)]. *)
Fixpoint py_join (sep : string) (parts : list string) : string :=
  match parts with
  | [] => EmptyString
  | [p] => p
  | p :: ps => String.append p (String.append sep (py_join sep ps))
  end.

(** [del d[k]] for a key that is present (the first binding). *)
Fixpoint dict_del {K V} (eqb : K -> K -> bool) (k : K) (d : list (K * V)) : list (K * V) :=
  match d with
  | [] => []
  | (k', v') :: d' => if eqb k' k then d' else (k', v') :: dict_del eqb k d'
  end.

(** [xs.pop(0)] on a list known to be non-empty (the source guards it). *)
Definition pop0 {A} (xs : list A) : list A := tl xs.

(** The last [n] elements of a list: what a FIFO buffer of capacity [n]
    holds after the elements of [l] were pushed in order. *)
Definition keep_last {A} (n : nat) (l : list A) : list A := skipn (length l - n) l.

(** Reflexive-transitive closure of a step relation. *)
Section Star.
Context {S : Type} (R : S -> S -> Prop).

Inductive star : S -> S -> Prop :=
| star_refl s : star s s
| star_step s1 s2 s3 : R s1 s2 -> star s2 s3 -> star s1 s3.

(** An infinite run of [R] from [s]: a set of states holding [s] where
    every state can take a step that stays in the set. *)
Definition infseq (s : S) : Prop :=
  exists X : S -> Prop, X s /\ (forall s1, X s1 -> exists s2, R s1 s2 /\ X s2).

End Star.

(** Predicates on [PyM] computations. *)
Section PyMPreds.
Context {S : Type}.

(** [m] raises on every state. *)
Definition never_ok {A} (m : PyM S A) : Prop := forall s, exists e, fst (m s) = Err e.

(** Every value [m] returns satisfies [P]. *)
Definition ok_post {A} (m : PyM S A) (P : A -> Prop) : Prop :=
  forall s a s', m s = (Ok a, s') -> P a.

(** [m] keeps the state invariant [I], whether it returns or raises. *)
Definition preserves {A} (I : S -> Prop) (m : PyM S A) : Prop :=
  forall s, I s -> I (snd (m s)).

End PyMPreds.

Create HintDb quant.
Create Rewrite HintDb quant_rw.

(** ** Shared lemmas *)

Section StarInv.
Context {S : Type} (R : S -> S -> Prop).

(** Invariants of [R] hold in every state reachable from a state where
    they hold. *)
Lemma star_inv (I : S -> Prop) :
  (forall s s', I s -> R s s' -> I s') -> forall s s', star R s s' -> I s -> I s'.
Proof. intros Hstep s s' Hstar. induction Hstar; eauto. Qed.

Lemma star_trans s1 s2 s3 : star R s1 s2 -> star R s2 s3 -> star R s1 s3.
Proof. intros H12. induction H12; eauto using star. Qed.

Lemma star_snoc s1 s2 s3 : star R s1 s2 -> R s2 s3 -> star R s1 s3.
Proof. intros H12 H23. apply (star_trans _ _ _ H12). eauto using star. Qed.

End StarInv.

#[export] Hint Resolve star_refl star_snoc : quant.

Lemma Qltb_iff a b : Qltb a b = true <-> a < b.
Proof.
  unfold Qltb. rewrite negb_true_iff, <- not_true_iff_false, Qle_bool_iff.
  split; [apply Qnot_le_lt | apply Qlt_not_le].
Qed.

Lemma Qltb_false a b : Qltb a b = false <-> b <= a.
Proof.
  unfold Qltb. rewrite negb_false_iff. apply Qle_bool_iff.
Qed.

Lemma Qeq_bool_false a b : Qeq_bool a b = false <-> ~ a == b.
Proof. rewrite <- Qeq_bool_iff. destruct (Qeq_bool a b); intuition congruence. Qed.

Lemma Qle_bool_false a b : Qle_bool a b = false <-> b < a.
Proof.
  rewrite <- not_true_iff_false, Qle_bool_iff.
  split; [apply Qnot_le_lt | apply Qlt_not_le].
Qed.

Lemma Qdiv_pos_num n d : 0 < d -> 0 < n / d -> 0 < n.
Proof.
  intros Hd H. destruct (Qlt_le_dec 0 n) as [|Hn]; [assumption |].
  assert (n / d <= 0) by (apply Qle_shift_div_r; lra). lra.
Qed.

Lemma Qdiv_neg_num n d : 0 < d -> n / d < 0 -> n < 0.
Proof.
  intros Hd H. destruct (Qlt_le_dec n 0) as [|Hn]; [assumption |].
  assert (0 <= n / d) by (apply Qle_shift_div_l; lra). lra.
Qed.

Lemma Qdiv_nonneg_num n d : 0 < d -> 0 <= n / d -> 0 <= n.
Proof.
  intros Hd H. destruct (Qlt_le_dec n 0) as [Hn|]; [| assumption].
  assert (n / d < 0) by (apply Qlt_shift_div_r; lra). lra.
Qed.

Lemma Qdiv_nonpos_num n d : 0 < d -> n / d <= 0 -> n <= 0.
Proof.
  intros Hd H. destruct (Qlt_le_dec 0 n) as [Hn|]; [| assumption].
  assert (0 < n / d) by (apply Qlt_shift_div_l; lra). lra.
Qed.

Lemma Qnonneg_neq_pos d : 0 <= d -> ~ d == 0 -> 0 < d.
Proof. intros H1 H2. destruct (Qlt_le_dec 0 d); [assumption |]. exfalso. apply H2. lra. Qed.

Lemma qsqrt_nonneg q : 0 <= qsqrt q.
Proof.
  unfold qsqrt. destruct (Z.leb_spec (Qnum (Qred q)) 0).
  - lra.
  - rewrite Qred_correct. unfold Qle; simpl. rewrite Z.mul_1_r. apply Z.sqrt_up_nonneg.
Qed.

(** The rounded square root never underestimates. *)
Lemma qsqrt_sq_ge q : 0 <= q -> q <= qsqrt q * qsqrt q.
Proof.
  intros Hq. rewrite <- (Qred_correct q) at 1.
  pose proof (Qred_correct q) as Hr. unfold qsqrt.
  destruct (Qred q) as [n d]; cbn [Qnum Qden].
  destruct (Z.leb_spec n 0).
  - assert (0 <= n # d) by (rewrite Hr; exact Hq).
    unfold Qle in *; simpl in *. nia.
  - set (N := (n * Z.pos d * sqrt_scale * sqrt_scale)%Z).
    assert (HN : (0 < N)%Z) by (unfold N, sqrt_scale; nia).
    destruct (Z.sqrt_up_spec N HN) as [_ Hup].
    rewrite Qred_correct. unfold Qle, Qmult; simpl. rewrite !Pos2Z.inj_mul.
    change (Z.pos (Z.to_pos sqrt_scale)) with sqrt_scale.
    assert (N * Z.pos d <= Z.sqrt_up N * Z.sqrt_up N * Z.pos d)%Z
      by (apply Z.mul_le_mono_nonneg_r; lia).
    unfold N, sqrt_scale in *. lia.
Qed.

Lemma qsqrt_pos q : 0 < q -> 0 < qsqrt q.
Proof.
  intros Hq. pose proof (Qred_correct q) as Hr. unfold qsqrt.
  destruct (Qred q) as [n d]; cbn [Qnum Qden].
  assert (0 < n # d) as Hn by (rewrite Hr; exact Hq).
  unfold Qlt in Hn; simpl in Hn.
  destruct (Z.leb_spec n 0); [lia |].
  rewrite Qred_correct. unfold Qlt; simpl. rewrite Z.mul_1_r. apply Z.sqrt_up_pos.
  unfold sqrt_scale; nia.
Qed.

Lemma qsqrt_zero q : q == 0 -> qsqrt q = 0.
Proof. intros Hq. unfold qsqrt. rewrite (Qred_complete q 0 Hq). reflexivity. Qed.

#[export] Instance qsqrt_Proper : Proper (Qeq ==> eq) qsqrt.
Proof. intros p q H. unfold qsqrt. now rewrite (Qred_complete p q H). Qed.

Lemma fdiv_Fin a b : ~ b == 0 -> fdiv (Fin a) (Fin b) = Fin (Qred (a / b)).
Proof.
  intros Hb. simpl. destruct (Qeq_bool b 0) eqn:E; [| reflexivity].
  apply Qeq_bool_iff in E. contradiction.
Qed.

Lemma flt_Fin a b : flt (Fin a) (Fin b) = true <-> a < b.
Proof. apply Qltb_iff. Qed.

Lemma fle_Fin a b : fle (Fin a) (Fin b) = true <-> a <= b.
Proof. apply Qle_bool_iff. Qed.

(** Comparisons with NaN are false. *)
Lemma flt_NaN_l y : flt NaN y = false.
Proof. reflexivity. Qed.
Lemma flt_NaN_r x : flt x NaN = false.
Proof. destruct x; reflexivity. Qed.
Lemma fle_NaN_l y : fle NaN y = false.
Proof. reflexivity. Qed.
Lemma fle_NaN_r x : fle x NaN = false.
Proof. destruct x; reflexivity. Qed.

#[export] Hint Rewrite flt_NaN_l flt_NaN_r fle_NaN_l fle_NaN_r : quant_rw.

Lemma in_firstn_l {A} n (l : list A) x : In x (firstn n l) -> In x l.
Proof. intros H. rewrite <- (firstn_skipn n l). apply in_or_app. now left. Qed.

Lemma in_skipn_l {A} n (l : list A) x : In x (skipn n l) -> In x l.
Proof. intros H. rewrite <- (firstn_skipn n l). apply in_or_app. now right. Qed.

Lemma in_removelast_l {A} (l : list A) x : In x (removelast l) -> In x l.
Proof. rewrite removelast_firstn_len. apply in_firstn_l. Qed.

Lemma iloc_neg_In {A} k (l : list A) x : iloc_neg k l = Ok x -> In x l.
Proof.
  unfold iloc_neg. destruct (nth_error (rev l) (pred k)) eqn:E; intros H; inversion H; subst.
  apply in_rev, (nth_error_In _ _ E).
Qed.

Lemma iloc_neg_last {A} (xs : list A) (x : A) : iloc_neg 1 (xs ++ [x]) = Ok x.
Proof. unfold iloc_neg. now rewrite rev_app_distr. Qed.

Lemma iloc_neg_nil {A} k : @iloc_neg A k [] = Err IndexError.
Proof. unfold iloc_neg. now destruct k as [|[|]]. Qed.

(** Case analysis on a boolean comparison of the model, in both directions. *)
Ltac case_bool b :=
  let E := fresh "E" in destruct b eqn:E.

(** Split every rational comparison test in the goal and turn the tests
    into propositions; used after a case analysis on float constructors. *)
Ltac fl_bool_split :=
  repeat match goal with
         | |- context [Qeq_bool ?x ?y] => let E := fresh "E" in destruct (Qeq_bool x y) eqn:E
         | |- context [Qltb ?x ?y] => let E := fresh "E" in destruct (Qltb x y) eqn:E
         | |- context [Qle_bool ?x ?y] => let E := fresh "E" in destruct (Qle_bool x y) eqn:E
         | H : context [if Qeq_bool ?x ?y then _ else _] |- _ =>
             let E := fresh "E" in destruct (Qeq_bool x y) eqn:E
         | H : context [if Qltb ?x ?y then _ else _] |- _ =>
             let E := fresh "E" in destruct (Qltb x y) eqn:E
         end; cbn [fneg fadd fmul fdiv fabs flt fle fscale_inf] in *; intros; try congruence;
  rewrite ?Qltb_iff, ?Qltb_false, ?Qeq_bool_iff, ?Qeq_bool_false, ?Qle_bool_iff, ?Qle_bool_false in *;
  repeat match goal with H : context [Qred ?x] |- _ => rewrite (Qred_correct x) in H end.

(** Close a goal [False] from contradictory rational facts: absolute
    values are split, quotients by a positive denominator are replaced by
    the sign of their numerator, disequalities are used last. *)
Ltac q_contra :=
  repeat match goal with
         | H : context [Qabs ?z] |- _ =>
             destruct (Qlt_le_dec z 0);
             [rewrite (Qabs_neg z) in H by lra | rewrite (Qabs_pos z) in H by lra]
         end;
  repeat match goal with
         | E : ~ ?d == 0, Hd : 0 <= ?d |- _ =>
             let H := fresh "Hpos" in
             assert (H : 0 < d) by (apply Qnonneg_neq_pos; assumption); clear E
         end;
  repeat match goal with
         | Hd : 0 < ?d, H : 0 < ?n / ?d |- _ =>
             lazymatch goal with _ : 0 < n |- _ => fail | _ => pose proof (Qdiv_pos_num n d Hd H) end
         | Hd : 0 < ?d, H : ?n / ?d < 0 |- _ =>
             lazymatch goal with _ : n < 0 |- _ => fail | _ => pose proof (Qdiv_neg_num n d Hd H) end
         | Hd : 0 < ?d, H : 0 <= ?n / ?d |- _ =>
             lazymatch goal with _ : 0 <= n |- _ => fail | _ => pose proof (Qdiv_nonneg_num n d Hd H) end
         | Hd : 0 < ?d, H : ?n / ?d <= 0 |- _ =>
             lazymatch goal with _ : n <= 0 |- _ => fail | _ => pose proof (Qdiv_nonpos_num n d Hd H) end
         end;
  first [ lra
        | match goal with E : ~ ?x == ?y |- False => apply E; lra end ].

Lemma skipn_1_tl {A} (l : list A) : tl l = skipn 1 l.
Proof. now destruct l. Qed.

Lemma keep_last_short {A} n (l : list A) : (length l <= n)%nat -> keep_last n l = l.
Proof. intros H. unfold keep_last. now replace (length l - n)%nat with 0%nat by lia. Qed.

Lemma length_keep_last {A} n (l : list A) : length (keep_last n l) = Nat.min n (length l).
Proof. unfold keep_last. rewrite length_skipn. lia. Qed.

Lemma py_bound_neg n len : (0 < n)%nat -> py_bound (- Z.of_nat n) len = (len - n)%nat.
Proof.
  intros Hn. unfold py_bound. destruct (Z.ltb_spec (- Z.of_nat n) 0) as [H | H]; lia.
Qed.

Lemma py_bound_len len : py_bound (Z.of_nat len) len = len.
Proof. unfold py_bound. destruct (Z.ltb_spec (Z.of_nat len) 0) as [H | H]; lia. Qed.

(** [xs[-n:]] keeps the last [n] elements when [n > 0] ([xs[-0:]] is
    the whole list). *)
Lemma py_slice_from_neg {A} n (xs : list A) :
  (0 < n)%nat -> py_slice_from (- Z.of_nat n) xs = keep_last n xs.
Proof.
  intros Hn. unfold py_slice_from, py_slice_z, keep_last. rewrite py_bound_neg, py_bound_len by exact Hn.
  apply firstn_all2. rewrite length_skipn. lia.
Qed.

(** A slice between non-negative bounds is at most as long as its span. *)
Lemma length_py_slice_z {A} a b (xs : list A) :
  (0 <= a)%Z -> (0 <= b)%Z -> (length (py_slice_z a b xs) <= Z.to_nat (b - a))%nat.
Proof.
  intros Ha Hb. unfold py_slice_z, py_bound. rewrite length_firstn.
  replace (a <? 0)%Z with false by lia. replace (b <? 0)%Z with false by lia. lia.
Qed.

(** Pushing onto a buffer that already dropped old entries. *)
Lemma keep_last_snoc {A} n (l : list A) x :
  keep_last n (keep_last n l ++ [x]) = keep_last n (l ++ [x]).
Proof.
  assert (Happ : keep_last n l ++ [x] = skipn (length l - n) (l ++ [x])).
  { unfold keep_last. rewrite skipn_app. now replace (length l - n - length l)%nat with 0%nat by lia. }
  rewrite Happ. unfold keep_last. rewrite skipn_skipn, length_skipn, length_app. simpl.
  f_equal. lia.
Qed.

(** ** Reasoning about [PyM] computations *)

Section PyMLogic.
Context {S : Type}.

Lemma never_ok_raise {A} e : never_ok (@raise S A e).
Proof. intros s. now exists e. Qed.

Lemma never_ok_lift_err {A} e : never_ok (@lift S A (Err e)).
Proof. intros s. now exists e. Qed.

Lemma never_ok_bind_post {A B} (m : PyM S A) (k : A -> PyM S B) (P : A -> Prop) :
  ok_post m P -> (forall a, P a -> never_ok (k a)) -> never_ok (bind m k).
Proof.
  intros Hm Hk s. unfold bind. destruct (m s) as [[a|e] s'] eqn:E.
  - apply (Hk a (Hm s a s' E) s').
  - now exists e.
Qed.

Lemma never_ok_bind {A B} (m : PyM S A) (k : A -> PyM S B) :
  (forall a, never_ok (k a)) -> never_ok (bind m k).
Proof. intros Hk. apply (never_ok_bind_post m k (fun _ => True)); auto. now intros s a s' _. Qed.

Lemma preserves_ret {A} (I : S -> Prop) (a : A) : preserves I (ret a).
Proof. now intros s Hs. Qed.

Lemma preserves_raise {A} (I : S -> Prop) e : preserves I (@raise S A e).
Proof. now intros s Hs. Qed.

Lemma preserves_lift {A} (I : S -> Prop) (r : result A) : preserves I (lift r).
Proof. now intros s Hs. Qed.

Lemma preserves_get (I : S -> Prop) : preserves I get.
Proof. now intros s Hs. Qed.

Lemma preserves_bind {A B} (I : S -> Prop) (m : PyM S A) (k : A -> PyM S B) :
  preserves I m -> (forall a, preserves I (k a)) -> preserves I (bind m k).
Proof.
  intros Hm Hk s Hs. unfold bind. specialize (Hm s Hs).
  destruct (m s) as [[a|e] s'] eqn:E; simpl in *; [apply Hk |]; exact Hm.
Qed.

Lemma preserves_modify (I : S -> Prop) f : (forall s, I s -> I (f s)) -> preserves I (modify f).
Proof. intros Hf s Hs. exact (Hf s Hs). Qed.

Lemma preserves_put (I : S -> Prop) s' : I s' -> preserves I (put s').
Proof. now intros Hs s _. Qed.

(** The continuation only has to keep [I] for the values [m] returns. *)
Lemma preserves_bind_post {A B} (I : S -> Prop) (P : A -> Prop) (m : PyM S A) (k : A -> PyM S B) :
  preserves I m -> ok_post m P -> (forall a, P a -> preserves I (k a)) -> preserves I (bind m k).
Proof.
  intros Hm Hp Hk s Hs. unfold bind. specialize (Hm s Hs).
  destruct (m s) as [[a|e] s'] eqn:E; simpl in *; [apply (Hk a (Hp s a s' E)) |]; exact Hm.
Qed.

Lemma preserves_py_try {A} (I : S -> Prop) (m : PyM S A) (h : py_error -> PyM S A) :
  preserves I m -> (forall e, preserves I (h e)) -> preserves I (py_try m h).
Proof.
  intros Hm Hh s Hs. unfold py_try. specialize (Hm s Hs).
  destruct (m s) as [[a|e] s'] eqn:E; simpl in *; [exact Hm | apply Hh, Hm].
Qed.

(** A [try] whose handler returns never raises. *)
Lemma py_try_ret_ok {A} (m : PyM S A) (h : py_error -> A) s :
  exists a, fst (py_try m (fun e => ret (h e)) s) = Ok a.
Proof. unfold py_try, ret. destruct (m s) as [[a|e] s']; eexists; reflexivity. Qed.

End PyMLogic.

#[export] Hint Resolve never_ok_raise never_ok_lift_err preserves_ret preserves_raise
  preserves_lift preserves_get preserves_py_try : quant.

Lemma iloc_neg_2_snoc {A} (l : list A) x y : iloc_neg 2 (l ++ [x; y]) = Ok x.
Proof. unfold iloc_neg. replace (l ++ [x; y]) with ((l ++ [x]) ++ [y]) by (now rewrite <- app_assoc). now rewrite !rev_app_distr. Qed.

Lemma last_rev_snoc {A} (l : list A) x d :
  match rev (l ++ [x]) with z :: _ => z | [] => d end = x.
Proof. now rewrite rev_app_distr. Qed.

Lemma snoc_cases {A} (l : list A) : l = [] \/ exists l' x, l = l' ++ [x].
Proof.
  destruct l as [|a l] using rev_ind; [now left |]. right. eauto.
Qed.

(** ** [rmap] over list indexing *)

Lemma rmap_Ok_map {A B} (f : A -> result B) (g : A -> B) l :
  (forall x, In x l -> f x = Ok (g x)) -> rmap f l = Ok (map g l).
Proof.
  induction l as [|x l IH]; intros Hf; simpl; [reflexivity |].
  rewrite Hf by (now left). simpl. rewrite IH by (intros y Hy; apply Hf; now right).
  reflexivity.
Qed.

Lemma rmap_length {A B} (f : A -> result B) l l' : rmap f l = Ok l' -> length l' = length l.
Proof.
  revert l'. induction l as [|x l IH]; intros l' H; simpl in H; [now inversion H |].
  destruct (f x); [| discriminate]. simpl in H.
  destruct (rmap f l) eqn:E; [| discriminate]. inversion H; subst. simpl. now rewrite (IH _ eq_refl).
Qed.

(** [rmap] raises as soon as one element does. *)
Lemma rmap_not_ok {A B} (f : A -> result B) l x :
  In x l -> is_ok (f x) = false -> is_ok (rmap f l) = false.
Proof.
  induction l as [|y l IH]; intros Hin Hx; [destruct Hin |]. simpl.
  destruct Hin as [-> | Hin].
  - destruct (f x); [discriminate | reflexivity].
  - destruct (f y); simpl; [| reflexivity]. specialize (IH Hin Hx).
    destruct (rmap f l); [discriminate | reflexivity].
Qed.

Lemma rmap_py_index_Ok {A} (xs : list A) idx ns :
  rmap (py_index xs) idx = Ok ns -> length ns = length idx /\ Forall (fun n => In n xs) ns.
Proof.
  revert ns. induction idx as [|i idx IH]; intros ns H; simpl in H; [inversion H; auto |].
  unfold py_index at 1 in H. destruct (nth_error xs i) eqn:E; [| discriminate]. simpl in H.
  destruct (rmap (py_index xs) idx) as [ns'|] eqn:E'; [| discriminate]. inversion H; subst.
  destruct (IH _ eq_refl) as [Hl HF]. split; [simpl; lia |].
  constructor; [eapply nth_error_In; eassumption | exact HF].
Qed.

(** Indexing a list at positions one of which is out of range raises [IndexError]. *)
Lemma rmap_py_index_Err {A} (xs : list A) idx :
  (exists i, In i idx /\ (length xs <= i)%nat) -> rmap (py_index xs) idx = Err IndexError.
Proof.
  induction idx as [|j idx IH]; intros (i & Hi & Hge); [destruct Hi |]. simpl.
  unfold py_index at 1. destruct (nth_error xs j) eqn:E; simpl; [| reflexivity].
  destruct Hi as [-> | Hi].
  - assert (Hs : nth_error xs i <> None) by congruence.
    apply nth_error_Some in Hs. lia.
  - rewrite IH by eauto. reflexivity.
Qed.

Lemma fold_left_Zadd_ones ns z :
  Forall (fun n => n = 1%Z) ns -> fold_left Z.add ns z = (z + Z.of_nat (length ns))%Z.
Proof.
  revert z. induction ns as [|n ns IH]; intros z H; simpl; [lia |].
  inversion H; subst. rewrite IH by assumption. lia.
Qed.

(** Deciding [Forall] of a boolean test. *)
Lemma Forall_forallb {A} (f : A -> bool) l : forallb f l = true -> Forall (fun x => f x = true) l.
Proof. intros H. apply Forall_forall. now apply forallb_forall. Qed.

(** ** [zoom] and [mmap] *)

Lemma zoom_run {S T A} (g : S -> T) (h : T -> S -> S) (m : PyM T A) s :
  zoom g h m s = (fst (m (g s)), h (snd (m (g s))) s).
Proof. unfold zoom. now destruct (m (g s)). Qed.

Lemma mmap_cons {S A B} (f : A -> PyM S B) x xs s :
  mmap f (x :: xs) s =
  match f x s with
  | (Ok y, s1) => match mmap f xs s1 with
                  | (Ok ys, s2) => (Ok (y :: ys), s2)
                  | (Err e, s2) => (Err e, s2)
                  end
  | (Err e, s1) => (Err e, s1)
  end.
Proof.
  simpl. unfold bind, ret. destruct (f x s) as [[y|e] s1]; [| reflexivity].
  now destruct (mmap f xs s1) as [[ys|e] s2].
Qed.

Lemma mmap_app {S A B} (f : A -> PyM S B) xs ys s :
  mmap f (xs ++ ys) s =
  match mmap f xs s with
  | (Ok a, s1) => match mmap f ys s1 with
                  | (Ok b, s2) => (Ok (a ++ b), s2)
                  | (Err e, s2) => (Err e, s2)
                  end
  | (Err e, s1) => (Err e, s1)
  end.
Proof.
  revert s. induction xs as [|x xs IH]; intros s; simpl app.
  - simpl. unfold ret. now destruct (mmap f ys s) as [[b|e] s2].
  - rewrite !mmap_cons. destruct (f x s) as [[y|e] s1]; [| reflexivity].
    rewrite IH. destruct (mmap f xs s1) as [[a|e] s2]; [| reflexivity].
    now destruct (mmap f ys s2) as [[b|e] s3].
Qed.

(** Each returned element is related to its input by [R]. *)
Lemma mmap_Forall2 {S A B} (f : A -> PyM S B) (R : A -> B -> Prop) xs s ys s' :
  (forall x s0 y s1, f x s0 = (Ok y, s1) -> R x y) ->
  mmap f xs s = (Ok ys, s') -> Forall2 R xs ys.
Proof.
  intros Hf. revert s ys. induction xs as [|x xs IH]; intros s ys H.
  - simpl in H. inversion H. constructor.
  - rewrite mmap_cons in H. destruct (f x s) as [[y|e] s1] eqn:E; [| discriminate].
    destruct (mmap f xs s1) as [[ys'|e] s2] eqn:E'; inversion H; subst.
    constructor; [exact (Hf _ _ _ _ E) | exact (IH _ _ E')].
Qed.

(** A loop whose every call returns, returns, with each result related
    to its input. *)
Lemma mmap_total {S A B} (f : A -> PyM S B) (R : A -> B -> Prop) xs :
  (forall x s, In x xs -> exists y s', f x s = (Ok y, s') /\ R x y) ->
  forall s, exists ys s', mmap f xs s = (Ok ys, s') /\ Forall2 R xs ys.
Proof.
  induction xs as [|x xs IH]; intros Hf s; [exists [], s; split; [reflexivity | constructor] |].
  rewrite mmap_cons. destruct (Hf x s (or_introl eq_refl)) as (y & s1 & E & Hy). rewrite E.
  destruct (IH (fun x' s' H => Hf x' s' (or_intror H)) s1) as (ys & s2 & E2 & Hys). rewrite E2.
  exists (y :: ys), s2. split; [reflexivity | constructor; assumption].
Qed.

Lemma preserves_mmap {S A B} (I : S -> Prop) (f : A -> PyM S B) xs :
  (forall x, preserves I (f x)) -> preserves I (mmap f xs).
Proof.
  intros Hf. induction xs as [|x xs IH]; intros s Hs; [exact Hs |].
  rewrite mmap_cons. specialize (Hf x s Hs).
  destruct (f x s) as [[y|e] s1]; simpl in *; [| exact Hf].
  specialize (IH s1 Hf). destruct (mmap f xs s1) as [[ys|e] s2]; exact IH.
Qed.

Lemma forallb_false_Exists {A} (f : A -> bool) l :
  forallb f l = false -> Exists (fun x => f x = false) l.
Proof.
  induction l as [|x l IH]; simpl; [discriminate |]. intros H.
  destruct (f x) eqn:E; [right; now apply IH | now left].
Qed.

(** A run that returned, as an equation on its result and final state. *)
Lemma run_ok {S A} (m : PyM S A) s : is_ok (fst (m s)) = true -> exists a s', m s = (Ok a, s').
Proof. destruct (m s) as [[a|e] s']; simpl; [eauto | discriminate]. Qed.

(** ** Algebra of the float model *)

Lemma fadd_comm x y : fadd x y = fadd y x.
Proof.
  destruct x as [a| | |], y as [b| | |]; try reflexivity.
  cbn [fadd]. f_equal. apply Qred_complete. ring.
Qed.

Lemma fadd_assoc x y z : fadd x (fadd y z) = fadd (fadd x y) z.
Proof.
  destruct x as [a| | |], y as [b| | |], z as [c| | |]; try reflexivity.
  cbn [fadd]. f_equal. apply Qred_complete. rewrite !Qred_correct. ring.
Qed.

Lemma fmul_comm x y : fmul x y = fmul y x.
Proof.
  destruct x as [a| | |], y as [b| | |]; try reflexivity.
  cbn [fmul]. f_equal. apply Qred_complete. ring.
Qed.

(** Unfold the [PyM] combinators. *)
Ltac py_unfold := unfold bind, get, ret, raise, lift, modify, put in *.
