(* ===== verification/Series.v ===== *)
(** * Series: the pandas and numpy operations the indicators call

    A pandas [Series] over the default integer index is a [list fl]; every
    series of one frame shares that index, so element-wise arithmetic is
    [map2]. A [DataFrame] is an association list from column names to
    columns. Each operation follows pandas' own algorithm for the calls the
    sources make: [diff], [shift], [where], [rolling(window=w)] with its
    default [min_periods = w] (a window holding a NaN yields NaN),
    [rolling.apply], [rolling.std] (ddof 1), [ewm(span, adjust=False)]
    including its handling of missing values, [pct_change] (without the
    forward fill pandas applies first, which changes nothing on a series
    without missing values), and the rolling Pearson correlation as pandas
    computes it ([cov / (var_x var_y) ** 0.5]).
    [np.mean] and [np.std] (ddof 0) work on Python lists. *)

From Stdlib Require Import String QArith Qabs Lqa List Arith Lia Bool Permutation Sorted.
From S2P Require Import Prelude.
Import ListNotations.
Open Scope fl_scope.

Definition series := list fl.
Definition frame := list (string * series).

(** [len(df)]: the number of rows, i.e. the length of any column. *)
Definition frame_len (df : frame) : nat :=
  match df with
  | [] => 0
  | (_, c) :: _ => length c
  end.

(** [df[name]]: [KeyError] for a missing column. *)
Fixpoint column (name : string) (df : frame) : result series :=
  match df with
  | [] => Err KeyError
  | (n, c) :: rest => if String.eqb n name then Ok c else column name rest
  end.

Fixpoint map2 (f : fl -> fl -> fl) (xs ys : series) : series :=
  match xs, ys with
  | x :: xs', y :: ys' => f x y :: map2 f xs' ys'
  | _, _ => []
  end.

(** [s.shift(1)]: NaN first, the last value dropped. *)
Definition shift1 (s : series) : series :=
  match s with
  | [] => []
  | _ => NaN :: removelast s
  end.

(** [s.diff()]: [s - s.shift(1)]. *)
Definition diff (s : series) : series := map2 fsub s (shift1 s).

(** [s.pct_change()]: [s / s.shift(1) - 1]; pandas first pads missing
    values forward, which is the identity on a series without NaN. *)
Definition pct_change (s : series) : series :=
  map (fun r => r ⊖ Fin 1) (map2 fdiv s (shift1 s)).

(** [s.where(s > 0, 0)] and [-s.where(s < 0, 0)]: a NaN fails both tests
    and becomes 0. *)
Definition where_pos (s : series) : series :=
  map (fun x => if flt (Fin 0) x then x else Fin 0) s.
Definition neg_where_neg (s : series) : series :=
  map (fun x => fneg (if flt x (Fin 0) then x else Fin 0)) s.

(** Sum and mean of a Python list (numpy's [np.sum], [np.mean]). *)
Definition fsum (xs : list fl) : fl := fold_left fadd xs (Fin 0).
Definition fmean (xs : list fl) : fl := fsum xs ⊘ fof_nat (length xs).

(** [np.std(xs)] (ddof 0). *)
Definition fstd (xs : list fl) : fl :=
  let m := fmean xs in
  fsqrt (fmean (map (fun x => (x ⊖ m) ⊗ (x ⊖ m)) xs)).

(** Sample variance and standard deviation (ddof 1), as [rolling.var]
    and [rolling.std]; NaN with fewer than two observations. *)
Definition fvar1 (xs : list fl) : fl :=
  match xs with
  | [] | [_] => NaN
  | _ => let m := fmean xs in
         fsum (map (fun x => (x ⊖ m) ⊗ (x ⊖ m)) xs) ⊘ fof_nat (pred (length xs))
  end.
Definition fstd1 (xs : list fl) : fl := fsqrt (fvar1 xs).

(** The window of length [w] ending at index [i]. *)
Definition window_at (w : nat) (s : series) (i : nat) : list fl :=
  firstn w (skipn (S i - w)%nat s).

(** [s.rolling(window=w).agg(f)] with [min_periods = w]. *)
Definition rolling (w : nat) (f : list fl -> fl) (s : series) : series :=
  map (fun i => if Nat.ltb (S i) w then NaN
                else let win := window_at w s i in
                     if existsb is_nan win then NaN else f win)
      (seq 0 (length s)).

Definition rolling_mean (w : nat) (s : series) : series := rolling w fmean s.
Definition rolling_std (w : nat) (s : series) : series := rolling w fstd1 s.

(** [np.sum(weights * x) / weights.sum()] with [weights = 1..w]. *)
Fixpoint weighted_sum (k : nat) (xs : list fl) : fl :=
  match xs with
  | [] => Fin 0
  | x :: xs' => (fof_nat k ⊗ x) ⊕ weighted_sum (S k) xs'
  end.
Definition wma_window (w : nat) (xs : list fl) : fl :=
  weighted_sum 1 xs ⊘ fof_nat (Nat.div (Nat.mul w (S w)) 2).

(** [s.ewm(span=p, adjust=False).mean()]: pandas' recursion, with
    [alpha = 2 / (p + 1)], the old weight decaying across missing values,
    and NaN output until the first observation. *)
Definition ewm_alpha (span : nat) : fl := Fin 2 ⊘ fof_nat (S span).

Fixpoint ewm_loop (alpha : fl) (weighted old_wt : fl) (xs : series) : series :=
  match xs with
  | [] => []
  | cur :: rest =>
      let obs := negb (is_nan cur) in
      if negb (is_nan weighted) then
        let old_wt' := old_wt ⊗ (Fin 1 ⊖ alpha) in
        if obs then
          let weighted' :=
            if negb (feqb weighted cur) then ((old_wt' ⊗ weighted) ⊕ (alpha ⊗ cur)) ⊘ (old_wt' ⊕ alpha)
            else weighted in
          weighted' :: ewm_loop alpha weighted' (Fin 1) rest
        else weighted :: ewm_loop alpha weighted old_wt' rest
      else if obs then cur :: ewm_loop alpha cur old_wt rest
      else NaN :: ewm_loop alpha weighted old_wt rest
  end.

Definition ewm_mean (span : nat) (s : series) : series :=
  match s with
  | [] => []
  | x :: rest => x :: ewm_loop (ewm_alpha span) x (Fin 1) rest
  end.

(** Pearson correlation of two windows as pandas' [rolling.corr]:
    the ddof-1 covariance over the square root of the product of the
    ddof-1 variances. *)
Definition fcov1 (xs ys : list fl) : fl :=
  match xs with
  | [] | [_] => NaN
  | _ => let mx := fmean xs in let my := fmean ys in
         fsum (map2 (fun x y => (x ⊖ mx) ⊗ (y ⊖ my)) xs ys) ⊘ fof_nat (pred (length xs))
  end.
Definition fcorr (xs ys : list fl) : fl :=
  fcov1 xs ys ⊘ fsqrt (fvar1 xs ⊗ fvar1 ys).

(** [r1.rolling(window=w).corr(r2)]: NaN where either window holds a NaN. *)
Definition rolling_corr (w : nat) (s1 s2 : series) : series :=
  map (fun i => if Nat.ltb (S i) w then NaN
                else let a := window_at w s1 i in let b := window_at w s2 i in
                     if existsb is_nan a || existsb is_nan b then NaN else fcorr a b)
      (seq 0 (length s1)).

(** ** Finite windows: the float operations on [map Fin qs] *)

Definition qsum (qs : list Q) : Q := fold_left Qplus' qs 0.
Definition qlen (qs : list Q) : Q := inject_Z (Z.of_nat (length qs)).
Definition qmean (qs : list Q) : Q := Qred (qsum qs / qlen qs).

Fixpoint qmap2 (f : Q -> Q -> Q) (xs ys : list Q) : list Q :=
  match xs, ys with
  | x :: xs', y :: ys' => f x y :: qmap2 f xs' ys'
  | _, _ => []
  end.

(** Sum of squared deviations and of cross deviations. *)
Definition qsq_dev (m : Q) (qs : list Q) : Q :=
  qsum (map (fun x => Qred (Qred (x + - m) * Qred (x + - m))) qs).
Definition qcross_dev (mx my : Q) (xs ys : list Q) : Q :=
  qsum (qmap2 (fun x y => Qred (Qred (x + - mx) * Qred (y + - my))) xs ys).

Definition qpred_len (qs : list Q) : Q := inject_Z (Z.of_nat (pred (length qs))).

Definition fin_or_nan (x : fl) : bool :=
  match x with Fin _ | NaN => true | _ => false end.

(** A finite, non-zero price. *)
Definition nonzero_fin (x : fl) : Prop := exists q, x = Fin q /\ ~ q == 0.

Definition corr_bounded (v : fl) : Prop :=
  v = NaN \/ exists c, v = Fin c /\ -1 <= c <= 1.

(** numpy's order on floats: NaN after every other value. *)
Definition sort_le (a b : fl) : bool :=
  match a, b with
  | _, NaN => true
  | NaN, _ => false
  | _, _ => fle a b
  end.

(** Insert after every entry whose key is not greater: equal keys keep
    their index order. *)
Fixpoint insert_idx (x : fl * nat) (l : list (fl * nat)) : list (fl * nat) :=
  match l with
  | [] => [x]
  | y :: l' => if sort_le (fst y) (fst x) then y :: insert_idx x l' else x :: l
  end.

(** [np.argsort(ds)]: indices of [ds] in ascending order, ties by index. *)
Definition argsort (ds : list fl) : list nat :=
  map snd (fold_left (fun acc p => insert_idx p acc) (combine ds (seq 0 (length ds))) []).

(** Ascending by key, and by index among equal keys. *)
Definition pair_le (x y : fl * nat) : Prop :=
  sort_le (fst x) (fst y) = true /\ (sort_le (fst y) (fst x) = true -> (snd x < snd y)%nat).

Definition argsort_fold (ps : list (fl * nat)) : list (fl * nat) :=
  fold_left (fun acc p => insert_idx p acc) ps [].

Lemma fold_left_Qplus_acc qs a : fold_left Qplus' qs a == a + fold_left Qplus' qs 0.
Proof.
  revert a. induction qs as [|q qs IH]; intros a; simpl; [lra |].
  rewrite (IH (Qplus' a q)), (IH (Qplus' 0 q)), !Qplus'_correct. lra.
Qed.

Lemma qsum_cons q qs : qsum (q :: qs) == q + qsum qs.
Proof. unfold qsum; simpl. rewrite fold_left_Qplus_acc, Qplus'_correct. lra. Qed.

Lemma qsum_nonneg qs : Forall (Qle 0) qs -> 0 <= qsum qs.
Proof.
  induction 1 as [|q qs Hq _ IH]; [unfold qsum; simpl; lra |].
  rewrite qsum_cons. lra.
Qed.

Lemma fold_left_fadd_Fin qs a :
  fold_left fadd (map Fin qs) (Fin a) = Fin (fold_left Qplus' qs a).
Proof. revert a. induction qs as [|q qs IH]; intros a; simpl; auto. Qed.

Lemma fsum_Fin qs : fsum (map Fin qs) = Fin (qsum qs).
Proof. apply fold_left_fadd_Fin. Qed.

Lemma qlen_pos qs : qs <> [] -> 0 < qlen qs.
Proof.
  intros H. unfold qlen. destruct qs; [congruence |]. simpl length.
  unfold Qlt; simpl. lia.
Qed.

Lemma fof_nat_Fin_pos n : (0 < n)%nat -> exists q, fof_nat n = Fin q /\ 0 < q.
Proof.
  intros H. exists (inject_Z (Z.of_nat n)). split; [reflexivity |].
  unfold Qlt; simpl. lia.
Qed.

Lemma fdiv_Fin_pos a b : 0 < b -> fdiv (Fin a) (Fin b) = Fin (Qred (a / b)).
Proof. intros Hb. apply fdiv_Fin. lra. Qed.

Lemma fmean_Fin qs : qs <> [] -> fmean (map Fin qs) = Fin (qmean qs).
Proof.
  intros H. unfold fmean, qmean. rewrite fsum_Fin, length_map.
  apply fdiv_Fin_pos, qlen_pos, H.
Qed.

Lemma map2_Fin (f : fl -> fl -> fl) (g : Q -> Q -> Q) xs ys :
  (forall a b, f (Fin a) (Fin b) = Fin (g a b)) ->
  map2 f (map Fin xs) (map Fin ys) = map Fin (qmap2 g xs ys).
Proof.
  intros Hfg. revert ys. induction xs as [|x xs IH]; intros [|y ys]; simpl; auto.
  now rewrite Hfg, IH.
Qed.

Lemma qpred_len_pos qs : (2 <= length qs)%nat -> 0 < qpred_len qs.
Proof. intros H. unfold qpred_len, Qlt; simpl. lia. Qed.

Lemma fvar1_long xs : (2 <= length xs)%nat ->
  fvar1 xs = fsum (map (fun x => (x ⊖ fmean xs) ⊗ (x ⊖ fmean xs)) xs)
               ⊘ fof_nat (pred (length xs)).
Proof. intros H. destruct xs as [|a [|b xs]]; simpl in H; try lia; reflexivity. Qed.

Lemma fvar1_Fin qs : (2 <= length qs)%nat ->
  fvar1 (map Fin qs) = Fin (Qred (qsq_dev (qmean qs) qs / qpred_len qs)).
Proof.
  intros H.
  assert (Hne : qs <> []) by (intros ->; simpl in H; lia).
  rewrite fvar1_long by (rewrite length_map; exact H).
  rewrite (fmean_Fin _ Hne), map_map, length_map.
  transitivity (fsum (map Fin (map (fun x => Qred (Qred (x + - qmean qs) * Qred (x + - qmean qs))) qs))
                  ⊘ fof_nat (pred (length qs))).
  { rewrite map_map. reflexivity. }
  rewrite fsum_Fin. apply fdiv_Fin_pos, qpred_len_pos, H.
Qed.

Lemma fcov1_long xs ys : (2 <= length xs)%nat ->
  fcov1 xs ys = fsum (map2 (fun x y => (x ⊖ fmean xs) ⊗ (y ⊖ fmean ys)) xs ys)
                  ⊘ fof_nat (pred (length xs)).
Proof. intros H. destruct xs as [|a [|b xs]]; simpl in H; try lia; reflexivity. Qed.

Lemma fcov1_Fin xs ys : (2 <= length xs)%nat -> ys <> [] ->
  fcov1 (map Fin xs) (map Fin ys) =
  Fin (Qred (qcross_dev (qmean xs) (qmean ys) xs ys / qpred_len xs)).
Proof.
  intros H Hys.
  assert (Hxs : xs <> []) by (intros ->; simpl in H; lia).
  rewrite fcov1_long by (rewrite length_map; exact H).
  rewrite (fmean_Fin _ Hxs), (fmean_Fin _ Hys), length_map.
  rewrite (map2_Fin _ (fun x y => Qred (Qred (x + - qmean xs) * Qred (y + - qmean ys)))) by reflexivity.
  rewrite fsum_Fin. apply fdiv_Fin_pos, qpred_len_pos, H.
Qed.

Lemma qsq_dev_nonneg m qs : 0 <= qsq_dev m qs.
Proof.
  apply qsum_nonneg, Forall_forall. intros x Hx.
  apply in_map_iff in Hx as [y [<- _]].
  rewrite Qred_correct. generalize (Qred (y + - m)). intro t. nra.
Qed.

(** One step of the Cauchy-Schwarz induction. *)
Lemma cauchy_schwarz_step (a b A B C : Q) : 0 <= A -> 0 <= B -> C * C <= A * B ->
  (a * b + C) * (a * b + C) <= (a * a + A) * (b * b + B).
Proof.
  intros HA HB HC.
  destruct (Qlt_le_dec 0 A) as [HApos | HA0].
  - assert (0 <= a*a*B + b*b*A - 2*a*b*C).
    { apply (Qmult_le_r _ _ A HApos).
      assert (0 <= (a*C - b*A) * (a*C - b*A)) by (generalize (a*C - b*A); intro t; nra).
      assert (0 <= (a*a) * (A*B - C*C)) by (apply Qmult_le_0_compat; nra).
      nra. }
    nra.
  - assert (HA' : A == 0) by lra.
    assert (C * C <= 0) by (rewrite HA', Qmult_0_l in HC; exact HC).
    assert (C == 0) by nra. nra.
Qed.

(** Cauchy-Schwarz for the deviation sums. *)
Lemma cauchy_schwarz mx my xs ys : length xs = length ys ->
  qcross_dev mx my xs ys * qcross_dev mx my xs ys <= qsq_dev mx xs * qsq_dev my ys.
Proof.
  unfold qcross_dev, qsq_dev. revert ys.
  induction xs as [|x xs IH]; intros [|y ys] Hl; simpl in Hl; try discriminate.
  cbn [qmap2 map]. rewrite !qsum_cons, !Qred_correct.
  apply cauchy_schwarz_step.
  - apply (qsq_dev_nonneg mx xs).
  - apply (qsq_dev_nonneg my ys).
  - apply IH. lia.
Qed.

Lemma qpred_len_length xs ys : length xs = length ys -> qpred_len xs = qpred_len ys.
Proof. unfold qpred_len. now intros ->. Qed.

(** A rational bounded by a positive square root divided by it lies in [-1, 1]. *)
Lemma ratio_bounded c s : 0 < s -> c * c <= s * s -> -1 <= c / s <= 1.
Proof.
  intros Hs Hc. split.
  - apply Qle_shift_div_l; [exact Hs | nra].
  - apply Qle_shift_div_r; [exact Hs | nra].
Qed.

Lemma qdiv_sq_le a b k : 0 < k -> a <= b -> a / k / k <= b / k / k.
Proof.
  intros Hk Hab. unfold Qdiv.
  assert (0 < / k) by (apply Qinv_lt_0_compat, Hk).
  apply Qmult_le_compat_r; [apply Qmult_le_compat_r |]; lra.
Qed.

(** The correlation of two finite windows is NaN or lies in [-1, 1]. *)
Lemma fcorr_bounded xs ys : length xs = length ys -> (2 <= length xs)%nat ->
  fcorr (map Fin xs) (map Fin ys) = NaN \/
  exists c, fcorr (map Fin xs) (map Fin ys) = Fin c /\ -1 <= c <= 1.
Proof.
  intros Hl H2.
  assert (Hys : ys <> []) by (intros ->; simpl in Hl; rewrite Hl in H2; lia).
  unfold fcorr.
  rewrite fcov1_Fin, !fvar1_Fin by (try rewrite <- Hl; assumption).
  rewrite <- (qpred_len_length _ _ Hl). cbn [fmul].
  set (k := qpred_len xs). assert (Hk : 0 < k) by apply qpred_len_pos, H2.
  set (Sxy := qcross_dev (qmean xs) (qmean ys) xs ys).
  set (Sxx := qsq_dev (qmean xs) xs). set (Syy := qsq_dev (qmean ys) ys).
  assert (Hcs : Sxy * Sxy <= Sxx * Syy) by apply cauchy_schwarz, Hl.
  assert (HSxx : 0 <= Sxx) by apply qsq_dev_nonneg.
  assert (HSyy : 0 <= Syy) by apply qsq_dev_nonneg.
  set (cov := Qred (Sxy / k)).
  set (t := Qred (Qred (Sxx / k) * Qred (Syy / k))).
  assert (Ht : 0 <= t).
  { unfold t. rewrite !Qred_correct.
    apply Qmult_le_0_compat; apply Qle_shift_div_l; lra. }
  assert (Hcov : cov * cov <= t).
  { unfold t, cov. rewrite !Qred_correct.
    setoid_replace (Sxy / k * (Sxy / k)) with (Sxy * Sxy / k / k) by (field; lra).
    setoid_replace (Sxx / k * (Syy / k)) with (Sxx * Syy / k / k) by (field; lra).
    apply qdiv_sq_le; assumption. }
  unfold fsqrt.
  destruct (Qltb t 0) eqn:Et; [apply Qltb_iff in Et; lra |].
  pose proof (qsqrt_sq_ge t Ht) as Hsq. pose proof (qsqrt_nonneg t) as Hs0.
  cbn [fdiv]. destruct (Qeq_bool (qsqrt t) 0) eqn:Es.
  - left. apply Qeq_bool_iff in Es.
    assert (Ht0 : t == 0).
    { destruct (Qlt_le_dec 0 t) as [Hp|]; [| lra].
      pose proof (qsqrt_pos t Hp). lra. }
    assert (Hc0 : cov == 0) by (generalize cov Hcov; intros c Hc; nra).
    apply Qeq_bool_iff in Hc0. now rewrite Hc0.
  - right. eexists; split; [reflexivity |]. rewrite Qred_correct.
    apply ratio_bounded.
    + assert (~ qsqrt t == 0) by (intro E; apply Qeq_bool_iff in E; congruence). lra.
    + lra.
Qed.

(** ** Finiteness of series *)

Lemma Forall_map2 (P Q R : fl -> Prop) f xs ys :
  Forall P xs -> Forall Q ys -> (forall x y, P x -> Q y -> R (f x y)) ->
  Forall R (map2 f xs ys).
Proof.
  intros HP. revert ys. induction HP; intros ys HQ Hf; [constructor |].
  destruct HQ; simpl; constructor; auto.
Qed.

Lemma Forall_removelast {A} (P : A -> Prop) l : Forall P l -> Forall P (removelast l).
Proof.
  intros H. apply Forall_forall. intros x Hx.
  apply (proj1 (Forall_forall P l) H), (in_removelast_l _ _ Hx).
Qed.

(** Returns of non-zero finite prices are finite, except the leading NaN. *)
Lemma pct_change_fin_or_nan s :
  Forall nonzero_fin s -> Forall (fun x => fin_or_nan x = true) (pct_change s).
Proof.
  intros H. unfold pct_change. apply Forall_map.
  destruct s as [|x s]; [constructor |].
  unfold shift1. inversion H as [|? ? Hx Hs]; subst.
  cbn [map2]. constructor; [destruct x; reflexivity |].
  apply (Forall_map2 nonzero_fin nonzero_fin); [exact Hs | apply Forall_removelast, H |].
  intros a b [qa [-> _]] [qb [-> Hb]]. rewrite fdiv_Fin by exact Hb. reflexivity.
Qed.

Lemma no_nan_is_Fin l :
  Forall (fun x => fin_or_nan x = true) l -> existsb is_nan l = false ->
  exists qs, l = map Fin qs.
Proof.
  induction 1 as [|x l Hx _ IH]; intros Hn; [exists []; reflexivity |].
  simpl in Hn. apply orb_false_iff in Hn as [Hx' Hl].
  destruct IH as [qs ->]; [exact Hl |].
  destruct x; try discriminate. exists (q :: qs). reflexivity.
Qed.

Lemma length_window_at w s1 s2 i :
  length s1 = length s2 -> length (window_at w s1 i) = length (window_at w s2 i).
Proof. intros H. unfold window_at. now rewrite !length_firstn, !length_skipn, H. Qed.

Lemma Forall_window_at (P : fl -> Prop) w s i : Forall P s -> Forall P (window_at w s i).
Proof.
  intros H. apply Forall_forall. intros x Hx. unfold window_at in Hx.
  apply in_firstn_l, in_skipn_l in Hx. exact (proj1 (Forall_forall P s) H x Hx).
Qed.

Lemma fcorr_short xs ys : (length xs < 2)%nat -> fcorr xs ys = NaN.
Proof. intros H. destruct xs as [|a [|b xs]]; simpl in H; try lia; reflexivity. Qed.

(** Every value of a rolling correlation is NaN or lies in [-1, 1]. *)
Lemma rolling_corr_bounded w s1 s2 :
  length s1 = length s2 ->
  Forall (fun x => fin_or_nan x = true) s1 -> Forall (fun x => fin_or_nan x = true) s2 ->
  Forall corr_bounded (rolling_corr w s1 s2).
Proof.
  intros Hl H1 H2. unfold rolling_corr. apply Forall_map, Forall_forall.
  intros i _. destruct (Nat.ltb (S i) w); [now left |].
  destruct (existsb is_nan (window_at w s1 i)) eqn:E1; [now left |].
  destruct (existsb is_nan (window_at w s2 i)) eqn:E2; [now left |]. simpl.
  destruct (no_nan_is_Fin _ (Forall_window_at _ w s1 i H1) E1) as [xs Hxs].
  destruct (no_nan_is_Fin _ (Forall_window_at _ w s2 i H2) E2) as [ys Hys].
  pose proof (length_window_at w s1 s2 i Hl) as Hw.
  rewrite Hxs, Hys in *. rewrite !length_map in Hw.
  destruct (Compare_dec.lt_dec (length xs) 2) as [Hs | Hs].
  - left. apply fcorr_short. now rewrite length_map.
  - apply fcorr_bounded; [assumption | lia].
Qed.

Lemma length_map2 f xs ys : length (map2 f xs ys) = Nat.min (length xs) (length ys).
Proof. revert ys. induction xs; intros [|y ys]; simpl; auto. Qed.

Lemma length_shift1 s : length (shift1 s) = length s.
Proof.
  assert (Hr : forall l : series, length (removelast l) = pred (length l)).
  { intros l. rewrite removelast_firstn_len, length_firstn. lia. }
  destruct s as [|x s]; [reflexivity |]. unfold shift1.
  change (length (NaN :: removelast (x :: s))) with (S (length (removelast (x :: s)))).
  rewrite Hr. reflexivity.
Qed.

Lemma length_rolling w f s : length (rolling w f s) = length s.
Proof. unfold rolling. now rewrite length_map, length_seq. Qed.

Lemma length_pct_change s : length (pct_change s) = length s.
Proof. unfold pct_change. rewrite length_map, length_map2, length_shift1. lia. Qed.

(** ** [argsort] is a stable sort of the indices *)

Lemma sort_le_total a b : sort_le a b = true \/ sort_le b a = true.
Proof.
  destruct a as [qa| | |], b as [qb| | |]; cbn; auto.
  destruct (Qlt_le_dec qa qb); [left | right]; apply Qle_bool_iff; lra.
Qed.

Lemma sort_le_trans a b c : sort_le a b = true -> sort_le b c = true -> sort_le a c = true.
Proof.
  destruct a as [qa| | |], b as [qb| | |], c as [qc| | |]; cbn; auto; try discriminate.
  rewrite !Qle_bool_iff. lra.
Qed.

Lemma insert_idx_perm x l : Permutation (insert_idx x l) (x :: l).
Proof.
  induction l as [|y l IH]; simpl; [reflexivity |].
  destruct (sort_le (fst y) (fst x)); [| reflexivity].
  rewrite IH. apply perm_swap.
Qed.

Lemma insert_idx_hd a x l :
  pair_le a x -> HdRel pair_le a l -> HdRel pair_le a (insert_idx x l).
Proof.
  intros Hax Hal. destruct l as [|y l]; simpl; [now constructor |].
  destruct (sort_le (fst y) (fst x)); constructor; [now inversion Hal | exact Hax].
Qed.

Lemma insert_idx_sorted x l :
  Sorted pair_le l -> Forall (fun y => (snd y < snd x)%nat) l -> Sorted pair_le (insert_idx x l).
Proof.
  induction 1 as [|y l Hl IH Hhd]; intros Hlt; simpl; [repeat constructor |].
  inversion Hlt as [|? ? Hy Hrest]; subst.
  destruct (sort_le (fst y) (fst x)) eqn:E.
  - constructor; [now apply IH |]. apply insert_idx_hd; [split; auto | exact Hhd].
  - constructor; [now constructor |]. constructor.
    destruct (sort_le_total (fst x) (fst y)) as [H | H]; [| congruence].
    split; [exact H | congruence].
Qed.

Lemma argsort_fold_acc_perm ps acc :
  Permutation (fold_left (fun acc p => insert_idx p acc) ps acc) (ps ++ acc).
Proof.
  revert acc. induction ps as [|p ps IH]; intros acc; simpl; [reflexivity |].
  rewrite IH, insert_idx_perm. symmetry. apply Permutation_middle.
Qed.

Lemma map_snd_combine_seq (ds : list fl) s :
  map snd (combine ds (seq s (length ds))) = seq s (length ds).
Proof. revert s. induction ds as [|d ds IH]; intros s; simpl; [reflexivity | now rewrite IH]. Qed.

(** [argsort] returns each index exactly once. *)
Lemma argsort_perm ds : Permutation (argsort ds) (seq 0 (length ds)).
Proof.
  unfold argsort. rewrite argsort_fold_acc_perm, app_nil_r, map_snd_combine_seq.
  reflexivity.
Qed.

Lemma argsort_fold_sorted ds s acc :
  Sorted pair_le acc -> Forall (fun y => (snd y < s)%nat) acc ->
  Sorted pair_le (fold_left (fun acc p => insert_idx p acc) (combine ds (seq s (length ds))) acc).
Proof.
  revert s acc. induction ds as [|d ds IH]; intros s acc Hs Hlt; simpl; [exact Hs |].
  apply IH.
  - apply insert_idx_sorted; assumption.
  - apply Forall_forall. intros y Hy.
    apply (Permutation_in _ (insert_idx_perm _ _)) in Hy as [<- | Hy]; simpl; [lia |].
    pose proof (proj1 (Forall_forall _ _) Hlt y Hy) as H. cbv beta in H. lia.
Qed.

Lemma combine_seq_key (ds : list fl) s :
  Forall (fun p => nth (snd p - s) ds NaN = fst p /\ (s <= snd p)%nat) (combine ds (seq s (length ds))).
Proof.
  revert s. induction ds as [|d ds IH]; intros s; simpl; constructor.
  - simpl. now rewrite Nat.sub_diag.
  - eapply Forall_impl; [| apply IH]. intros [x i] [Hx Hi]. simpl in *.
    split; [| lia]. replace (i - s)%nat with (S (i - S s)) by lia. exact Hx.
Qed.

Lemma Sorted_map_snd {A} (R : A * nat -> A * nat -> Prop) (key : nat -> A) L :
  Sorted R L -> Forall (fun p => key (snd p) = fst p) L ->
  Sorted (fun i j => R (key i, i) (key j, j)) (map snd L).
Proof.
  induction 1 as [|[a i] L HL IH Hhd]; intros HF; simpl; constructor;
    inversion HF as [|? ? Hk HF']; subst; [now apply IH |].
  destruct Hhd as [|[b j] L' Hab]; constructor.
  inversion HF' as [|? ? Hk' _]; subst. simpl in *. now rewrite Hk, Hk'.
Qed.

(** [argsort] orders indices by ascending key, NaN last, equal keys by index. *)
Lemma argsort_sorted ds :
  Sorted (fun i j => pair_le (nth i ds NaN, i) (nth j ds NaN, j)) (argsort ds).
Proof.
  unfold argsort. apply Sorted_map_snd.
  - apply argsort_fold_sorted; constructor.
  - assert (Hp : Permutation (combine ds (seq 0 (length ds))) (argsort_fold (combine ds (seq 0 (length ds))))).
    { unfold argsort_fold. rewrite argsort_fold_acc_perm, app_nil_r. reflexivity. }
    pose proof (Permutation_Forall Hp (combine_seq_key ds 0)) as HF.
    eapply Forall_impl; [| exact HF].
    intros [x i] [H _]. simpl in *. now rewrite Nat.sub_0_r in H.
Qed.

Lemma length_argsort ds : length (argsort ds) = length ds.
Proof. rewrite (Permutation_length (argsort_perm ds)). apply length_seq. Qed.

Lemma NoDup_argsort ds : NoDup (argsort ds).
Proof. eapply Permutation_NoDup; [symmetry; apply argsort_perm | apply seq_NoDup]. Qed.

Lemma NoDup_firstn {A} (l : list A) k : NoDup l -> NoDup (firstn k l).
Proof.
  rewrite <- (firstn_skipn k l) at 1. intros H. now apply NoDup_app_remove_r in H.
Qed.

(** Pigeonhole: more than [m] distinct naturals include one that is at least [m]. *)
Lemma NoDup_exists_ge (idx : list nat) m :
  NoDup idx -> (m < length idx)%nat -> exists i, In i idx /\ (m <= i)%nat.
Proof.
  intros Hnd Hlt. destruct (Forall_dec (fun i => (i < m)%nat) (fun i => Compare_dec.lt_dec i m) idx)
    as [Hall | Hnot].
  - exfalso. assert (incl idx (seq 0 m)) as Hinc.
    { intros i Hi. apply in_seq. pose proof (proj1 (Forall_forall _ _) Hall i Hi) as H.
      cbv beta in H. lia. }
    pose proof (NoDup_incl_length Hnd Hinc) as Hl. rewrite length_seq in Hl. lia.
  - apply neg_Forall_Exists_neg in Hnot; [| intros i; apply Compare_dec.lt_dec].
    apply Exists_exists in Hnot as [i [Hi Hge]]. exists i. split; [exact Hi | lia].
Qed.
