(* ===== verification/CrossCorrelation.v ===== *)
(** * DivergenceDetector: [CrossCorrelationPair]
    (src/FuturesQuant/core/indicator/cross_correlation_pair.py)

    The indicator keeps two Python lists, [historical_correlation] and
    [historical_spread], capped at [lookback_period] entries by a
    [pop(0)] after each append. [calculate] is a state-passing function in
    [PyM]: a missing column raises [KeyError] before any mutation, a frame
    shorter than the lookback returns the neutral record untouched, and
    otherwise the histories are updated and the signal is derived from the
    correlation and the z-score of the spread against its own history. *)

From Stdlib Require Import String QArith Qabs Lqa List Arith Lia Bool.
From S2P Require Import Prelude Series.
Import ListNotations.
Open Scope fl_scope.

Module CCP.

(** Constructor arguments ([__init__]). *)
Record params : Type := mk_params {
  lookback_period : nat;
  correlation_threshold : fl;
  divergence_threshold : fl
}.

Definition default_params : params :=
  mk_params 20 (Fin (7 # 10)) (Fin (2 # 10)).

(** Mutable fields of the instance. *)
Record state : Type := mk_state {
  historical_correlation : list fl;
  historical_spread : list fl
}.

Definition init_state : state := mk_state [] [].

(** The returned dictionary. *)
Record output : Type := mk_output {
  correlation : fl;
  spread : fl;
  signal : option signal_kind;
  strength : fl
}.

Definition neutral : output := mk_output (Fin 0) (Fin 0) None (Fin 0).

(** Append both values, then [pop(0)] both lists when the correlation
    history exceeds the lookback (lines 71-77). *)
Definition store_history (p : params) (c s : fl) (st : state) : state :=
  let hc := historical_correlation st ++ [c] in
  let hs := historical_spread st ++ [s] in
  if Nat.ltb (lookback_period p) (length hc)
  then mk_state (pop0 hc) (pop0 hs)
  else mk_state hc hs.

(** The z-score of [spread] against the spread history (lines 85-87). *)
Definition spread_zscore (hs : list fl) (spread : fl) : fl :=
  (spread ⊖ fmean hs) ⊘ fstd hs.

(** Lines 79-97: signal and strength from the correlation and the
    current spread history. *)
Definition decide_signal (p : params) (corr spread : fl) (hs : list fl)
  : option signal_kind * fl :=
  if fge (fabs corr) (correlation_threshold p) then
    let z := spread_zscore hs spread in
    if fge (fabs z) (divergence_threshold p) then
      (Some (if fgt z (Fin 0) then SELL else BUY), py_min (fabs corr) (fabs z))
    else (None, Fin 0)
  else (None, Fin 0).

(** [calculate(data)] (lines 38-104). *)
Definition calculate (p : params) (data : frame) : PyM state output :=
  (if Nat.ltb (frame_len data) (lookback_period p) then ret neutral
   else
     a1 <- lift (column "asset1" data) ;;
     a2 <- lift (column "asset2" data) ;;
     let returns1 := pct_change a1 in
     let returns2 := pct_change a2 in
     corr <- lift (iloc_neg 1 (rolling_corr (lookback_period p) returns1 returns2)) ;;
     sprd <- lift (iloc_neg 1 (map2 fsub a1 a2)) ;;
     st <- get ;;
     let st' := store_history p corr sprd st in
     put st' ;;;
     let '(sig, str) := decide_signal p corr sprd (historical_spread st') in
     ret (mk_output corr sprd sig str))%py.

(** [get_historical_values()] (lines 106-113). *)
Definition get_historical_values (st : state) : list fl * list fl :=
  (historical_correlation st, historical_spread st).

(** Sample inputs used by the witnesses: [asset2] is twice [asset1], so
    the returns are perfectly correlated. *)
Definition col (zs : list Z) : series := map (fun z => Fin (inject_Z z)) zs.
Definition sample_params : params := mk_params 3 (Fin (7 # 10)) (Fin (2 # 10)).
Definition sample_day1 : frame :=
  [("asset1"%string, col [10; 11; 12; 13]%Z); ("asset2"%string, col [20; 22; 24; 26]%Z)].
Definition sample_day2 : frame :=
  [("asset1"%string, col [10; 11; 12; 13; 15]%Z); ("asset2"%string, col [20; 22; 24; 26; 30]%Z)].
Definition sample_short : frame := [("asset1"%string, col [10; 11]%Z); ("asset2"%string, col [20; 22]%Z)].
Definition sample_exact : frame :=
  [("asset1"%string, col [10; 11; 12]%Z); ("asset2"%string, col [20; 22; 24]%Z)].
Definition sample_state1 : state := snd (calculate sample_params sample_day1 init_state).

(** The bounded-history invariant: both lists have the same length, at
    most the lookback. *)
Definition ccp_inv (p : params) (st : state) : Prop :=
  length (historical_correlation st) = length (historical_spread st) /\
  (length (historical_correlation st) <= lookback_period p)%nat.

(** One call of [calculate], on any frame. *)
Definition step (p : params) (st st' : state) : Prop :=
  exists data, snd (calculate p data st) = st'.

Definition well_formed_prices (data : frame) (a1 a2 : series) : Prop :=
  column "asset1" data = Ok a1 /\ column "asset2" data = Ok a2 /\
  length a1 = length a2 /\ Forall nonzero_fin a1 /\ Forall nonzero_fin a2.

(** ** Helper lemmas *)

Lemma store_history_inv p c s st : ccp_inv p st -> ccp_inv p (store_history p c s st).
Proof.
  intros [Heq Hle]. unfold store_history, ccp_inv.
  destruct (Nat.ltb_spec (lookback_period p) (length (historical_correlation st ++ [c])));
    simpl; unfold pop0; rewrite ?length_tl, !length_app in *; simpl in *; lia.
Qed.

(** Under the invariant, each history is the FIFO window of its pushes. *)
Lemma store_history_fifo p c s st : ccp_inv p st ->
  historical_correlation (store_history p c s st) =
    keep_last (lookback_period p) (historical_correlation st ++ [c]) /\
  historical_spread (store_history p c s st) =
    keep_last (lookback_period p) (historical_spread st ++ [s]).
Proof.
  intros [Heq Hle]. unfold store_history.
  destruct (Nat.ltb_spec (lookback_period p) (length (historical_correlation st ++ [c])))
    as [H | H]; simpl; unfold keep_last, pop0; rewrite !length_app in *; simpl in *.
  - replace (length (historical_correlation st) + 1 - lookback_period p)%nat with 1%nat by lia.
    replace (length (historical_spread st) + 1 - lookback_period p)%nat with 1%nat by lia.
    split; apply skipn_1_tl.
  - replace (length (historical_correlation st) + 1 - lookback_period p)%nat with 0%nat by lia.
    replace (length (historical_spread st) + 1 - lookback_period p)%nat with 0%nat by lia.
    split; reflexivity.
Qed.

(** Every run of [calculate] ends in one of three ways. *)
Lemma calculate_shape p data st r st' :
  calculate p data st = (r, st') ->
  ((frame_len data < lookback_period p)%nat /\ r = Ok neutral /\ st' = st) \/
  (st' = st /\ exists e, r = Err e) \/
  exists a1 a2 corr sprd,
    column "asset1" data = Ok a1 /\ column "asset2" data = Ok a2 /\
    iloc_neg 1 (rolling_corr (lookback_period p) (pct_change a1) (pct_change a2)) = Ok corr /\
    iloc_neg 1 (map2 fsub a1 a2) = Ok sprd /\
    st' = store_history p corr sprd st /\
    r = Ok (mk_output corr sprd (fst (decide_signal p corr sprd (historical_spread st')))
                                (snd (decide_signal p corr sprd (historical_spread st')))).
Proof.
  unfold calculate, bind, lift, ret, get, put.
  destruct (Nat.ltb_spec (frame_len data) (lookback_period p)) as [Hlt | Hge].
  - intros H. inversion H; subst. left. auto.
  - destruct (column "asset1" data) as [a1|e] eqn:E1;
      [| intros H; inversion H; subst; right; left; eauto].
    destruct (column "asset2" data) as [a2|e] eqn:E2;
      [| intros H; inversion H; subst; right; left; eauto].
    destruct (iloc_neg 1 _) as [corr|e] eqn:Ec;
      [| intros H; inversion H; subst; right; left; eauto].
    destruct (iloc_neg 1 (map2 fsub a1 a2)) as [sprd|e] eqn:Es;
      [| intros H; inversion H; subst; right; left; eauto].
    destruct (decide_signal _ _ _ _) as [sig str] eqn:Ed.
    intros H. inversion H; subst. right; right.
    exists a1, a2, corr, sprd. rewrite Ed. repeat split; auto.
Qed.

Lemma fabs_Fin_nonneg x q : fabs x = Fin q -> 0 <= q.
Proof. destruct x; simpl; intros H; inversion H; subst; apply Qabs_nonneg. Qed.

(** The strength [decide_signal] reports lies in [0, 1] once the
    correlation does. *)
Lemma decide_signal_strength p corr s hs : corr_bounded corr ->
  exists q, snd (decide_signal p corr s hs) = Fin q /\ 0 <= q <= 1.
Proof.
  intros Hc. unfold decide_signal.
  destruct (fge (fabs corr) (correlation_threshold p)) eqn:Eg;
    [| exists 0; split; [reflexivity | lra]].
  destruct Hc as [-> | [c [-> Hc]]]; [unfold fge in Eg; now rewrite fle_NaN_r in Eg |].
  destruct (fge (fabs _) (divergence_threshold p));
    [| exists 0; split; [reflexivity | lra]].
  simpl fabs. unfold py_min, snd.
  assert (Habs : 0 <= Qabs c <= 1) by (split; [apply Qabs_nonneg | apply Qabs_Qle_condition; lra]).
  destruct (fabs (spread_zscore hs s)) as [z| | |] eqn:Ez; simpl;
    try (exists (Qabs c); split; [reflexivity | exact Habs]).
  - destruct (Qltb z (Qabs c)) eqn:Elt; [| exists (Qabs c); split; [reflexivity | exact Habs]].
    apply Qltb_iff in Elt. pose proof (fabs_Fin_nonneg _ _ Ez).
    exists z. split; [reflexivity | lra].
  - exfalso. destruct (spread_zscore hs s); discriminate Ez.
Qed.

Lemma calculate_corr_source p data st r st' a1 a2 :
  column "asset1" data = Ok a1 -> column "asset2" data = Ok a2 ->
  calculate p data st = (Ok r, st') ->
  r = neutral \/
  (In (correlation r) (rolling_corr (lookback_period p) (pct_change a1) (pct_change a2)) /\
   snd (decide_signal p (correlation r) (spread r) (historical_spread st')) = strength r).
Proof.
  intros H1 H2 Hc.
  destruct (calculate_shape _ _ _ _ _ Hc) as [(_ & Hr & _) | [(_ & e & He) | Hs]].
  - inversion Hr. now left.
  - discriminate.
  - destruct Hs as (b1 & b2 & c & s & E1 & E2 & Ec & _ & _ & Hr).
    rewrite H1 in E1. rewrite H2 in E2. inversion E1; inversion E2; subst.
    inversion Hr; subst. right. simpl. split; [eapply iloc_neg_In; eauto | reflexivity].
Qed.

Lemma rolling_corr_prices_bounded w a1 a2 :
  length a1 = length a2 -> Forall nonzero_fin a1 -> Forall nonzero_fin a2 ->
  Forall corr_bounded (rolling_corr w (pct_change a1) (pct_change a2)).
Proof.
  intros Hl H1 H2. apply rolling_corr_bounded.
  - now rewrite !length_pct_change.
  - now apply pct_change_fin_or_nan.
  - now apply pct_change_fin_or_nan.
Qed.

Lemma zscore_nil s : spread_zscore [] s = NaN.
Proof. destruct s; reflexivity. Qed.

Lemma zscore_singleton s : spread_zscore [s] s = NaN.
Proof.
  destruct s as [q| | |]; try reflexivity.
  unfold spread_zscore, fstd, fmean, fsum. cbn [map fold_left length].
  change (fof_nat 1) with (Fin 1). cbn [fadd]. rewrite fdiv_Fin_pos by lra.
  set (m := Qred (Qred (0 + q) / 1)).
  assert (Hm : m == q) by (unfold m; rewrite !Qred_correct; field).
  cbn [fsub fneg fadd fmul]. set (d := Qred (q + - m)).
  assert (Hd : d == 0) by (unfold d; rewrite Qred_correct, Hm; ring).
  rewrite fdiv_Fin_pos by lra.
  unfold fsqrt. rewrite qsqrt_zero by (rewrite !Qred_correct, Hd; field).
  destruct (Qltb _ 0); [reflexivity |].
  cbn [fdiv]. replace (Qeq_bool 0 0) with true by reflexivity.
  apply Qeq_bool_iff in Hd. now rewrite Hd.
Qed.

Lemma decide_signal_nan_z p corr s hs :
  spread_zscore hs s = NaN -> decide_signal p corr s hs = (None, Fin 0).
Proof.
  intros Hz. unfold decide_signal. rewrite Hz. simpl fabs. unfold fge.
  rewrite fle_NaN_r. now destruct (fle _ _).
Qed.

Lemma decide_signal_nan_corr p s hs : decide_signal p NaN s hs = (None, Fin 0).
Proof. unfold decide_signal. simpl fabs. unfold fge. now rewrite fle_NaN_r. Qed.

Lemma iloc_neg_map_seq {A} (f : nat -> A) n :
  (1 <= n)%nat -> iloc_neg 1 (map f (seq 0 n)) = Ok (f (pred n)).
Proof.
  intros H. destruct n as [|n]; [lia |]. rewrite seq_S, map_app. simpl.
  apply iloc_neg_last.
Qed.

Lemma pct_change_head_nan a s : pct_change (a :: s) = NaN :: tl (pct_change (a :: s)).
Proof. destruct a; reflexivity. Qed.

Lemma fsqrt_range x : (forall q, fsqrt x = Fin q -> 0 <= q) /\ fsqrt x <> NInf.
Proof.
  destruct x as [q| | |]; simpl; split; try discriminate; try (intros ? H; discriminate H).
  - destruct (Qltb q 0); intros q' H; inversion H; apply qsqrt_nonneg.
  - destruct (Qltb q 0); discriminate.
Qed.

(** Sign of a z-score computed by dividing by a standard deviation. *)
Lemma zscore_pos_sign a b d :
  (forall q, d = Fin q -> 0 <= q) -> d <> NInf ->
  fgt ((a ⊖ b) ⊘ d) (Fin 0) = true -> flt b a = true.
Proof.
  intros Hd Hn. unfold fgt, fsub.
  destruct a as [qa| | |], b as [qb| | |], d as [qd| | |]; try congruence;
    try (specialize (Hd qd eq_refl));
    cbn [fneg fadd fabs fdiv flt fle]; fl_bool_split; try reflexivity; exfalso; q_contra.
Qed.

Lemma zscore_neg_sign a b d thr :
  (forall q, d = Fin q -> 0 <= q) -> d <> NInf -> flt (Fin 0) thr = true ->
  fgt ((a ⊖ b) ⊘ d) (Fin 0) = false -> fge (fabs ((a ⊖ b) ⊘ d)) thr = true ->
  flt a b = true.
Proof.
  intros Hd Hn Ht. unfold fgt, fge, fsub.
  destruct a as [qa| | |], b as [qb| | |], d as [qd| | |], thr as [qt| | |];
    try congruence; try (specialize (Hd qd eq_refl)); cbn [flt] in Ht; try discriminate;
    cbn [fneg fadd fabs fdiv flt fle] in *; fl_bool_split; try reflexivity; exfalso; q_contra.
Qed.

Lemma decide_signal_direction p corr s hs :
  (fst (decide_signal p corr s hs) = Some SELL -> flt (fmean hs) s = true) /\
  (fst (decide_signal p corr s hs) = Some BUY -> flt (Fin 0) (divergence_threshold p) = true ->
     flt s (fmean hs) = true).
Proof.
  unfold decide_signal, spread_zscore, fstd.
  destruct (fsqrt_range (fmean (map (fun x => (x ⊖ fmean hs) ⊗ (x ⊖ fmean hs)) hs))) as [Hd Hn].
  destruct (fge (fabs corr) _); [| split; discriminate].
  destruct (fge (fabs _) (divergence_threshold p)) eqn:Eg; [| split; discriminate].
  destruct (fgt _ (Fin 0)) eqn:Ez; simpl; split; intros H; try discriminate.
  - eapply zscore_pos_sign; eassumption.
  - intros Ht. eapply zscore_neg_sign; eassumption.
Qed.

Lemma store_history_init_spread p c s :
  historical_spread (store_history p c s init_state) = [s] \/
  historical_spread (store_history p c s init_state) = [].
Proof.
  unfold store_history. simpl. destruct (Nat.ltb (lookback_period p) 1); [right | left]; reflexivity.
Qed.

Lemma store_history_last_corr p c s st :
  (1 <= lookback_period p)%nat -> In c (historical_correlation (store_history p c s st)).
Proof.
  intros H. unfold store_history.
  destruct (Nat.ltb_spec (lookback_period p) (length (historical_correlation st ++ [c]))) as [Hl|];
    simpl; [| apply in_or_app; right; now left].
  rewrite length_app in Hl. simpl in Hl.
  destruct (historical_correlation st) as [|h t]; simpl in *; [lia |].
  apply in_or_app. right. now left.
Qed.

(** Every call keeps the bounded-history invariant, returning or raising. *)
Lemma ccp_calculate_preserves p data : preserves (ccp_inv p) (calculate p data).
Proof.
  intros s Hinv. destruct (calculate p data s) as [r s'] eqn:E. simpl.
  destruct (calculate_shape _ _ _ _ _ E) as [(_ & _ & ->) | [(-> & _) | Hs]];
    [exact Hinv | exact Hinv |].
  destruct Hs as (a1 & a2 & c & sp & _ & _ & _ & _ & -> & _). now apply store_history_inv.
Qed.

(** ** Properties *)

(** With fewer rows than [lookback_period], [calculate] returns the
    neutral record (no signal, strength 0) whatever the frame holds, and
    leaves both histories untouched. *)
Theorem calculate_short_data_neutral p data st :
  (frame_len data < lookback_period p)%nat -> calculate p data st = (Ok neutral, st).
Proof.
  intros H. unfold calculate.
  destruct (Nat.ltb_spec (frame_len data) (lookback_period p)); [reflexivity | lia].
Qed.

(** C1. Every call of [calculate], successful or raising, keeps both
    histories of equal length and at most [lookback_period] long; hence
    so does every state reachable from a fresh instance. *)
Theorem reachable_history_bounded p st :
  star (step p) init_state st ->
  length (historical_correlation st) = length (historical_spread st) /\
  (length (historical_correlation st) <= lookback_period p)%nat.
Proof.
  intros Hr. apply (star_inv (step p) (ccp_inv p)) with (s := init_state); auto.
  - intros s s' Hinv [data <-]. now apply ccp_calculate_preserves.
  - split; simpl; lia.
Qed.

(** C2. The histories are FIFO windows: after any sequence of appended
    (correlation, spread) pairs starting from a fresh instance, each
    history holds exactly the last [lookback_period] values pushed, in
    order, the oldest evicted first. *)
Theorem history_fifo p (pushes : list (fl * fl)) :
  let st := fold_left (fun st cs => store_history p (fst cs) (snd cs) st) pushes init_state in
  historical_correlation st = keep_last (lookback_period p) (map fst pushes) /\
  historical_spread st = keep_last (lookback_period p) (map snd pushes).
Proof.
  induction pushes as [|[c s] pushes IH] using rev_ind; [split; reflexivity |].
  cbv zeta in *. rewrite fold_left_app. simpl fold_left.
  set (st := fold_left _ pushes init_state) in *. destruct IH as [Hc Hs].
  assert (Hinv : ccp_inv p st).
  { unfold ccp_inv. rewrite Hc, Hs, !length_keep_last, !length_map. lia. }
  destruct (store_history_fifo p c s st Hinv) as [Hc' Hs'].
  rewrite Hc', Hs', Hc, Hs, !map_app, !keep_last_snoc. split; reflexivity.
Qed.

(** C3. On a frame whose two asset columns are non-zero finite prices of
    equal length, the correlation [calculate] reports is NaN or lies in
    [-1, 1]. *)
Theorem calculate_correlation_bounded p data st r st' a1 a2 :
  well_formed_prices data a1 a2 ->
  calculate p data st = (Ok r, st') -> corr_bounded (correlation r).
Proof.
  intros (H1 & H2 & Hl & Ha1 & Ha2) Hc.
  destruct (calculate_corr_source _ _ _ _ _ _ _ H1 H2 Hc) as [-> | [Hin _]].
  - right. exists 0. split; [reflexivity | lra].
  - exact (proj1 (Forall_forall _ _) (rolling_corr_prices_bounded _ _ _ Hl Ha1 Ha2) _ Hin).
Qed.

(** C4. On such a frame the reported strength is a finite value in
    [0, 1], as the source's docstring promises ("Signal strength (0-1)"),
    whatever the spread history holds. *)
Theorem calculate_strength_unit p data st r st' a1 a2 :
  well_formed_prices data a1 a2 ->
  calculate p data st = (Ok r, st') -> exists q, strength r = Fin q /\ 0 <= q <= 1.
Proof.
  intros Hw Hc. pose proof (calculate_correlation_bounded _ _ _ _ _ _ _ Hw Hc) as Hb.
  destruct Hw as (H1 & H2 & _).
  destruct (calculate_corr_source _ _ _ _ _ _ _ H1 H2 Hc) as [-> | [_ <-]].
  - exists 0. split; [reflexivity | lra].
  - now apply decide_signal_strength.
Qed.

(** C38. A fresh instance never signals on its first call: the spread
    history then holds only the current spread, whose deviation and
    standard deviation are both 0, so the z-score is NaN (0/0) and the
    divergence test fails. *)
Theorem first_call_no_signal p data r st' :
  calculate p data init_state = (Ok r, st') -> signal r = None.
Proof.
  intros Hc. destruct (calculate_shape _ _ _ _ _ Hc) as [(_ & Hr & _) | [(_ & e & He) | Hs]].
  - now inversion Hr.
  - discriminate.
  - destruct Hs as (a1 & a2 & c & s & _ & _ & _ & _ & -> & Hr). inversion Hr; subst. simpl.
    destruct (store_history_init_spread p c s) as [-> | ->];
      rewrite decide_signal_nan_z; try reflexivity.
    + apply zscore_singleton.
    + apply zscore_nil.
Qed.

(** A frame of exactly [lookback_period] rows is not neutral: the
    first return is NaN and lies inside the only window, so the
    correlation is NaN, no signal is emitted, and the NaN is still pushed
    onto the correlation history. *)
Theorem calculate_exact_lookback_nan p data st r st' a1 a2 :
  column "asset1" data = Ok a1 -> column "asset2" data = Ok a2 ->
  frame_len data = lookback_period p -> length a1 = lookback_period p ->
  (1 <= lookback_period p)%nat ->
  calculate p data st = (Ok r, st') ->
  correlation r = NaN /\ signal r = None /\ strength r = Fin 0 /\
  In NaN (historical_correlation st').
Proof.
  intros H1 H2 Hf Hl Hw Hc.
  destruct (calculate_shape _ _ _ _ _ Hc) as [(Hlt & _ & _) | [(_ & e & He) | Hs]];
    [lia | discriminate |].
  destruct Hs as (b1 & b2 & c & sp & E1 & E2 & Ec & _ & -> & Hr).
  rewrite H1 in E1. inversion E1; subst b1. clear E1 E2.
  assert (Hnan : c = NaN).
  { unfold rolling_corr in Ec. rewrite length_pct_change, Hl, iloc_neg_map_seq in Ec by lia.
    inversion Ec as [Hc0]. clear Ec Hc0.
    replace (S (pred (lookback_period p))) with (lookback_period p) by lia.
    rewrite Nat.ltb_irrefl. unfold window_at.
    replace (S (pred (lookback_period p)) - lookback_period p)%nat with 0%nat by lia.
    destruct a1 as [|x rest]; [simpl in Hl; lia |].
    rewrite skipn_O, pct_change_head_nan.
    destruct (lookback_period p) as [|w]; [lia |]. reflexivity. }
  subst c. inversion Hr; subst. simpl. rewrite decide_signal_nan_corr.
  repeat split; try reflexivity. now apply store_history_last_corr.
Qed.

(** C5. The direction of a signal matches the side of the spread: [SELL]
    only when the current spread is above the mean of the spread history,
    [BUY] (for a positive divergence threshold) only when it is below. *)
Theorem calculate_signal_direction p data st r st' :
  calculate p data st = (Ok r, st') ->
  (signal r = Some SELL -> flt (fmean (historical_spread st')) (spread r) = true) /\
  (signal r = Some BUY -> flt (Fin 0) (divergence_threshold p) = true ->
     flt (spread r) (fmean (historical_spread st')) = true).
Proof.
  intros Hc. destruct (calculate_shape _ _ _ _ _ Hc) as [(_ & Hr & _) | [(_ & e & He) | Hs]].
  - inversion Hr; subst. split; discriminate.
  - discriminate.
  - destruct Hs as (a1 & a2 & c & sp & _ & _ & _ & _ & -> & Hr). inversion Hr; subst.
    apply decide_signal_direction.
Qed.

(** ** Witnesses *)

Lemma calculate_short_data_neutral_witness :
  (frame_len sample_short < lookback_period sample_params)%nat /\
  calculate sample_params sample_short init_state = (Ok neutral, init_state).
Proof.
  split; [apply Nat.ltb_lt; reflexivity |].
  apply calculate_short_data_neutral. apply Nat.ltb_lt; reflexivity.
Defined.

Lemma reachable_history_bounded_witness :
  star (step sample_params) init_state sample_state1 /\
  length (historical_correlation sample_state1) = length (historical_spread sample_state1) /\
  (length (historical_correlation sample_state1) <= lookback_period sample_params)%nat.
Proof.
  assert (Hr : star (step sample_params) init_state sample_state1).
  { eapply star_step; [exists sample_day1; reflexivity | apply star_refl]. }
  split; [exact Hr | apply reachable_history_bounded, Hr].
Defined.

Lemma sample_day2_well_formed : well_formed_prices sample_day2
  (col [10; 11; 12; 13; 15]%Z) (col [20; 22; 24; 26; 30]%Z).
Proof.
  unfold well_formed_prices. split; [reflexivity |]. split; [reflexivity |].
  split; [reflexivity |].
  split; repeat (apply Forall_cons; [eexists; split; [reflexivity | discriminate] |]); apply Forall_nil.
Qed.

Lemma calculate_correlation_bounded_witness :
  exists r st', calculate sample_params sample_day2 sample_state1 = (Ok r, st') /\
                corr_bounded (correlation r).
Proof.
  do 2 eexists. split; [vm_compute; reflexivity |].
  eapply (calculate_correlation_bounded sample_params sample_day2 sample_state1 _ _ _ _
           sample_day2_well_formed). vm_compute; reflexivity.
Defined.

Lemma calculate_strength_unit_witness :
  exists r st', calculate sample_params sample_day2 sample_state1 = (Ok r, st') /\
                signal r = Some BUY /\ exists q, strength r = Fin q /\ 0 <= q <= 1.
Proof.
  do 2 eexists. split; [vm_compute; reflexivity |]. split; [reflexivity |].
  eapply (calculate_strength_unit sample_params sample_day2 sample_state1 _ _ _ _
           sample_day2_well_formed). vm_compute; reflexivity.
Defined.

Lemma first_call_no_signal_witness :
  exists r st', calculate sample_params sample_day1 init_state = (Ok r, st') /\ signal r = None.
Proof.
  do 2 eexists. split; [vm_compute; reflexivity |].
  eapply (first_call_no_signal sample_params sample_day1). vm_compute; reflexivity.
Defined.


Lemma calculate_exact_lookback_nan_witness :
  exists r st', calculate sample_params sample_exact init_state = (Ok r, st') /\
    correlation r = NaN /\ signal r = None /\ strength r = Fin 0 /\
    In NaN (historical_correlation st').
Proof.
  do 2 eexists. split; [vm_compute; reflexivity |].
  eapply (calculate_exact_lookback_nan sample_params sample_exact init_state _ _
            (col [10; 11; 12]%Z) (col [20; 22; 24]%Z));
    [reflexivity | reflexivity | reflexivity | reflexivity | apply Nat.leb_le; reflexivity
    | vm_compute; reflexivity].
Defined.

Lemma calculate_signal_direction_witness :
  exists r st', calculate sample_params sample_day2 sample_state1 = (Ok r, st') /\
    signal r = Some BUY /\ flt (Fin 0) (divergence_threshold sample_params) = true /\
    flt (spread r) (fmean (historical_spread st')) = true.
Proof.
  do 2 eexists. split; [vm_compute; reflexivity |]. split; [reflexivity |].
  split; [reflexivity |].
  eapply (proj2 (calculate_signal_direction sample_params sample_day2 sample_state1 _ _ _));
    [reflexivity | reflexivity].
  Unshelve. vm_compute; reflexivity.
Defined.

End CCP.
