(* ===== verification/Indicators.v ===== *)
(** * Stateless technical indicators

    The module-level helpers of [src/FuturesQuant/core/indicator/utils.py]
    ([Utils]) and of [src/FuturesQuant/core/indicator/manager.py]
    ([CoreFns]), and the indicator classes of manager.py ([Classes]: the
    base class and SMA, EMA, RSI, MACD, BollingerBands as one inductive
    type, with [calculate] raising [KeyError] on a missing column). The
    lemmas give value ranges (RSI NaN or in [0, 100], ATR NaN or
    non-negative, ordered Bollinger bands), the flat-market MACD, and the
    mean-of-indices result of [utils.knn_predict]. *)

From Stdlib Require Import String QArith Qabs Lqa ZArith List Arith Lia Bool Permutation.
From S2P Require Import Prelude.
From S2P Require Import Series.
Import ListNotations.
Open Scope Q_scope.
Open Scope fl_scope.

(** A float that is NaN or a non-negative finite value. *)
Definition nn_or_nan (x : fl) : Prop := x = NaN \/ exists q, x = Fin q /\ 0 <= q.

(** A non-negative finite float. *)
Definition nnfin (x : fl) : Prop := exists q, x = Fin q /\ 0 <= q.

(** A value an RSI may take: NaN (0/0) or a number in [0, 100]. *)
Definition rsi_range (x : fl) : Prop := x = NaN \/ exists r, x = Fin r /\ 0 <= r <= 100.

(** [np.maximum(a, b)] on one element: NaN as soon as one side is NaN. *)
Definition fmaximum (a b : fl) : fl :=
  if is_nan a || is_nan b then NaN else if flt a b then b else a.

(** [np.linalg.norm(v)] of a real vector. *)
Definition norm (v : list fl) : fl := fsqrt (fsum (map (fun x => x ⊗ x) v)).

(** [row - target] under numpy broadcasting of shapes [(m,)] and [(t,)]:
    equal lengths subtract elementwise, a length 1 side is repeated,
    anything else raises [ValueError]. *)
Definition bcast_sub (row target : list fl) : result (list fl) :=
  if Nat.eqb (length row) (length target) then Ok (map2 fsub row target)
  else match row, target with
       | _, [t] => Ok (map (fun x => x ⊖ t) row)
       | [r], _ => Ok (map (fun y => r ⊖ y) target)
       | _, _ => Err ValueError
       end.

(** A finite float. *)
Definition is_fin (x : fl) : Prop := exists q, x = Fin q.

(** [100 - (100 / (1 + rs))], the last line of every RSI of the code. *)
Definition rsi_of_rs (rs : fl) : fl := Fin 100 ⊖ (Fin 100 ⊘ (Fin 1 ⊕ rs)).

Module Utils.

(** [calculate_rsi(close, period)] (utils.py, lines 20-36). *)
Definition calculate_rsi (close : series) (period : nat) : series :=
  let delta := diff close in
  let gain := rolling_mean period (where_pos delta) in
  let loss := rolling_mean period (neg_where_neg delta) in
  let rs := map2 fdiv gain loss in
  map (fun r => Fin 100 ⊖ (Fin 100 ⊘ (Fin 1 ⊕ r))) rs.

(** [calculate_atr(high, low, close, period)] (utils.py, lines 3-18). *)
Definition calculate_atr (high low close : series) (period : nat) : series :=
  let tr := map2 fmaximum (map2 fsub high low)
                 (map2 fmaximum (map fabs (map2 fsub high (shift1 close)))
                                (map fabs (map2 fsub low (shift1 close)))) in
  rolling_mean period tr.

(** [knn_predict(data, target, k)] (utils.py, lines 38-52) on a 2-D array
    given by its rows: the rows must have one length (numpy cannot build a
    ragged array), [data - target] broadcasts, the result is the mean of
    the [k] nearest row indices. An empty [data] is one-dimensional and
    [axis=1] does not exist ([AxisError], a [ValueError]). *)
Definition knn_predict (data : list (list fl)) (target : list fl) (k : nat) : result fl :=
  match data with
  | [] => Err ValueError
  | row0 :: _ =>
      if negb (forallb (fun r => Nat.eqb (length r) (length row0)) data) then Err ValueError
      else
        (diffs <-? rmap (fun r => bcast_sub r target) data ;;
         let distances := map norm diffs in
         Ok (fmean (map fof_nat (firstn k (argsort distances)))))%py
  end.

(** [calculate_standard_deviation(data)] (utils.py, lines 54-66). *)
Definition calculate_standard_deviation (data : list fl) : fl :=
  let mean := fmean data in
  let variance := fmean (map (fun x => (x ⊖ mean) ⊗ (x ⊖ mean)) data) in
  fsqrt variance.

End Utils.

(** The module-level helpers of [manager.py] (lines 16-32), copies of
    those of [utils.py]. *)
Module CoreFns.

(** [calculate_atr(high, low, close, period=14)] (lines 16-19). *)
Definition calculate_atr (high low close : series) (period : nat) : series :=
  let tr := map2 fmaximum (map2 fsub high low)
                 (map2 fmaximum (map fabs (map2 fsub high (shift1 close)))
                                (map fabs (map2 fsub low (shift1 close)))) in
  rolling_mean period tr.

(** [calculate_rsi(close, period=14)] (lines 21-27). *)
Definition calculate_rsi (close : series) (period : nat) : series :=
  let delta := diff close in
  let gain := rolling_mean period (where_pos delta) in
  let loss := rolling_mean period (neg_where_neg delta) in
  let rs := map2 fdiv gain loss in
  map (fun r => Fin 100 ⊖ (Fin 100 ⊘ (Fin 1 ⊕ r))) rs.

(** [knn_predict(data, target, k=5)] (lines 29-32). *)
Definition knn_predict (data : list (list fl)) (target : list fl) (k : nat) : result fl :=
  match data with
  | [] => Err ValueError
  | row0 :: _ =>
      if negb (forallb (fun r => Nat.eqb (length r) (length row0)) data) then Err ValueError
      else
        (diffs <-? rmap (fun r => bcast_sub r target) data ;;
         let distances := map norm diffs in
         Ok (fmean (map fof_nat (firstn k (argsort distances)))))%py
  end.

End CoreFns.

(** The indicator classes of [manager.py] (lines 34-148). *)
Module Classes.

(** A value of the [params] dict. *)
Inductive pval : Type :=
| PVInt (z : Z)
| PVFloat (x : fl).

(** The instances: the base class [Indicator(name, params)] and its five
    subclasses with their constructor arguments. *)
Inductive indicator : Type :=
| Base (name : string) (params : list (string * pval))
| SMA (period : nat)
| EMA (period : nat)
| RSI (period : nat)
| MACD (fast_period slow_period signal_period : nat)
| BollingerBands (period : nat) (std_dev : fl).

(** [self.name] and [self.params] as the constructors set them. *)
Definition name (i : indicator) : string :=
  match i with
  | Base n _ => n
  | SMA _ => "SMA" | EMA _ => "EMA" | RSI _ => "RSI" | MACD _ _ _ => "MACD"
  | BollingerBands _ _ => "BollingerBands"
  end.

Definition nat_pv (n : nat) : pval := PVInt (Z.of_nat n).

Definition params (i : indicator) : list (string * pval) :=
  match i with
  | Base _ ps => ps
  | SMA p | EMA p | RSI p => [("period", nat_pv p)]
  | MACD f s g => [("fast_period", nat_pv f); ("slow_period", nat_pv s); ("signal_period", nat_pv g)]
  | BollingerBands p k => [("period", nat_pv p); ("std_dev", PVFloat k)]
  end%string.

(** What [calculate] returns: a Series or a DataFrame. *)
Inductive ind_value : Type :=
| VSeries (s : series)
| VFrame (f : frame).

(** [s.ewm(span=p, adjust=False)] rejects a span below 1. *)
Definition ewm_checked (span : nat) (s : series) : result series :=
  if Nat.eqb span 0 then Err ValueError else Ok (ewm_mean span s).

(** [calculate(data)] of each class. *)
Definition calculate (i : indicator) (data : frame) : result ind_value :=
  (match i with
   | Base _ _ => Err NotImplementedError
   | SMA p =>
       close <-? column "close" data ;; Ok (VSeries (rolling_mean p close))
   | EMA p =>
       close <-? column "close" data ;; e <-? ewm_checked p close ;; Ok (VSeries e)
   | RSI p =>
       close <-? column "close" data ;;
       let delta := diff close in
       let gain := where_pos delta in
       let loss := neg_where_neg delta in
       let avg_gain := rolling_mean p gain in
       let avg_loss := rolling_mean p loss in
       let rs := map2 fdiv avg_gain avg_loss in
       Ok (VSeries (map (fun r => Fin 100 ⊖ (Fin 100 ⊘ (Fin 1 ⊕ r))) rs))
   | MACD f s g =>
       close <-? column "close" data ;;
       fast_ema <-? ewm_checked f close ;;
       slow_ema <-? ewm_checked s close ;;
       let macd_line := map2 fsub fast_ema slow_ema in
       signal_line <-? ewm_checked g macd_line ;;
       let histogram := map2 fsub macd_line signal_line in
       Ok (VFrame [("macd_line", macd_line); ("signal_line", signal_line); ("histogram", histogram)])
   | BollingerBands p k =>
       high <-? column "high" data ;; low <-? column "low" data ;; close <-? column "close" data ;;
       let typical_price := map (fun x => x ⊘ Fin 3) (map2 fadd (map2 fadd high low) close) in
       let middle_band := rolling_mean p typical_price in
       let std := rolling_std p typical_price in
       let upper_band := map2 fadd middle_band (map (fun d => d ⊗ k) std) in
       let lower_band := map2 fsub middle_band (map (fun d => d ⊗ k) std) in
       Ok (VFrame [("middle", middle_band); ("upper", upper_band); ("lower", lower_band)])
   end)%string%py.

Section Str.

(** [repr] of a float, which [str()] gives for a [float] value. *)
Context (float_repr : fl -> string).

Definition pval_str (v : pval) : string :=
  match v with PVInt z => str_of_int z | PVFloat x => float_repr x end.

(** [__str__()] (lines 45-46): the name, then [k=v] for each parameter
    in the dict's order. *)
Definition str (i : indicator) : string :=
  (name i ++ " (" ++ py_join ", " (map (fun kv => fst kv ++ "=" ++ pval_str (snd kv)) (params i)) ++ ")")%string.

End Str.

End Classes.

(** Sample bars for the witnesses. *)
Definition fins (zs : list Z) : series := map (fun z => Fin (inject_Z z)) zs.
Definition sample_bars : frame :=
  [("high", fins [11; 12; 13; 12; 14; 15]%Z);
   ("low", fins [9; 10; 11; 10; 12; 12]%Z);
   ("close", fins [10; 11; 12; 11; 13; 14]%Z)]%string.
Definition sample_flat : frame := [("close", fins [7; 7; 7; 7]%Z)]%string.
Definition sample_rows : list (list fl) := [fins [1; 2]%Z; fins [5; 5]%Z; fins [0; 0]%Z].

(** ** Range lemmas *)

Lemma q_rsi_bound t : 1 <= t -> 0 <= 100 + - (100 / t) <= 100.
Proof.
  intros Ht. assert (H0 : 0 <= 100 / t) by (apply Qle_shift_div_l; lra).
  assert (H1 : 100 / t <= 100) by (apply Qle_shift_div_r; lra). lra.
Qed.

Lemma Qdiv_nonneg a b : 0 <= a -> 0 < b -> 0 <= a / b.
Proof. intros Ha Hb. apply Qle_shift_div_l; lra. Qed.

Lemma rsi_of_rs_range a b : nn_or_nan a -> nn_or_nan b -> rsi_range (rsi_of_rs (a ⊘ b)).
Proof.
  intros [-> | (qa & -> & Ha)] [-> | (qb & -> & Hb)]; try (left; reflexivity).
  unfold rsi_of_rs. destruct (Qeq_bool qb 0) eqn:Eb.
  - cbn [fdiv]. rewrite Eb. destruct (Qeq_bool qa 0) eqn:Ea; [left; reflexivity |].
    apply Qeq_bool_false in Ea.
    replace (Qltb 0 qa) with true by (symmetry; apply Qltb_iff, Qnonneg_neq_pos; assumption).
    cbn [fadd fdiv fsub fneg]. right. eexists. split; [reflexivity |]. rewrite Qred_correct. lra.
  - apply Qeq_bool_false in Eb. rewrite fdiv_Fin by exact Eb. cbn [fadd].
    assert (Hr : 0 <= qa / qb) by (apply Qdiv_nonneg; [| apply Qnonneg_neq_pos]; assumption).
    assert (Ht : 1 <= Qred (1 + Qred (qa / qb))) by (rewrite !Qred_correct; lra).
    rewrite fdiv_Fin by lra. cbn [fsub fneg fadd].
    right. eexists. split; [reflexivity |]. rewrite Qred_correct.
    apply q_rsi_bound in Ht. rewrite Qred_correct. exact Ht.
Qed.

Lemma shift1_fin_or_nan s : Forall is_fin s -> Forall (fun x => fin_or_nan x = true) (shift1 s).
Proof.
  intros H. destruct s as [|x s]; cbn [shift1]; constructor; [reflexivity |].
  apply Forall_forall. intros y Hy. apply in_removelast_l in Hy.
  pose proof (proj1 (Forall_forall _ _) H y Hy) as [q ->]. reflexivity.
Qed.

Lemma sub_fin_or_nan a b :
  Forall is_fin a -> Forall (fun x => fin_or_nan x = true) b ->
  Forall (fun x => fin_or_nan x = true) (map2 fsub a b).
Proof.
  intros Ha Hb. apply (Forall_map2 is_fin (fun x => fin_or_nan x = true)); [exact Ha | exact Hb |].
  intros x y [q ->] Hy. destruct y; try discriminate; reflexivity.
Qed.

Lemma fabs_nn x : fin_or_nan x = true -> nn_or_nan (fabs x).
Proof.
  destruct x as [q| | |]; intros H; try discriminate; [right | now left].
  eexists. split; [reflexivity | apply Qabs_nonneg].
Qed.

Lemma fmaximum_nn a b : fin_or_nan a = true -> nn_or_nan b -> nn_or_nan (fmaximum a b).
Proof.
  intros Ha [-> | (y & -> & Hy)].
  - left. unfold fmaximum. now rewrite orb_true_r.
  - destruct a as [x| | |]; try discriminate; [| now left].
    unfold fmaximum; cbn [is_nan orb flt]. right.
    destruct (Qltb x y) eqn:E; eexists; split; try reflexivity; [exact Hy |].
    apply Qltb_false in E. lra.
Qed.

Lemma diff_fin_or_nan s : Forall is_fin s -> Forall (fun x => fin_or_nan x = true) (diff s).
Proof. intros H. apply sub_fin_or_nan, shift1_fin_or_nan; exact H. Qed.

Lemma where_pos_nnfin s :
  Forall (fun x => fin_or_nan x = true) s -> Forall nnfin (where_pos s).
Proof.
  intros H. apply Forall_map. eapply Forall_impl; [| exact H].
  intros [q| | |] Hx; try discriminate; cbn [flt].
  - destruct (Qltb 0 q) eqn:E; eexists; split; try reflexivity; [apply Qltb_iff in E |]; lra.
  - eexists; split; [reflexivity | lra].
Qed.

Lemma neg_where_neg_nnfin s :
  Forall (fun x => fin_or_nan x = true) s -> Forall nnfin (neg_where_neg s).
Proof.
  intros H. apply Forall_map. eapply Forall_impl; [| exact H].
  intros [q| | |] Hx; try discriminate; cbn [flt fneg].
  - destruct (Qltb q 0) eqn:E; cbn [fneg]; eexists; split; try reflexivity;
      [apply Qltb_iff in E |]; lra.
  - eexists; split; [reflexivity | lra].
Qed.

Lemma nnfin_map_Fin xs : Forall nnfin xs -> exists qs, xs = map Fin qs /\ Forall (Qle 0) qs.
Proof.
  induction 1 as [|x xs (q & -> & Hq) _ (qs & -> & Hqs)]; [exists []; auto |].
  exists (q :: qs). split; [reflexivity | now constructor].
Qed.

Lemma fmean_nn xs : Forall nnfin xs -> nn_or_nan (fmean xs).
Proof.
  intros H. apply nnfin_map_Fin in H as (qs & -> & Hqs).
  destruct qs as [|q qs']; [left; reflexivity |].
  rewrite fmean_Fin by discriminate. right. eexists. split; [reflexivity |].
  unfold qmean. rewrite Qred_correct.
  apply Qdiv_nonneg; [apply qsum_nonneg, Hqs | apply qlen_pos; discriminate].
Qed.

Lemma nn_or_nan_no_nan l : Forall nn_or_nan l -> existsb is_nan l = false -> Forall nnfin l.
Proof.
  induction 1 as [|x l [-> | Hx] _ IH]; simpl; intros Hn; [constructor | discriminate |].
  apply orb_false_iff in Hn as [_ Hn]. constructor; [exact Hx | now apply IH].
Qed.

Lemma rolling_mean_nn w s : Forall nn_or_nan s -> Forall nn_or_nan (rolling_mean w s).
Proof.
  intros H. unfold rolling_mean, rolling. apply Forall_map, Forall_forall. intros i _.
  destruct (Nat.ltb (S i) w); [now left |].
  destruct (existsb is_nan _) eqn:En; [now left |].
  apply fmean_nn, nn_or_nan_no_nan, En. apply Forall_window_at, H.
Qed.

Lemma nnfin_nn_or_nan l : Forall nnfin l -> Forall nn_or_nan l.
Proof. apply Forall_impl. intros x Hx. now right. Qed.

(** The RSI formula of the code on the closes [close]: every value is NaN
    or in [0, 100]. *)
Lemma rsi_formula_range close period :
  Forall is_fin close ->
  Forall rsi_range
    (map (fun r => Fin 100 ⊖ (Fin 100 ⊘ (Fin 1 ⊕ r)))
         (map2 fdiv (rolling_mean period (where_pos (diff close)))
                    (rolling_mean period (neg_where_neg (diff close))))).
Proof.
  intros H. pose proof (diff_fin_or_nan close H) as Hd.
  apply Forall_map.
  apply (Forall_map2 nn_or_nan nn_or_nan (fun r => rsi_range (rsi_of_rs r))).
  - apply rolling_mean_nn, nnfin_nn_or_nan, where_pos_nnfin, Hd.
  - apply rolling_mean_nn, nnfin_nn_or_nan, neg_where_neg_nnfin, Hd.
  - intros a b Ha Hb. now apply rsi_of_rs_range.
Qed.

Lemma nn_or_nan_fin x : nn_or_nan x -> fin_or_nan x = true.
Proof. intros [-> | (q & -> & _)]; reflexivity. Qed.

Lemma is_fin_fin_or_nan l : Forall is_fin l -> Forall (fun x => fin_or_nan x = true) l.
Proof. apply Forall_impl. intros x [q ->]. reflexivity. Qed.

(** The true range of finite bars is NaN or non-negative. *)
Lemma true_range_nn high low close :
  Forall is_fin high -> Forall is_fin low -> Forall is_fin close ->
  Forall nn_or_nan
    (map2 fmaximum (map2 fsub high low)
          (map2 fmaximum (map fabs (map2 fsub high (shift1 close)))
                         (map fabs (map2 fsub low (shift1 close))))).
Proof.
  intros Hh Hl Hc. pose proof (shift1_fin_or_nan close Hc) as Hs.
  assert (Habs : forall a, Forall is_fin a -> Forall nn_or_nan (map fabs (map2 fsub a (shift1 close)))).
  { intros a Ha. apply Forall_map. eapply Forall_impl; [| apply sub_fin_or_nan; eassumption].
    intros x Hx. now apply fabs_nn. }
  apply (Forall_map2 (fun x => fin_or_nan x = true) nn_or_nan);
    [apply sub_fin_or_nan; [exact Hh | now apply is_fin_fin_or_nan] | | now apply fmaximum_nn].
  apply (Forall_map2 nn_or_nan nn_or_nan); [now apply Habs | now apply Habs |].
  intros x y Hx Hy. apply fmaximum_nn; [now apply nn_or_nan_fin | exact Hy].
Qed.

(** ** Sums of index lists *)

Definition qnat (i : nat) : Q := inject_Z (Z.of_nat i).

Lemma qsum_app a b : qsum (a ++ b) == qsum a + qsum b.
Proof.
  induction a as [|x a IH]; simpl app; [unfold qsum at 2; simpl; lra |].
  rewrite !qsum_cons, IH. lra.
Qed.

Lemma qsum_perm a b : Permutation a b -> qsum a == qsum b.
Proof.
  induction 1 as [| x a b _ IH | x y l | a b c _ IH1 _ IH2].
  - reflexivity.
  - rewrite !qsum_cons, IH. reflexivity.
  - rewrite !qsum_cons. lra.
  - now rewrite IH1, IH2.
Qed.

Lemma qnat_S n : qnat (S n) == qnat n + 1.
Proof. unfold qnat. rewrite Nat2Z.inj_succ, <- Z.add_1_r, inject_Z_plus. reflexivity. Qed.

Lemma qsum_seq n : qsum (map qnat (seq 0 n)) * 2 == qnat n * (qnat n - 1).
Proof.
  induction n as [|n IH]; [reflexivity |].
  rewrite seq_S, map_app, qsum_app, qnat_S. simpl map. rewrite qsum_cons.
  unfold qsum at 2. simpl fold_left. nra.
Qed.

(** The mean of a permutation of [0 .. n-1] is [(n - 1) / 2]. *)
Lemma fmean_perm_seq l n :
  Permutation l (seq 0 n) -> (1 <= n)%nat ->
  exists q, fmean (map fof_nat l) = Fin q /\ q * 2 == qnat n - 1.
Proof.
  intros Hp Hn.
  assert (Hl : map fof_nat l = map Fin (map qnat l)) by (rewrite map_map; reflexivity).
  assert (Hne : map qnat l <> []).
  { intros E. apply map_eq_nil in E. subst. apply Permutation_length in Hp.
    rewrite length_seq in Hp. simpl in Hp. lia. }
  rewrite Hl, fmean_Fin by exact Hne. eexists. split; [reflexivity |].
  unfold qmean, qlen. rewrite Qred_correct, length_map, (Permutation_length Hp), length_seq.
  rewrite (qsum_perm _ _ (Permutation_map qnat Hp)). fold (qnat n).
  assert (Hq : 1 <= qnat n) by (unfold qnat, Qle; simpl; lia).
  pose proof (qsum_seq n) as Hs. generalize dependent (qsum (map qnat (seq 0 n))). intros t Hs.
  setoid_replace (t / qnat n * 2) with ((t * 2) / qnat n) by (field; lra).
  rewrite Hs. field. lra.
Qed.

(** ** Bands and flat markets *)

Lemma Forall_nth_d {A} (P : A -> Prop) l i d : Forall P l -> P d -> P (nth i l d).
Proof.
  intros H Hd. revert i. induction H as [|x l Hx _ IH]; intros [|i]; simpl; auto.
Qed.

Lemma nth_map2_fl f xs ys i :
  length xs = length ys -> f NaN NaN = NaN ->
  nth i (map2 f xs ys) NaN = f (nth i xs NaN) (nth i ys NaN).
Proof.
  revert ys i. induction xs as [|x xs IH]; intros [|y ys] [|i] Hl Hf; simpl in *;
    try discriminate; auto.
Qed.

Lemma fmean_fin_or_nan xs : Forall is_fin xs -> fin_or_nan (fmean xs) = true.
Proof.
  intros H. assert (exists qs, xs = map Fin qs) as [qs ->].
  { induction H as [|x xs [q ->] _ [qs ->]]; [now exists [] | now exists (q :: qs)]. }
  destruct qs as [|q qs]; [reflexivity |]. now rewrite fmean_Fin by discriminate.
Qed.

Lemma fstd1_nn xs : Forall is_fin xs -> nn_or_nan (fstd1 xs).
Proof.
  intros H. assert (exists qs, xs = map Fin qs) as [qs ->].
  { induction H as [|x xs [q ->] _ [qs ->]]; [now exists [] | now exists (q :: qs)]. }
  destruct qs as [|a [|b qs]]; [now left | now left |].
  unfold fstd1. rewrite fvar1_Fin by (simpl; lia). cbn [fsqrt].
  destruct (Qltb _ 0) eqn:E; [now left |]. right. eexists. split; [reflexivity | apply qsqrt_nonneg].
Qed.

Lemma rolling_fin_or_nan w f s :
  (forall xs, Forall is_fin xs -> fin_or_nan (f xs) = true) -> Forall is_fin s ->
  Forall (fun x => fin_or_nan x = true) (rolling w f s).
Proof.
  intros Hf H. unfold rolling. apply Forall_map, Forall_forall. intros i _.
  destruct (Nat.ltb (S i) w); [reflexivity |]. destruct (existsb is_nan _); [reflexivity |].
  apply Hf, Forall_window_at, H.
Qed.

Lemma rolling_std_nn w s : Forall is_fin s -> Forall nn_or_nan (rolling_std w s).
Proof.
  intros H. unfold rolling_std, rolling. apply Forall_map, Forall_forall. intros i _.
  destruct (Nat.ltb (S i) w); [now left |]. destruct (existsb is_nan _); [now left |].
  apply fstd1_nn, Forall_window_at, H.
Qed.

Lemma scale_nn d k : nn_or_nan d -> nnfin k -> nn_or_nan (d ⊗ k).
Proof.
  intros [-> | (a & -> & Ha)] (b & -> & Hb); [now left |]. right. eexists. split; [reflexivity |].
  rewrite Qred_correct. now apply Qmult_le_0_compat.
Qed.

(** Bands around a centre value [m]: [u] above it, [l] below it. *)
Definition band_ok (m u l : fl) : Prop :=
  (u = NaN \/ exists a b, m = Fin a /\ u = Fin b /\ a <= b) /\
  (l = NaN \/ exists a c, m = Fin a /\ l = Fin c /\ c <= a).

Lemma band_ok_of m d : fin_or_nan m = true -> nn_or_nan d -> band_ok m (m ⊕ d) (m ⊖ d).
Proof.
  intros Hm [-> | (q & -> & Hq)].
  - destruct m; split; left; reflexivity.
  - destruct m as [a| | |]; try discriminate; [| split; left; reflexivity].
    split; right; do 2 eexists; repeat split; cbn [fadd fsub fneg]; rewrite ?Qred_correct; lra.
Qed.

Lemma fin_map2_add xs ys : Forall is_fin xs -> Forall is_fin ys -> Forall is_fin (map2 fadd xs ys).
Proof.
  intros Hx Hy. apply (Forall_map2 is_fin is_fin); auto.
  intros x y [a ->] [b ->]. eexists. reflexivity.
Qed.

Lemma ewm_loop_const alpha c w n : ewm_loop alpha (Fin c) w (repeat (Fin c) n) = repeat (Fin c) n.
Proof.
  revert w. induction n as [|n IH]; intros w; simpl; [reflexivity |].
  rewrite Qeq_bool_refl. simpl. now rewrite IH.
Qed.

Lemma ewm_mean_const span c n : ewm_mean span (repeat (Fin c) n) = repeat (Fin c) n.
Proof. destruct n as [|n]; [reflexivity |]. simpl. now rewrite ewm_loop_const. Qed.

Lemma map2_repeat f x y n : map2 f (repeat x n) (repeat y n) = repeat (f x y) n.
Proof. induction n as [|n IH]; simpl; [reflexivity | now rewrite IH]. Qed.

Lemma fsub_self c : Fin c ⊖ Fin c = Fin 0.
Proof. cbn [fsub fneg fadd]. f_equal. apply (Qred_complete (c + - c) 0). ring. Qed.

(** ** Properties *)

(** C15. The [RSI] indicator class on a [close] column of finite prices
    returns a Series whose every value is NaN (a window with neither gain
    nor loss) or lies in [0, 100]; a window with gains and no loss gives
    exactly 100. *)
Theorem rsi_calculate_range p data close :
  column "close" data = Ok close -> Forall is_fin close ->
  exists s, Classes.calculate (Classes.RSI p) data = Ok (Classes.VSeries s) /\ Forall rsi_range s.
Proof.
  intros Hc Hf. eexists. split; [simpl; rewrite Hc; reflexivity |].
  exact (rsi_formula_range close p Hf).
Qed.

(** The average true range of finite bars is NaN (the first bar and
    the warm-up windows) or non-negative. *)
Theorem atr_nonneg high low close period :
  Forall is_fin high -> Forall is_fin low -> Forall is_fin close ->
  Forall nn_or_nan (Utils.calculate_atr high low close period).
Proof. intros Hh Hl Hc. apply rolling_mean_nn, true_range_nn; assumption. Qed.

(** C40. [utils.knn_predict] returns the mean of the nearest row
    indices, not a value derived from the rows: with [k] at least the
    number of rows it is [(n - 1) / 2] for every [data] and [target] of
    matching shape. *)
Theorem knn_predict_mean_index data target k :
  data <> [] -> Forall (fun r => length r = length target) data -> (length data <= k)%nat ->
  exists q, Utils.knn_predict data target k = Ok (Fin q) /\ q * 2 == qnat (length data) - 1.
Proof.
  intros Hne Hrows Hk. destruct data as [|row0 rest]; [contradiction |].
  assert (Hrow0 : length row0 = length target) by (inversion Hrows; assumption).
  unfold Utils.knn_predict.
  replace (negb (forallb _ (row0 :: rest))) with false.
  2:{ symmetry. apply negb_false_iff, forallb_forall. intros r Hr. apply Nat.eqb_eq.
      rewrite Hrow0. exact (proj1 (Forall_forall _ _) Hrows r Hr). }
  rewrite (rmap_Ok_map _ (fun r => map2 fsub r target)).
  2:{ intros r Hr. unfold bcast_sub. now rewrite (proj1 (Forall_forall _ _) Hrows r Hr), Nat.eqb_refl. }
  cbn [rbind]. rewrite firstn_all2 by (rewrite length_argsort, !length_map; exact Hk).
  pose proof (argsort_perm (map norm (map (fun r => map2 fsub r target) (row0 :: rest)))) as Hp.
  rewrite !length_map in Hp.
  destruct (fmean_perm_seq _ _ Hp) as (q & Hq & Hv); [simpl; lia |].
  exists q. rewrite Hq. split; [reflexivity | exact Hv].
Qed.

(** C39. Bollinger bands of finite bars with a non-negative width factor
    are ordered: at every index the upper band is NaN or at least the
    middle band, and the lower band NaN or at most it. *)
Theorem bollinger_bands_ordered p k data high low close :
  column "high" data = Ok high -> column "low" data = Ok low -> column "close" data = Ok close ->
  Forall is_fin high -> Forall is_fin low -> Forall is_fin close -> nnfin k ->
  exists m u l,
    Classes.calculate (Classes.BollingerBands p k) data =
      Ok (Classes.VFrame [("middle", m); ("upper", u); ("lower", l)]%string) /\
    forall i, band_ok (nth i m NaN) (nth i u NaN) (nth i l NaN).
Proof.
  intros Hh Hl Hc Fh Fl Fc Hk. do 3 eexists. split; [simpl; rewrite Hh, Hl, Hc; reflexivity |].
  intros i. set (tp := map (fun x => x ⊘ Fin 3) (map2 fadd (map2 fadd high low) close)).
  assert (Ftp : Forall is_fin tp).
  { apply Forall_map. eapply Forall_impl; [| apply fin_map2_add; [apply fin_map2_add |]; eassumption].
    intros x [a ->]. eexists. apply fdiv_Fin. discriminate. }
  assert (Hlen : length (rolling_mean p tp) = length (map (fun d => d ⊗ k) (rolling_std p tp)))
    by (unfold rolling_mean, rolling_std; now rewrite length_map, !length_rolling).
  rewrite !nth_map2_fl by (exact Hlen || reflexivity).
  apply band_ok_of.
  - apply (Forall_nth_d (fun x => fin_or_nan x = true)); [| reflexivity].
    apply rolling_fin_or_nan; [apply fmean_fin_or_nan | exact Ftp].
  - apply Forall_nth_d; [| now left]. apply Forall_map. eapply Forall_impl; [| apply rolling_std_nn, Ftp].
    intros d Hd. now apply scale_nn.
Qed.

(** On a flat market (a constant [close] column) MACD is zero: the
    MACD line, the signal line and the histogram are all 0, since pandas'
    EWM keeps its value when the new observation equals it. *)
Theorem macd_flat f s g c n data :
  column "close" data = Ok (repeat (Fin c) n) -> (1 <= f)%nat -> (1 <= s)%nat -> (1 <= g)%nat ->
  Classes.calculate (Classes.MACD f s g) data =
    Ok (Classes.VFrame [("macd_line", repeat (Fin 0) n); ("signal_line", repeat (Fin 0) n);
                        ("histogram", repeat (Fin 0) n)]%string).
Proof.
  intros Hc Hf Hs Hg. simpl. rewrite Hc. unfold Classes.ewm_checked.
  replace (Nat.eqb f 0) with false by (symmetry; apply Nat.eqb_neq; lia).
  replace (Nat.eqb s 0) with false by (symmetry; apply Nat.eqb_neq; lia).
  replace (Nat.eqb g 0) with false by (symmetry; apply Nat.eqb_neq; lia).
  simpl. rewrite !ewm_mean_const, map2_repeat, fsub_self, ewm_mean_const, map2_repeat.
  reflexivity.
Qed.

(** ** Witnesses *)

Lemma rsi_calculate_range_witness :
  exists s, Classes.calculate (Classes.RSI 2) sample_bars = Ok (Classes.VSeries s) /\ Forall rsi_range s.
Proof.
  apply (rsi_calculate_range 2 sample_bars (fins [10; 11; 12; 11; 13; 14]%Z));
    [reflexivity | repeat constructor; eexists; reflexivity].
Defined.

Lemma atr_nonneg_witness :
  Forall nn_or_nan (Utils.calculate_atr (fins [11; 12; 13]%Z) (fins [9; 10; 11]%Z) (fins [10; 11; 12]%Z) 2).
Proof. apply atr_nonneg; repeat constructor; eexists; reflexivity. Defined.

Lemma knn_predict_mean_index_witness :
  exists q, Utils.knn_predict sample_rows (fins [5; 5]%Z) 3 = Ok (Fin q) /\ q * 2 == qnat 3 - 1.
Proof.
  apply (knn_predict_mean_index sample_rows (fins [5; 5]%Z) 3);
    [discriminate | repeat constructor | apply Nat.leb_le; reflexivity].
Defined.

Lemma bollinger_bands_ordered_witness :
  exists m u l,
    Classes.calculate (Classes.BollingerBands 3 (Fin 2)) sample_bars =
      Ok (Classes.VFrame [("middle", m); ("upper", u); ("lower", l)]%string) /\
    forall i, band_ok (nth i m NaN) (nth i u NaN) (nth i l NaN).
Proof.
  apply (bollinger_bands_ordered 3 (Fin 2) sample_bars (fins [11; 12; 13; 12; 14; 15]%Z)
           (fins [9; 10; 11; 10; 12; 12]%Z) (fins [10; 11; 12; 11; 13; 14]%Z));
    try reflexivity; try (repeat constructor; eexists; reflexivity).
  eexists. split; [reflexivity | lra].
Defined.

Lemma macd_flat_witness :
  Classes.calculate (Classes.MACD 12 26 9) sample_flat =
    Ok (Classes.VFrame [("macd_line", repeat (Fin 0) 4); ("signal_line", repeat (Fin 0) 4);
                        ("histogram", repeat (Fin 0) 4)]%string).
Proof. apply (macd_flat 12 26 9 (inject_Z 7) 4); [reflexivity | lia | lia | lia]. Defined.

(** [str(BollingerBands())] and [str(MACD())] with their defaults. *)
Lemma str_defaults (float_repr : fl -> string) :
  float_repr (Fin 2) = "2.0"%string ->
  Classes.str float_repr (Classes.BollingerBands 20 (Fin 2)) = "BollingerBands (period=20, std_dev=2.0)"%string /\
  Classes.str float_repr (Classes.MACD 12 26 9) =
    "MACD (fast_period=12, slow_period=26, signal_period=9)"%string.
Proof. intros H. unfold Classes.str, Classes.pval_str. simpl. now rewrite H. Qed.
