(* ===== verification/Mlmi.v ===== *)
(** * MomentumPredictor: [MLMI] (src/FuturesQuant/core/indicator/mlmi.py)

    The instance keeps four Python lists: [parameter1] and [parameter2]
    (the stored feature values), [price_array] and [result_array] (the
    labels). [store_previous_trade] and [knn_predict] are modelled on
    Python values of the types the code really passes them: [calculate]
    hands over whole pandas Series (the smoothed RSI series), so the model
    keeps a small dynamic value type [pyval]. All mutations are sequential
    [PyM] steps, so a raise in the middle of a method keeps what was
    appended before it, as in Python. [calculate] is the length guard,
    [calculate_prediction] (lines 64-80: averages, crossovers, the store
    and [knn_predict]) and the channel computation from line 81 on. *)

From Stdlib Require Import String QArith Qabs Lqa List Arith Lia Bool ZArith.
From S2P Require Import Prelude Series.
Import ListNotations.
Open Scope fl_scope.

Module MLMI.

(** Constructor arguments ([__init__], lines 12-28). *)
Record params : Type := mk_params {
  num_neighbors : nat;
  momentum_window : nat
}.

Definition default_params : params := mk_params 200 20.

(** Python values flowing through the indicator: an int (or numpy
    integer), a float, or a pandas Series. *)
Inductive pyval : Type :=
| PyInt (z : Z)
| PyFloat (x : fl)
| PySeries (s : series).

(** Instance lists (lines 30-34). *)
Record state : Type := mk_state {
  parameter1 : list pyval;
  parameter2 : list pyval;
  price_array : list Z;
  result_array : list Z
}.

Definition init_state : state := mk_state [] [] [] [].

Definition set_parameter1 l st := mk_state l (parameter2 st) (price_array st) (result_array st).
Definition set_parameter2 l st := mk_state (parameter1 st) l (price_array st) (result_array st).
Definition set_price_array l st := mk_state (parameter1 st) (parameter2 st) l (result_array st).
Definition set_result_array l st := mk_state (parameter1 st) (parameter2 st) (price_array st) l.

(** The returned dictionary (lines 54-62 and 98-106). *)
Record output : Type := mk_output {
  prediction : fl;
  prediction_ma : fl;
  upper : fl;
  lower : fl;
  upper_ : fl;
  lower_ : fl;
  signal : option signal_kind
}.

Definition neutral : output :=
  mk_output (Fin 0) (Fin 0) (Fin 0) (Fin 0) (Fin 0) (Fin 0) None.

(** [store_previous_trade(p1, p2)] (lines 108-118). *)
Definition store_previous_trade (p1 p2 : pyval) : PyM state unit :=
  (st <- get ;;
   (if Nat.ltb 0 (length (parameter1 st)) then
      a <- lift (iloc_neg 1 (parameter1 st)) ;;
      modify (fun st => set_parameter1 (parameter1 st ++ [a]) st) ;;;
      st <- get ;;
      b <- lift (iloc_neg 1 (parameter2 st)) ;;
      modify (fun st => set_parameter2 (parameter2 st ++ [b]) st) ;;;
      st <- get ;;
      c <- lift (iloc_neg 1 (price_array st)) ;;
      modify (fun st => set_price_array (price_array st ++ [c]) st) ;;;
      st <- get ;;
      x <- lift (iloc_neg 1 (price_array st)) ;;
      y <- lift (iloc_neg 2 (price_array st)) ;;
      modify (fun st => set_result_array
                          (result_array st ++ [if Z.geb x y then 1%Z else (-1)%Z]) st)
    else ret tt) ;;;
   modify (fun st => set_parameter1 (parameter1 st ++ [p1]) st) ;;;
   modify (fun st => set_parameter2 (parameter2 st ++ [p2]) st) ;;;
   modify (fun st => set_price_array
                       (price_array st ++ [match rev (price_array st) with
                                           | z :: _ => z
                                           | [] => 0%Z
                                           end]) st))%py.

(** numpy arithmetic on the feature values: [p - q] with a Series on
    either side is a Series over the union of the two default indexes. *)
Definition pv_len (v : pyval) : nat :=
  match v with PySeries s => length s | _ => 0 end.
Definition pv_scalar (v : pyval) : option fl :=
  match v with PyInt z => Some (Fin (inject_Z z)) | PyFloat x => Some x | PySeries _ => None end.

(** The shape of one entry of [distances] (lines 127-132): a float, or an
    array of the given length when a Series is involved. *)
Inductive dist : Type :=
| DScalar (d : fl)
| DArray (n : nat).

Definition sample_distance (p1 p2 q1 q2 : pyval) : dist :=
  match pv_scalar p1, pv_scalar p2, pv_scalar q1, pv_scalar q2 with
  | Some a, Some b, Some c, Some d =>
      DScalar (fsqrt (((a ⊖ c) ⊗ (a ⊖ c)) ⊕ ((b ⊖ d) ⊗ (b ⊖ d))))
  | _, _, _, _ =>
      DArray (Nat.max (Nat.max (pv_len p1) (pv_len q1)) (Nat.max (pv_len p2) (pv_len q2)))
  end.

Fixpoint all_scalar (ds : list dist) : option (list fl) :=
  match ds with
  | [] => Some []
  | DScalar d :: ds' => option_map (cons d) (all_scalar ds')
  | DArray _ :: _ => None
  end.

Definition all_arrays_of (n : nat) (ds : list dist) : bool :=
  forallb (fun d => match d with DArray m => Nat.eqb m n | DScalar _ => false end) ds.

(** [distances] (lines 127-132): one entry per stored sample, indexing
    [parameter2] at every index of [parameter1]. *)
Definition knn_distances (st : state) (p1 p2 : pyval) : result (list dist) :=
  rmap (fun i =>
          rbind (py_index (parameter1 st) i) (fun q1 =>
          rbind (py_index (parameter2 st) i) (fun q2 =>
          Ok (sample_distance p1 p2 q1 q2))))
       (seq 0 (length (parameter1 st))).

(** [knn_predict(p1, p2)] (lines 120-139). With float distances this is
    the k-nearest-neighbour vote; with array distances [np.argsort] sorts
    each row and indexing [result_array] with a row raises [TypeError], and
    arrays of different lengths cannot even be stacked ([ValueError]). *)
Definition knn_predict (p : params) (p1 p2 : pyval) : PyM state pyval :=
  (st <- get ;;
   if Nat.ltb (length (parameter1 st)) 2 then ret (PyInt 0)
   else
     ds <- lift (knn_distances st p1 p2) ;;
     let k := Nat.min (num_neighbors p) (length ds) in
     match all_scalar ds with
     | Some fs =>
         neighbors <- lift (rmap (py_index (result_array st)) (firstn k (argsort fs))) ;;
         if Nat.eqb k 0 then ret (PyFloat (Fin 0))
         else ret (PyInt (fold_left Z.add neighbors 0%Z))
     | None =>
         match ds with
         | DArray n :: _ =>
             if all_arrays_of n ds then
               (if Nat.eqb k 0 then ret (PyFloat (Fin 0)) else raise TypeError)
             else raise ValueError
         | _ => raise ValueError
         end
     end)%py.

(** [calculate_wma(data, period)] (lines 141-146). *)
Definition calculate_wma (data : series) (period : nat) : series :=
  rolling period (wma_window period) data.

(** [calculate_rsi(data, period)] (lines 148-154). *)
Definition calculate_rsi (data : series) (period : nat) : series :=
  let delta := diff data in
  let gain := rolling_mean period (where_pos delta) in
  let loss := rolling_mean period (neg_where_neg delta) in
  let rs := map2 fdiv gain loss in
  map (fun r => Fin 100 ⊖ (Fin 100 ⊘ (Fin 1 ⊕ r))) rs.

(** [calculate_ema(data, period)] (lines 156-158). *)
Definition calculate_ema (data : series) (period : nat) : series := ewm_mean period data.

(** [calculate_std(data, period)] (lines 160-162): [.rolling] exists only
    on a Series. *)
Definition calculate_std (data : pyval) (period : nat) : result series :=
  match data with
  | PySeries s => Ok (rolling_std period s)
  | _ => Err AttributeError
  end.

(** [pd.Series(prediction)]. *)
Definition to_series (v : pyval) : series :=
  match v with
  | PyInt z => [Fin (inject_Z z)]
  | PyFloat x => [x]
  | PySeries s => s
  end.

(** [crossover] and [crossunder] (lines 164-170); [and] short-circuits,
    so [iloc[-2]] is read only when the first test holds. *)
Definition crossover (series1 series2 : series) : result bool :=
  (a <-? iloc_neg 1 series1 ;; b <-? iloc_neg 1 series2 ;;
   if flt b a then
     (c <-? iloc_neg 2 series1 ;; d <-? iloc_neg 2 series2 ;; Ok (fle c d))
   else Ok false)%py.

Definition crossunder (series1 series2 : series) : result bool :=
  (a <-? iloc_neg 1 series1 ;; b <-? iloc_neg 1 series2 ;;
   if flt a b then
     (c <-? iloc_neg 2 series1 ;; d <-? iloc_neg 2 series2 ;; Ok (fge c d))
   else Ok false)%py.

(** Lines 64-80 of [calculate(data)]: the moving averages and RSIs of
    the close column, the crossover tests, the store on a crossover and
    the k-NN prediction. *)
Definition calculate_prediction (p : params) (data : frame) : PyM state pyval :=
  (close <- lift (column "close" data) ;;
   let ma_quick := calculate_wma close 5 in
   let ma_slow := calculate_wma close 20 in
   let rsi_quick := calculate_wma (calculate_rsi close 5) (momentum_window p) in
   let rsi_slow := calculate_wma (calculate_rsi close 20) (momentum_window p) in
   pos <- lift (crossover ma_quick ma_slow) ;;
   neg <- lift (crossunder ma_quick ma_slow) ;;
   (if pos || neg then store_previous_trade (PySeries rsi_slow) (PySeries rsi_quick)
    else ret tt) ;;;
   knn_predict p (PySeries rsi_slow) (PySeries rsi_quick))%py.

(** [calculate(data)] (lines 36-106). Line 86 calls [.rolling] on the
    prediction; only a Series prediction gets past it, and then [upper_]
    (line 88) is a Series and the test [prediction > upper_] of line 93
    asks for the truth value of a Series, which raises [ValueError]
    whatever its contents: lines 87-106 are that raise. *)
Definition calculate (p : params) (data : frame) : PyM state output :=
  (if Nat.ltb (frame_len data) (momentum_window p) then ret neutral
   else
     pred <- calculate_prediction p data ;;
     let prediction_ma := calculate_wma (to_series pred) 20 in
     std_dev <- lift (calculate_std pred 20) ;;
     raise ValueError)%py.

(** Sample input: a falling close series whose WMA(5) crosses above its
    WMA(20) on the last bar. *)
Definition sample_closes : series :=
  map (fun z => Fin (inject_Z z))
      [30; 29; 28; 27; 26; 25; 24; 23; 22; 21; 20; 19; 18; 17; 16; 15; 14; 13; 12; 11;
       10; 9; 8; 8; 30]%Z.
Definition sample_frame : frame := [("close"%string, sample_closes)].
Definition sample_state1 : state := snd (calculate default_params sample_frame init_state).
Definition sample_state2 : state := snd (calculate default_params sample_frame sample_state1).

(** Two stores of float features, as the spec intends them: the instance
    then holds three samples and one label. *)
Definition sample_scalar_state : state :=
  snd ((store_previous_trade (PyFloat (Fin 1)) (PyFloat (Fin 2)) ;;;
        store_previous_trade (PyFloat (Fin 3)) (PyFloat (Fin 5)))%py init_state).
Definition sample_one_neighbor : params := mk_params 1 20.

(** The shape of the lists after any sequence of [store_previous_trade]:
    the three value lists grow together, [result_array] lags behind
    ([2n - 1] entries against [n - 1] after [n] stores), every label is 1
    and every stored price is 0. *)
Definition mlmi_inv (st : state) : Prop :=
  length (parameter2 st) = length (parameter1 st) /\
  length (price_array st) = length (parameter1 st) /\
  ((parameter1 st = [] /\ result_array st = []) \/
   length (parameter1 st) = S (2 * length (result_array st))) /\
  Forall (fun z => z = 1%Z) (result_array st) /\
  Forall (fun z => z = 0%Z) (price_array st).

Definition is_scalar (v : pyval) : bool :=
  match v with PySeries _ => false | _ => true end.

(** A decision procedure for [mlmi_inv]. *)
Definition mlmi_invb (st : state) : bool :=
  Nat.eqb (length (parameter2 st)) (length (parameter1 st)) &&
  Nat.eqb (length (price_array st)) (length (parameter1 st)) &&
  ((match parameter1 st, result_array st with [], [] => true | _, _ => false end) ||
   Nat.eqb (length (parameter1 st)) (S (2 * length (result_array st)))) &&
  forallb (Z.eqb 1) (result_array st) && forallb (Z.eqb 0) (price_array st).

(** One call of [calculate], on any frame. *)
Definition step (p : params) (st st' : state) : Prop :=
  exists data, snd (calculate p data st) = st'.

(** ** Helper lemmas *)

Lemma store_previous_trade_first p1 p2 l2 lp res :
  store_previous_trade p1 p2 (mk_state [] l2 lp res) =
  (Ok tt, mk_state [p1] (l2 ++ [p2])
            (lp ++ [match rev lp with z :: _ => z | [] => 0%Z end]) res).
Proof. reflexivity. Qed.

Lemma store_previous_trade_next p1 p2 l1 x1 l2 x2 lp xp res :
  store_previous_trade p1 p2 (mk_state (l1 ++ [x1]) (l2 ++ [x2]) (lp ++ [xp]) res) =
  (Ok tt, mk_state ((l1 ++ [x1; x1]) ++ [p1]) ((l2 ++ [x2; x2]) ++ [p2])
            ((lp ++ [xp; xp]) ++ [xp]) (res ++ [1%Z])).
Proof.
  unfold store_previous_trade, bind, get, modify, lift, ret. simpl.
  rewrite length_app. simpl.
  replace (Nat.ltb 0 (length l1 + 1)) with true by (symmetry; apply Nat.ltb_lt; lia).
  rewrite (iloc_neg_last l1 x1). simpl.
  rewrite (iloc_neg_last l2 x2). simpl.
  rewrite (iloc_neg_last lp xp). simpl.
  rewrite (iloc_neg_last (lp ++ [xp]) xp). simpl.
  replace ((lp ++ [xp]) ++ [xp]) with (lp ++ [xp; xp]) by (now rewrite <- app_assoc).
  rewrite iloc_neg_2_snoc, Z.geb_leb, Z.leb_refl. simpl.
  replace (lp ++ [xp; xp]) with ((lp ++ [xp]) ++ [xp]) by (now rewrite <- app_assoc).
  rewrite last_rev_snoc. now rewrite <- !app_assoc.
Qed.

Lemma forallb_Zeqb_Forall c l : forallb (Z.eqb c) l = true <-> Forall (fun z => z = c) l.
Proof.
  rewrite forallb_forall, Forall_forall.
  split; intros H x Hx; specialize (H x Hx); [symmetry; now apply Z.eqb_eq | apply Z.eqb_eq; now symmetry].
Qed.

Lemma mlmi_invb_spec st : mlmi_invb st = true <-> mlmi_inv st.
Proof.
  destruct st as [l1 l2 lp res]. unfold mlmi_invb, mlmi_inv. cbn [parameter1 parameter2 price_array result_array].
  rewrite !andb_true_iff, orb_true_iff, !Nat.eqb_eq, !forallb_Zeqb_Forall.
  assert (E : (match l1, res with [], [] => true | _, _ => false end = true) <-> (l1 = [] /\ res = [])).
  { destruct l1, res; split; intros H; try discriminate; try (destruct H; discriminate); auto. }
  rewrite E. tauto.
Qed.

Lemma store_previous_trade_preserves a b : preserves mlmi_inv (store_previous_trade a b).
Proof.
  intros [l1 l2 lp res] (H2 & Hp & Hshape & Hres & Hprice); simpl in *.
  destruct (snoc_cases l1) as [-> | (l1' & x1 & ->)].
  - destruct l2; [| discriminate]. destruct lp; [| discriminate].
    destruct Hshape as [[_ ->] | Hs]; [| simpl in Hs; lia].
    rewrite store_previous_trade_first. repeat split; simpl; auto.
  - destruct (snoc_cases l2) as [-> | (l2' & x2 & ->)]; [rewrite length_app in H2; simpl in H2; lia |].
    destruct (snoc_cases lp) as [-> | (lp' & xp & ->)]; [rewrite length_app in Hp; simpl in Hp; lia |].
    rewrite store_previous_trade_next. unfold snd, mlmi_inv; cbn [parameter1 parameter2 price_array result_array].
    rewrite !length_app in *. simpl in *.
    apply Forall_app in Hprice as [Hlp Hxp]. inversion Hxp; subst.
    repeat split.
    + lia.
    + lia.
    + right. destruct Hshape as [[Habs _] | Hs].
      * destruct l1'; discriminate.
      * lia.
    + apply Forall_app. split; [exact Hres | repeat constructor].
    + apply Forall_app. split; [apply Forall_app; split; [exact Hlp | repeat constructor] | repeat constructor].
Qed.

(** [knn_predict] only reads the instance. *)
Lemma knn_predict_state p a b st : snd (knn_predict p a b st) = st.
Proof.
  unfold knn_predict. py_unfold.
  destruct (Nat.ltb _ 2); [reflexivity |].
  destruct (knn_distances _ _ _) as [ds|e]; [| reflexivity].
  destruct (all_scalar ds) as [fs|].
  - destruct (rmap _ _) as [ns|e]; [| reflexivity]. destruct (Nat.eqb _ 0); reflexivity.
  - destruct ds as [|[d|n] ds']; try reflexivity.
    destruct (all_arrays_of n _); [destruct (Nat.eqb _ 0) |]; reflexivity.
Qed.

Lemma knn_predict_preserves p a b : preserves mlmi_inv (knn_predict p a b).
Proof. intros st H. now rewrite knn_predict_state. Qed.

Lemma calculate_prediction_preserves p data : preserves mlmi_inv (calculate_prediction p data).
Proof.
  unfold calculate_prediction.
  apply preserves_bind; [apply preserves_lift | intros close; cbv zeta].
  apply preserves_bind; [apply preserves_lift | intros pos].
  apply preserves_bind; [apply preserves_lift | intros neg].
  apply preserves_bind; [destruct (pos || neg); [apply store_previous_trade_preserves | apply preserves_ret] | intros _].
  apply knn_predict_preserves.
Qed.

Lemma mlmi_calculate_preserves p data : preserves mlmi_inv (calculate p data).
Proof.
  unfold calculate. destruct (Nat.ltb _ _); [apply preserves_ret |].
  apply preserves_bind; [apply calculate_prediction_preserves | intros pred].
  apply preserves_bind; [apply preserves_lift | intros _; apply preserves_raise].
Qed.

(** [knn_predict] returns an int or a float, never a Series. *)
Lemma knn_predict_not_series p a b :
  ok_post (knn_predict p a b) (fun v => forall s, v <> PySeries s).
Proof.
  intros st v st' H s. revert H. unfold knn_predict. py_unfold.
  destruct (Nat.ltb _ 2); [congruence |].
  destruct (knn_distances _ _ _) as [ds|e]; [| congruence].
  destruct (all_scalar ds) as [fs|].
  - destruct (rmap _ _) as [ns|e]; [| congruence]. destruct (Nat.eqb _ 0); congruence.
  - destruct ds as [|[d|n] ds']; try congruence.
    destruct (all_arrays_of n _); [destruct (Nat.eqb _ 0) |]; congruence.
Qed.

Lemma calculate_prediction_not_series p data :
  ok_post (calculate_prediction p data) (fun v => forall s, v <> PySeries s).
Proof.
  intros st v st'. unfold calculate_prediction. py_unfold.
  destruct (column _ _) as [close|e]; [| congruence]. cbv zeta.
  destruct (crossover _ _) as [pos|e]; [| congruence].
  destruct (crossunder _ _) as [neg|e]; [| congruence].
  destruct (if pos || neg then _ else _) as [[[]|e] st1]; [| congruence].
  apply knn_predict_not_series.
Qed.

Lemma iloc_neg_ok {A} k (l : list A) : (1 <= k <= length l)%nat -> exists x, iloc_neg k l = Ok x.
Proof.
  intros H. unfold iloc_neg. destruct (nth_error (rev l) (pred k)) eqn:E; [eauto |].
  apply nth_error_None in E. rewrite length_rev in E. lia.
Qed.

Lemma crossover_ok s1 s2 : (2 <= length s1)%nat -> (2 <= length s2)%nat ->
  exists b, crossover s1 s2 = Ok b.
Proof.
  intros H1 H2. unfold crossover, rbind.
  destruct (iloc_neg_ok 1 s1) as [a ->]; [lia |]. destruct (iloc_neg_ok 1 s2) as [b ->]; [lia |].
  destruct (flt b a); [| eauto].
  destruct (iloc_neg_ok 2 s1) as [c ->]; [lia |]. destruct (iloc_neg_ok 2 s2) as [d ->]; [lia |]. eauto.
Qed.

Lemma crossunder_ok s1 s2 : (2 <= length s1)%nat -> (2 <= length s2)%nat ->
  exists b, crossunder s1 s2 = Ok b.
Proof.
  intros H1 H2. unfold crossunder, rbind.
  destruct (iloc_neg_ok 1 s1) as [a ->]; [lia |]. destruct (iloc_neg_ok 1 s2) as [b ->]; [lia |].
  destruct (flt a b); [| eauto].
  destruct (iloc_neg_ok 2 s1) as [c ->]; [lia |]. destruct (iloc_neg_ok 2 s2) as [d ->]; [lia |]. eauto.
Qed.

Lemma knn_predict_few p a b st : (length (parameter1 st) < 2)%nat ->
  knn_predict p a b st = (Ok (PyInt 0), st).
Proof.
  intros H. unfold knn_predict. py_unfold.
  now replace (Nat.ltb (length (parameter1 st)) 2) with true by (symmetry; apply Nat.ltb_lt; lia).
Qed.

Lemma py_index_nth {A} (xs : list A) i d : (i < length xs)%nat -> py_index xs i = Ok (nth i xs d).
Proof. intros H. unfold py_index. now rewrite (nth_error_nth' xs d H). Qed.

Lemma sample_distance_scalar a b q1 q2 :
  is_scalar a = true -> is_scalar b = true -> is_scalar q1 = true -> is_scalar q2 = true ->
  exists d, sample_distance a b q1 q2 = DScalar d.
Proof.
  destruct a, b, q1, q2; intros; try discriminate; unfold sample_distance; simpl; eauto.
Qed.

Lemma all_scalar_map fs : all_scalar (map DScalar fs) = Some fs.
Proof. induction fs as [|f fs IH]; simpl; [reflexivity | now rewrite IH]. Qed.

Lemma all_scalar_length ds fs : all_scalar ds = Some fs -> length fs = length ds.
Proof.
  revert fs. induction ds as [|[d|n] ds IH]; intros fs H; simpl in H; try discriminate.
  - now inversion H.
  - destruct (all_scalar ds) as [fs'|]; inversion H; subst. simpl. now rewrite (IH _ eq_refl).
Qed.

Lemma knn_distances_length st a b ds :
  knn_distances st a b = Ok ds -> length ds = length (parameter1 st).
Proof. intros H. apply rmap_length in H. now rewrite H, length_seq. Qed.

(** With float features and float samples every distance is a float. *)
Lemma knn_distances_scalar st a b :
  length (parameter2 st) = length (parameter1 st) ->
  Forall (fun v => is_scalar v = true) (parameter1 st) ->
  Forall (fun v => is_scalar v = true) (parameter2 st) ->
  is_scalar a = true -> is_scalar b = true ->
  exists fs, knn_distances st a b = Ok (map DScalar fs) /\ length fs = length (parameter1 st).
Proof.
  intros Hl H1 H2 Ha Hb.
  set (g i := match sample_distance a b (nth i (parameter1 st) (PyInt 0))
                                        (nth i (parameter2 st) (PyInt 0)) with
              | DScalar d => d | DArray _ => NaN end).
  exists (map g (seq 0 (length (parameter1 st)))).
  rewrite length_map, length_seq, map_map. split; [| reflexivity].
  apply rmap_Ok_map. intros i Hi. apply in_seq in Hi.
  rewrite (py_index_nth _ _ (PyInt 0)) by lia. simpl.
  rewrite (py_index_nth _ _ (PyInt 0)) by lia. simpl. unfold g.
  destruct (sample_distance_scalar a b (nth i (parameter1 st) (PyInt 0))
              (nth i (parameter2 st) (PyInt 0))) as [d ->]; auto;
    [apply (proj1 (Forall_forall _ _) H1) | apply (proj1 (Forall_forall _ _) H2)];
    apply nth_In; lia.
Qed.

(** ** Properties *)

(** C6. Once the frame has [momentum_window] rows, [calculate] never
    returns: if the prediction step (lines 64-80) raises, [calculate]
    raises the same error, and if it returns, line 86 raises
    [AttributeError] because the prediction is an int or a float with no
    [.rolling]; in both cases the instance is left as the prediction step
    left it. The indicator never produces a prediction, channel or
    signal. *)
Theorem calculate_never_returns p data st :
  (momentum_window p <= frame_len data)%nat ->
  calculate p data st =
    match calculate_prediction p data st with
    | (Ok _, st') => (Err AttributeError, st')
    | (Err e, st') => (Err e, st')
    end.
Proof.
  intros H. unfold calculate.
  replace (Nat.ltb (frame_len data) (momentum_window p)) with false
    by (symmetry; apply Nat.ltb_ge; exact H).
  py_unfold. destruct (calculate_prediction p data st) as [[v|e] st'] eqn:Hp; [| reflexivity].
  destruct v as [z|x|ser]; [reflexivity | reflexivity |].
  exfalso. exact (calculate_prediction_not_series p data st _ st' Hp ser eq_refl).
Qed.

(** On the first call of a fresh instance with a [close] column of
    at least two rows, the error is the [AttributeError] of line 86:
    [knn_predict] returns the int 0 (fewer than two stored samples) and
    [calculate_std] calls [.rolling] on it. *)
Theorem first_call_attribute_error p data close :
  column "close" data = Ok close -> (2 <= length close)%nat ->
  (momentum_window p <= frame_len data)%nat ->
  fst (calculate p data init_state) = Err AttributeError.
Proof.
  intros Hc Hl H. unfold calculate, calculate_prediction. py_unfold.
  replace (Nat.ltb (frame_len data) (momentum_window p)) with false
    by (symmetry; apply Nat.ltb_ge; exact H).
  rewrite Hc. cbv zeta.
  destruct (crossover_ok (calculate_wma close 5) (calculate_wma close 20)) as [pos ->];
    try (unfold calculate_wma; rewrite length_rolling; exact Hl).
  destruct (crossunder_ok (calculate_wma close 5) (calculate_wma close 20)) as [neg ->];
    try (unfold calculate_wma; rewrite length_rolling; exact Hl).
  destruct (pos || neg).
  - unfold init_state. rewrite store_previous_trade_first. cbv beta iota.
    rewrite knn_predict_few by (simpl; lia). reflexivity.
  - rewrite knn_predict_few by (simpl; lia). reflexivity.
Qed.

(** With fewer than [momentum_window] rows, [calculate] returns the
    zeroed record with no signal and leaves the instance unchanged. *)
Theorem mlmi_short_data_neutral p data st :
  (frame_len data < momentum_window p)%nat -> calculate p data st = (Ok neutral, st).
Proof.
  intros H. unfold calculate.
  now replace (Nat.ltb (frame_len data) (momentum_window p)) with true
    by (symmetry; apply Nat.ltb_lt; exact H).
Qed.

(** C7. In every state reachable from a fresh instance by calls of
    [calculate], after [n] stored samples [parameter1], [parameter2] and
    [price_array] hold [2n - 1] entries while [result_array] holds only
    [n - 1]; every label is 1 and every recorded price is 0. *)
Theorem reachable_store_shape p st :
  star (step p) init_state st -> mlmi_inv st.
Proof.
  intros Hr. apply (star_inv (step p) mlmi_inv) with (s := init_state); auto.
  - intros s s' Hs [data <-]. now apply mlmi_calculate_preserves.
  - repeat split; simpl; auto.
Qed.

(** C8. With float features and float samples, as the spec intends them,
    [knn_predict] on any instance built by [store_previous_trade] raises
    [IndexError] whenever [num_neighbors] exceeds the number of stored
    labels: the [k] nearest indices range over all [2n - 1] samples while
    [result_array] holds only [n - 1] labels (lines 136-137). *)
Theorem knn_predict_index_error p a b st :
  mlmi_inv st -> (2 <= length (parameter1 st))%nat ->
  Forall (fun v => is_scalar v = true) (parameter1 st) ->
  Forall (fun v => is_scalar v = true) (parameter2 st) ->
  is_scalar a = true -> is_scalar b = true ->
  (length (result_array st) < num_neighbors p)%nat ->
  knn_predict p a b st = (Err IndexError, st).
Proof.
  intros (Hl2 & _ & Hshape & _) Hlen H1 H2 Ha Hb Hk.
  destruct (knn_distances_scalar st a b Hl2 H1 H2 Ha Hb) as (fs & Hd & Hfs).
  assert (Hn : length (parameter1 st) = S (2 * length (result_array st)))
    by (destruct Hshape as [[H0 _] | H]; [rewrite H0 in Hlen; simpl in Hlen; lia | exact H]).
  unfold knn_predict. py_unfold.
  replace (Nat.ltb (length (parameter1 st)) 2) with false by (symmetry; apply Nat.ltb_ge; lia).
  rewrite Hd, all_scalar_map, length_map, Hfs, rmap_py_index_Err; [reflexivity |].
  apply NoDup_exists_ge; [apply NoDup_firstn, NoDup_argsort |].
  rewrite length_firstn, length_argsort. lia.
Qed.

(** Whenever [knn_predict] returns on a stored instance (at least two
    samples, at least one neighbour), the prediction is the int
    [min(num_neighbors, len(parameter1))], whatever the features: every
    label is 1, so the vote counts the neighbours and carries no
    information about them. *)
Theorem knn_predict_constant p a b st v :
  mlmi_inv st -> (2 <= length (parameter1 st))%nat -> (1 <= num_neighbors p)%nat ->
  fst (knn_predict p a b st) = Ok v ->
  v = PyInt (Z.of_nat (Nat.min (num_neighbors p) (length (parameter1 st)))).
Proof.
  intros (_ & _ & _ & Hres & _) Hlen Hk. unfold knn_predict. py_unfold.
  replace (Nat.ltb (length (parameter1 st)) 2) with false by (symmetry; apply Nat.ltb_ge; lia).
  destruct (knn_distances st a b) as [ds|e] eqn:Hd; [| discriminate].
  apply knn_distances_length in Hd.
  replace (Nat.eqb (Nat.min (num_neighbors p) (length ds)) 0) with false
    by (symmetry; apply Nat.eqb_neq; lia).
  destruct (all_scalar ds) as [fs|] eqn:Hs.
  - destruct (rmap _ _) as [ns|e] eqn:Hr; simpl; intros H; inversion H; subst.
    apply rmap_py_index_Ok in Hr as [Hlns Hin].
    pose proof (all_scalar_length _ _ Hs) as Hfs. rewrite length_firstn, length_argsort in Hlns.
    rewrite fold_left_Zadd_ones; [do 2 f_equal; lia |].
    eapply Forall_impl; [| exact Hin]. intros n Hn. exact (proj1 (Forall_forall _ _) Hres n Hn).
  - destruct ds as [|[d|n] ds']; try (simpl; discriminate).
    destruct (all_arrays_of n _); simpl; discriminate.
Qed.


(** ** Witnesses *)

Lemma calculate_never_returns_witness :
  (momentum_window default_params <= frame_len sample_frame)%nat /\
  calculate default_params sample_frame sample_state1 =
    match calculate_prediction default_params sample_frame sample_state1 with
    | (Ok _, st') => (Err AttributeError, st')
    | (Err e, st') => (Err e, st')
    end.
Proof.
  assert (H : (momentum_window default_params <= frame_len sample_frame)%nat)
    by (apply Nat.leb_le; reflexivity).
  split; [exact H | apply calculate_never_returns, H].
Defined.

Lemma first_call_attribute_error_witness :
  fst (calculate default_params sample_frame init_state) = Err AttributeError.
Proof.
  apply (first_call_attribute_error default_params sample_frame sample_closes);
    [reflexivity | apply Nat.leb_le; reflexivity | apply Nat.leb_le; reflexivity].
Defined.

Lemma mlmi_short_data_neutral_witness :
  calculate default_params [("close"%string, firstn 5 sample_closes)] sample_state1 =
  (Ok neutral, sample_state1).
Proof. apply mlmi_short_data_neutral. apply Nat.ltb_lt; reflexivity. Defined.

Lemma reachable_store_shape_witness :
  star (step default_params) init_state sample_state2 /\ mlmi_inv sample_state2 /\
  length (parameter1 sample_state2) = 3%nat /\ result_array sample_state2 = [1%Z].
Proof.
  assert (Hr : star (step default_params) init_state sample_state2).
  { apply star_step with (s2 := sample_state1);
      [exists sample_frame; unfold sample_state1; reflexivity |].
    apply star_step with (s2 := sample_state2);
      [exists sample_frame; unfold sample_state2; reflexivity | apply star_refl]. }
  split; [exact Hr |]. split; [apply (reachable_store_shape default_params), Hr |].
  split; vm_compute; reflexivity.
Defined.

Lemma knn_predict_index_error_witness :
  knn_predict default_params (PyFloat (Fin 0)) (PyFloat (Fin 0)) sample_scalar_state =
  (Err IndexError, sample_scalar_state).
Proof.
  apply knn_predict_index_error;
    [apply mlmi_invb_spec | apply Nat.leb_le | apply Forall_forallb | apply Forall_forallb
    | | | apply Nat.ltb_lt]; vm_compute; reflexivity.
Defined.

Lemma knn_predict_constant_witness :
  fst (knn_predict sample_one_neighbor (PyFloat (Fin 0)) (PyFloat (Fin 0)) sample_scalar_state) =
  Ok (PyInt 1) /\ PyInt 1 = PyInt (Z.of_nat (Nat.min 1 3)).
Proof.
  assert (H : fst (knn_predict sample_one_neighbor (PyFloat (Fin 0)) (PyFloat (Fin 0))
                 sample_scalar_state) = Ok (PyInt 1)) by (vm_compute; reflexivity).
  split; [exact H |].
  apply (knn_predict_constant sample_one_neighbor (PyFloat (Fin 0)) (PyFloat (Fin 0))
           sample_scalar_state (PyInt 1));
    [apply mlmi_invb_spec | apply Nat.leb_le | apply Nat.leb_le | exact H]; vm_compute; reflexivity.
Defined.

End MLMI.
