(* ===== verification/Registry.v ===== *)
(** * Indicator registries

    Two registries map a name to an indicator instance.

    - [CoreManager] models [IndicatorManager] of
      [src/FuturesQuant/core/indicator/manager.py] (lines 48-65): a dict
      literal of five instances built once, [get_indicator] is [dict.get],
      and [calculate] forwards to the instance or raises [ValueError]. Its
      state is the tuple of the five instances' states. MLMI and
      CrossCorrelationPair are the models of [Mlmi.v] and
      [CrossCorrelation.v]; SuperTrendAI, SuperTrend and Scalping are
      imported from modules that are not in the repository, so they are
      section variables: any state type and any [calculate].
    - [Copilot] models [IndicatorManager] of
      [src/FuturesQuant/FuturesQuantCopilotFiles/FuturesQuant_core_indicator_manager.py]
      (lines 25-62): instances registered at run time under the id
      [f"{name}_{hash(frozenset(params.items()))}"], kept in insertion
      order; it refines a finite map ([gmap]) from ids to indicators.

    The class [Registry] is what the signal aggregator relies on: an
    unknown name raises without touching the state. *)

From Stdlib Require Import String QArith List ZArith Bool Permutation.
From stdpp Require Import base gmap strings.
From S2P Require Import Prelude Series Indicators CrossCorrelation Mlmi.
Import ListNotations.

(** ** Python values used as dict keys and JSON fields *)

(** A JSON value as the HTTP layer decodes it; arrays and objects are
    Python lists and dicts, which are not hashable. *)
#[warnings="-register-all"]
Inductive jval : Type :=
| JStr (s : string)
| JNum (q : Q)
| JBool (b : bool)
| JNull
| JArr (l : list jval)
| JObj (l : list (string * jval)).

Definition hashable (v : jval) : bool :=
  match v with JArr _ | JObj _ => false | _ => true end.

(** Association-list lookup, first binding wins. *)
Fixpoint assoc {K V} (eqb : K -> K -> bool) (k : K) (l : list (K * V)) : option V :=
  match l with
  | [] => None
  | (k', v) :: l' => if eqb k' k then Some v else assoc eqb k l'
  end.

(** [d.get(key)] on a dict with string keys: an unhashable key raises
    [TypeError], a key of another type is simply absent. *)
Definition dict_get_str {V} (d : list (string * V)) (key : jval) : result (option V) :=
  if negb (hashable key) then Err TypeError
  else match key with
       | JStr s => Ok (assoc Stdlib.Strings.String.eqb s d)
       | _ => Ok None
       end.

(** The items [list.extend] takes from an iterable. *)
Definition py_iter (v : jval) : result (list jval) :=
  match v with
  | JArr l => Ok l
  | JObj l => Ok (map (fun kv => JStr (fst kv)) l)
  | JStr s => Ok (map (fun c => JStr (String c EmptyString)) (list_ascii_of_string s))
  | _ => Err TypeError
  end.

(** [v[key]] for a string key. *)
Definition subscript (v : jval) (key : string) : result jval :=
  match v with
  | JObj l => match assoc Stdlib.Strings.String.eqb key l with Some x => Ok x | None => Err KeyError end
  | _ => Err TypeError
  end.

(** [v.get(key, default)]. *)
Definition get_default (v : jval) (key : string) (dflt : jval) : result jval :=
  match v with
  | JObj l => Ok (match assoc Stdlib.Strings.String.eqb key l with Some x => x | None => dflt end)
  | _ => Err AttributeError
  end.

(** Python truthiness of a JSON value. *)
Definition truthy (v : jval) : bool :=
  match v with
  | JStr s => negb (Stdlib.Strings.String.eqb s "")
  | JNum q => negb (Qeq_bool q 0)
  | JBool b => b
  | JNull => false
  | JArr l => negb (Nat.eqb (List.length l) 0)
  | JObj l => negb (Nat.eqb (List.length l) 0)
  end.

(** The exception a failed registry lookup raises. *)
Definition lookup_error (name : jval) : py_error :=
  if hashable name then ValueError else TypeError.

(** ** The interface the aggregator uses *)

Class Registry (M D Out : Type) := {
  reg_known : jval -> bool;
  reg_calculate : jval -> D -> PyM M Out;
  reg_unknown : forall name data st,
    reg_known name = false -> reg_calculate name data st = (Err (lookup_error name), st)
}.

(** ** [core/indicator/manager.py]: [IndicatorManager] *)

Module CoreManager.

Inductive handle : Type := HSuperTrendAI | HSuperTrend | HScalping | HMLMI | HCCP.

#[export] Instance handle_eq_dec : EqDecision handle.
Proof. solve_decision. Defined.

(** The dict literal of [__init__] (lines 50-56). *)
Definition indicators : list (string * handle) :=
  [("SuperTrendAI", HSuperTrendAI); ("SuperTrend", HSuperTrend); ("Scalping", HScalping);
   ("MLMI", HMLMI); ("CrossCorrelationPair", HCCP)]%string.

(** [get_indicator(name)] (lines 58-59). *)
Definition get_indicator (name : jval) : result (option handle) := dict_get_str indicators name.

Section Manager.

Context {SA ST SC EOut : Type}.
Context (supertrend_ai_calc : frame -> PyM SA EOut).
Context (supertrend_calc : frame -> PyM ST EOut).
Context (scalping_calc : frame -> PyM SC EOut).

(** The states of the five instances. *)
Record manager : Type := mk_manager {
  supertrend_ai : SA;
  supertrend : ST;
  scalping : SC;
  mlmi : MLMI.state;
  ccp : CCP.state
}.

Definition set_supertrend_ai x m := mk_manager x (supertrend m) (scalping m) (mlmi m) (ccp m).
Definition set_supertrend x m := mk_manager (supertrend_ai m) x (scalping m) (mlmi m) (ccp m).
Definition set_scalping x m := mk_manager (supertrend_ai m) (supertrend m) x (mlmi m) (ccp m).
Definition set_mlmi x m := mk_manager (supertrend_ai m) (supertrend m) (scalping m) x (ccp m).
Definition set_ccp x m := mk_manager (supertrend_ai m) (supertrend m) (scalping m) (mlmi m) x.

(** [__init__] with the constructors' defaults. *)
Definition init_manager (sa0 : SA) (st0 : ST) (sc0 : SC) : manager :=
  mk_manager sa0 st0 sc0 MLMI.init_state CCP.init_state.

(** What [calculate] returns, by indicator. *)
Inductive out : Type :=
| OutExt (e : EOut)
| OutMLMI (o : MLMI.output)
| OutCCP (o : CCP.output).

(** [indicator.calculate(data)] on the instance held under [h]. *)
Definition dispatch (h : handle) (data : frame) : PyM manager out :=
  (match h with
   | HSuperTrendAI => zoom supertrend_ai set_supertrend_ai (e <- supertrend_ai_calc data ;; ret (OutExt e))
   | HSuperTrend => zoom supertrend set_supertrend (e <- supertrend_calc data ;; ret (OutExt e))
   | HScalping => zoom scalping set_scalping (e <- scalping_calc data ;; ret (OutExt e))
   | HMLMI => zoom mlmi set_mlmi (o <- MLMI.calculate MLMI.default_params data ;; ret (OutMLMI o))
   | HCCP => zoom ccp set_ccp (o <- CCP.calculate CCP.default_params data ;; ret (OutCCP o))
   end)%py.

(** [calculate(name, data)] (lines 61-65): instances are truthy, so the
    test [if indicator] only separates a found instance from [None]. *)
Definition calculate (name : jval) (data : frame) : PyM manager out :=
  (h <- lift (get_indicator name) ;;
   match h with
   | Some h => dispatch h data
   | None => raise ValueError
   end)%py.

Definition known (name : jval) : bool :=
  match get_indicator name with Ok (Some _) => true | _ => false end.

Lemma known_false name : known name = false -> get_indicator name = Ok None \/ get_indicator name = Err TypeError.
Proof.
  unfold known. destruct (get_indicator name) as [[h|]|e] eqn:E; intros H; try discriminate; [now left |].
  right. unfold get_indicator, dict_get_str in E. destruct (hashable name); simpl in E.
  - destruct name; discriminate.
  - congruence.
Qed.

Lemma calculate_unknown name data m :
  known name = false -> calculate name data m = (Err (lookup_error name), m).
Proof.
  intros H. unfold calculate, bind, lift, raise, lookup_error.
  destruct (known_false name H) as [E | E]; rewrite E.
  - unfold get_indicator, dict_get_str in E. now destruct (hashable name).
  - unfold get_indicator, dict_get_str in E. destruct (hashable name); [| reflexivity].
    destruct name; discriminate.
Qed.

#[export] Instance core_registry : Registry manager frame out := {
  reg_known := known;
  reg_calculate := calculate;
  reg_unknown := calculate_unknown
}.

(** ** Properties *)

(** What calling the instance read by [getf] does to the manager: the
    instance's call runs on its own state, its result is wrapped by
    [wrap], and the manager gets the instance's new state by [setf], every
    other instance unchanged. *)
Definition on_instance {X A} (getf : manager -> X) (setf : X -> manager -> manager)
    (wrap : A -> out) (c : PyM X A) (m : manager) : result out * manager :=
  (match fst (c (getf m)) with Ok a => Ok (wrap a) | Err e => Err e end,
   setf (snd (c (getf m))) m).

Lemma dispatch_on_instance {X A} (getf : manager -> X) setf (wrap : A -> out) (c : PyM X A) m :
  zoom getf setf (a <- c ;; ret (wrap a))%py m = on_instance getf setf wrap c m.
Proof.
  rewrite zoom_run. unfold on_instance, bind, ret.
  now destruct (c (getf m)) as [[a|e] x].
Qed.

(** ** Properties *)

(** C12. [calculate(name, data)] routes each of the five names of the
    dict literal to its own instance: the name's indicator computes on its
    own state (MLMI and CrossCorrelationPair with their default
    parameters), its result or exception is what [calculate] gives, and
    only that instance's state changes; any other name raises the lookup's
    error and changes nothing. *)
Theorem calculate_routes data m :
  calculate (JStr "SuperTrendAI") data m =
    on_instance supertrend_ai set_supertrend_ai OutExt (supertrend_ai_calc data) m /\
  calculate (JStr "SuperTrend") data m =
    on_instance supertrend set_supertrend OutExt (supertrend_calc data) m /\
  calculate (JStr "Scalping") data m =
    on_instance scalping set_scalping OutExt (scalping_calc data) m /\
  calculate (JStr "MLMI") data m =
    on_instance mlmi set_mlmi OutMLMI (MLMI.calculate MLMI.default_params data) m /\
  calculate (JStr "CrossCorrelationPair") data m =
    on_instance ccp set_ccp OutCCP (CCP.calculate CCP.default_params data) m /\
  (forall name, known name = false -> calculate name data m = (Err (lookup_error name), m)).
Proof.
  repeat split; try apply dispatch_on_instance. intros name. apply calculate_unknown.
Qed.

End Manager.

End CoreManager.

(** ** [FuturesQuant_core_indicator_manager.py]: [IndicatorManager] *)

Module Copilot.

(** An id [f"{name}_{h}"]: the decimal rendering of the int [h] holds no
    underscore, so the id string determines the pair [(name, h)] and
    equal ids are equal pairs. *)
Definition key : Type := string * Z.

Definition key_eqb (a b : key) : bool := bool_decide (a = b).

(** [self.indicators]: a dict in insertion order. *)
Definition registry : Type := list (key * Classes.indicator).

Section Copilot.

(** [hash(frozenset(items))]: a function of the items, the same for any
    order of them (the hash of a [frozenset] does not depend on order);
    string hashes vary between processes, so nothing else is assumed. *)
Context (hash_items : list (string * Classes.pval) -> Z).
Hypothesis hash_perm : forall a b, Permutation a b -> hash_items a = hash_items b.

Definition indicator_id (name : string) (params : list (string * Classes.pval)) : key :=
  (name, hash_items params).

(** [register_indicator(indicator)] (lines 35-44). *)
Definition register_indicator (ind : Classes.indicator) : PyM registry bool :=
  fun r =>
    let id := indicator_id (Classes.name ind) (Classes.params ind) in
    match assoc key_eqb id r with
    | Some _ => (Ok false, r)
    | None => (Ok true, r ++ [(id, ind)])
    end.

(** [get_indicator(name, params=None)] (lines 46-55). *)
Definition get_indicator (name : string) (params : option (list (string * Classes.pval)))
  : PyM registry Classes.indicator :=
  fun r =>
    let id := indicator_id name (default [] params) in
    match assoc key_eqb id r with
    | Some ind => (Ok ind, r)
    | None => (Err KeyError, r)
    end.

(** [calculate_all(data)] (lines 57-62): the first exception propagates. *)
Definition calculate_all (data : frame) : PyM registry (list (key * Classes.ind_value)) :=
  fun r => (rmap (fun '(k, ind) => rbind (Classes.calculate ind data) (fun v => Ok (k, v))) r, r).

(** The abstract registry: a finite map from ids to indicators. *)
Definition abs (r : registry) : gmap key Classes.indicator := list_to_map r.

Definition spec_register (k : key) (v : Classes.indicator) (g : gmap key Classes.indicator)
  : bool * gmap key Classes.indicator :=
  match g !! k with Some _ => (false, g) | None => (true, <[k:=v]> g) end.

Definition spec_get (k : key) (g : gmap key Classes.indicator) : result Classes.indicator :=
  match g !! k with Some v => Ok v | None => Err KeyError end.

(** Registries holding the same map. *)
Definition reg_equiv (r1 r2 : registry) : Prop := abs r1 = abs r2.

(** Same result, equivalent registries after the call. *)
Definition res_equiv {A} (x y : result A * registry) : Prop := fst x = fst y /\ reg_equiv (snd x) (snd y).

#[export] Instance reg_equiv_equiv : Equivalence reg_equiv.
Proof. split; unfold reg_equiv; [intros ? | intros ? ? ? | intros ? ? ? ? ?]; congruence. Qed.

#[export] Instance res_equiv_equiv {A} : Equivalence (@res_equiv A).
Proof.
  split.
  - intros x. split; reflexivity.
  - intros x y [H1 H2]. split; [symmetry; exact H1 | symmetry; exact H2].
  - intros x y z [H1 H2] [H3 H4]. split; [congruence | etransitivity; eassumption].
Qed.

Lemma assoc_abs k r : assoc key_eqb k r = abs r !! k.
Proof.
  induction r as [|[k' v] r IH]; [reflexivity |]. unfold abs in *.
  rewrite list_to_map_cons, lookup_insert. cbn [assoc]. unfold key_eqb in *.
  case_bool_decide; case_decide; congruence.
Qed.

Lemma register_spec ind r :
  register_indicator ind r =
  (Ok (fst (spec_register (indicator_id (Classes.name ind) (Classes.params ind)) ind (abs r))),
   match abs r !! indicator_id (Classes.name ind) (Classes.params ind) with
   | Some _ => r | None => r ++ [(indicator_id (Classes.name ind) (Classes.params ind), ind)] end).
Proof.
  unfold register_indicator, spec_register. rewrite assoc_abs.
  now destruct (abs r !! _).
Qed.

Lemma abs_register ind r :
  abs (snd (register_indicator ind r)) =
  snd (spec_register (indicator_id (Classes.name ind) (Classes.params ind)) ind (abs r)).
Proof.
  rewrite register_spec. unfold spec_register. simpl.
  destruct (abs r !! _) eqn:E; [reflexivity |].
  unfold abs. rewrite list_to_map_snoc; [reflexivity |]. now apply not_elem_of_list_to_map_2.
Qed.

Lemma get_spec name params r :
  get_indicator name params r = (spec_get (indicator_id name (default [] params)) (abs r), r).
Proof. unfold get_indicator, spec_get. rewrite assoc_abs. now destruct (abs r !! _). Qed.

#[export] Instance register_proper ind : Proper (reg_equiv ==> res_equiv) (register_indicator ind).
Proof.
  intros r1 r2 H. split.
  - rewrite !register_spec. simpl. now rewrite H.
  - unfold reg_equiv. rewrite !abs_register. now rewrite H.
Qed.

#[export] Instance get_proper name params : Proper (reg_equiv ==> res_equiv) (get_indicator name params).
Proof. intros r1 r2 H. rewrite !get_spec. split; simpl; [now rewrite H | exact H]. Qed.

Lemma calculate_all_keys data (r : registry) (res : list (key * Classes.ind_value)) :
  rmap (fun '(k, ind) => rbind (Classes.calculate ind data) (fun v => Ok (k, v))) r = Ok res ->
  map fst res = map fst r.
Proof.
  revert res. induction r as [|[k ind] r IH]; intros res H; simpl in H; [now inversion H |].
  destruct (Classes.calculate ind data); [| discriminate]. simpl in H.
  destruct (rmap _ r) eqn:E; [| discriminate]. inversion H; subst. simpl. f_equal. now apply IH.
Qed.

(** ** Properties *)

(** C13. The copilot registry refines a finite map from ids to
    indicators: [register_indicator] returns what the abstract
    insert-if-absent returns and leaves the registry denoting the
    abstract result, and [get_indicator] is the abstract lookup, raising
    [KeyError] on a missing id. *)
Theorem copilot_refines ind name params r :
  (fst (register_indicator ind r) =
     Ok (fst (spec_register (indicator_id (Classes.name ind) (Classes.params ind)) ind (abs r))) /\
   abs (snd (register_indicator ind r)) =
     snd (spec_register (indicator_id (Classes.name ind) (Classes.params ind)) ind (abs r))) /\
  get_indicator name params r = (spec_get (indicator_id name (default [] params)) (abs r), r).
Proof. split; [split; [now rewrite register_spec | apply abs_register] | apply get_spec]. Qed.

(** C14. After a successful registration, looking the indicator up by
    its name and its parameters, given in any order, returns it. *)
Theorem register_get_roundtrip ind r ps :
  fst (register_indicator ind r) = Ok true -> Permutation ps (Classes.params ind) ->
  get_indicator (Classes.name ind) (Some ps) (snd (register_indicator ind r)) =
  (Ok ind, snd (register_indicator ind r)).
Proof.
  intros Hr Hp. rewrite get_spec, abs_register. unfold indicator_id at 1. simpl default.
  rewrite (hash_perm _ _ Hp). fold (indicator_id (Classes.name ind) (Classes.params ind)).
  rewrite register_spec in Hr. unfold spec_register in *.
  destruct (abs r !! _); simpl in Hr; [discriminate |].
  unfold spec_get. simpl. now rewrite lookup_insert_eq.
Qed.

(** A second indicator with the same name and the same parameter
    hash is rejected with [False] and the registry is left unchanged;
    no exception is raised. *)
Theorem register_same_id_rejected i1 i2 r :
  indicator_id (Classes.name i1) (Classes.params i1) = indicator_id (Classes.name i2) (Classes.params i2) ->
  register_indicator i2 (snd (register_indicator i1 r)) = (Ok false, snd (register_indicator i1 r)).
Proof.
  intros Hid. rewrite (register_spec i2), abs_register, <- Hid. unfold spec_register.
  destruct (abs r !! _) eqn:E; simpl; [now rewrite E | now rewrite lookup_insert_eq].
Qed.

(** When [calculate_all] returns, its result has one entry per
    registered indicator, in registration order, and the registry is
    unchanged. *)
Theorem calculate_all_order data (r : registry) res r' :
  calculate_all data r = (Ok res, r') -> map fst res = map fst r /\ r' = r.
Proof.
  unfold calculate_all. intros H. injection H as Hres Hr. subst r'.
  split; [exact (calculate_all_keys data r res Hres) | reflexivity].
Qed.

(** Registering two indicators with different ids in either order
    gives equivalent registries (the same map, possibly in another
    order), so every later lookup agrees. *)
Theorem register_commute i1 i2 r :
  indicator_id (Classes.name i1) (Classes.params i1) <> indicator_id (Classes.name i2) (Classes.params i2) ->
  reg_equiv (snd (register_indicator i2 (snd (register_indicator i1 r))))
            (snd (register_indicator i1 (snd (register_indicator i2 r)))) /\
  forall name params,
    fst (get_indicator name params (snd (register_indicator i2 (snd (register_indicator i1 r))))) =
    fst (get_indicator name params (snd (register_indicator i1 (snd (register_indicator i2 r))))).
Proof.
  intros Hne. assert (Heq : reg_equiv (snd (register_indicator i2 (snd (register_indicator i1 r))))
                                      (snd (register_indicator i1 (snd (register_indicator i2 r))))).
  { unfold reg_equiv. rewrite !abs_register. unfold spec_register.
    destruct (abs r !! indicator_id (Classes.name i1) (Classes.params i1)) eqn:E1,
             (abs r !! indicator_id (Classes.name i2) (Classes.params i2)) eqn:E2; simpl;
      rewrite ?lookup_insert_ne, ?E1, ?E2 by congruence; simpl; try reflexivity.
    now apply insert_insert_ne. }
  split; [exact Heq |]. intros name params. now apply get_proper.
Qed.

End Copilot.

(** ** Witnesses *)

(** A hash of the items that ignores their order. *)
Definition len_hash (l : list (string * Classes.pval)) : Z := Z.of_nat (length l).

Lemma len_hash_perm a b : Permutation a b -> len_hash a = len_hash b.
Proof. intros H. unfold len_hash. now rewrite (Permutation_length H). Qed.

Definition sample_registry : registry :=
  snd (register_indicator len_hash (Classes.RSI 2) (snd (register_indicator len_hash (Classes.SMA 2) []))).

Lemma register_get_roundtrip_witness :
  fst (register_indicator len_hash (Classes.SMA 20) []) = Ok true /\
  get_indicator len_hash "SMA" (Some [("period", Classes.PVInt 20)])
    (snd (register_indicator len_hash (Classes.SMA 20) [])) =
  (Ok (Classes.SMA 20), snd (register_indicator len_hash (Classes.SMA 20) [])).
Proof.
  assert (H : fst (register_indicator len_hash (Classes.SMA 20) []) = Ok true) by reflexivity.
  split; [exact H |].
  exact (register_get_roundtrip len_hash len_hash_perm (Classes.SMA 20) [] _ H (Permutation_refl _)).
Defined.

Lemma register_same_id_rejected_witness :
  register_indicator len_hash (Classes.SMA 20) (snd (register_indicator len_hash (Classes.SMA 20) [])) =
  (Ok false, snd (register_indicator len_hash (Classes.SMA 20) [])).
Proof. apply register_same_id_rejected. reflexivity. Defined.

Lemma calculate_all_order_witness :
  exists res, calculate_all Indicators.sample_bars sample_registry = (Ok res, sample_registry) /\
              map fst res = map fst sample_registry /\ sample_registry = sample_registry.
Proof.
  eexists. assert (H : calculate_all Indicators.sample_bars sample_registry = (Ok _, sample_registry))
    by reflexivity.
  split; [exact H | exact (calculate_all_order _ _ _ _ H)].
Defined.

Lemma register_commute_witness :
  reg_equiv
    (snd (register_indicator len_hash (Classes.EMA 20) (snd (register_indicator len_hash (Classes.SMA 20) []))))
    (snd (register_indicator len_hash (Classes.SMA 20) (snd (register_indicator len_hash (Classes.EMA 20) [])))).
Proof. apply (register_commute len_hash (Classes.SMA 20) (Classes.EMA 20) []). discriminate. Defined.

End Copilot.
