(* ===== verification/Aggregator.v ===== *)
(** * SignalAggregator and the aggregated-signals endpoint

    [SignalAggregator] of [src/FuturesQuant/tournament/signal/SignalAggregator.py]
    owns one indicator registry. [aggregate_signals] walks the submitted
    signals in order and, for each, reads [signal["indicator"]] and
    [signal["data"]], calls the registry, then reads [signal["agent"]] and
    [signal["action"]]; the first exception leaves the loop, so the
    registry keeps every mutation made by the earlier calls.
    [summarize_signals] tallies the [action] of each entry, a missing
    action counting as ["HOLD"].

    The aggregator is written against the class [Registry] of
    [Registry.v], so its theorems hold for every registry that keeps the
    state on an unknown name; the core registry is one instance. The
    endpoint [get_aggregated_signals] of
    [src/FuturesQuant/Dashboard/api/indicators.py] composes the two
    operations. *)

From Stdlib Require Import String QArith ZArith List Bool Arith Lia.
From S2P Require Import Prelude Series CrossCorrelation Registry.
Import ListNotations.
Local Open Scope nat_scope.

(** [signal[key]] for a key that may be missing. *)
Definition getkey {A} (o : option A) : result A :=
  match o with Some x => Ok x | None => Err KeyError end.

(** The summary dict [{"BUY": .., "SELL": .., "HOLD": ..}]. *)
Record summary : Type := mk_summary { buy : nat; sell : nat; hold : nat }.

Definition empty_summary : summary := mk_summary 0 0 0.

(** [if action in summary: summary[action] += 1]: [in] hashes the
    action, which raises [TypeError] for a list or a dict. *)
Definition tally (s : summary) (a : jval) : result summary :=
  if negb (hashable a) then Err TypeError
  else match a with
       | JStr x =>
           if String.eqb x "BUY" then Ok (mk_summary (S (buy s)) (sell s) (hold s))
           else if String.eqb x "SELL" then Ok (mk_summary (buy s) (S (sell s)) (hold s))
           else if String.eqb x "HOLD" then Ok (mk_summary (buy s) (sell s) (S (hold s)))
           else Ok s
       | _ => Ok s
       end.

Section Summary.

Context {E : Type} (action_of : E -> option jval).

(** [signal.get("action", "HOLD")]. *)
Definition action_label (e : E) : jval :=
  match action_of e with Some a => a | None => JStr "HOLD" end.

(** [summarize_signals(aggregated_signals)] (lines 32-47). *)
Definition summarize_signals (entries : list E) : result summary :=
  fold_left (fun acc e => rbind acc (fun s => tally s (action_label e))) entries (Ok empty_summary).

(** 1 when [a] is the string [lbl]. *)
Definition is_label (lbl : string) (a : jval) : nat :=
  match a with JStr x => if String.eqb x lbl then 1 else 0 | _ => 0 end.

(** The number of entries whose action is the string [lbl]. *)
Definition count_label (lbl : string) (entries : list E) : nat :=
  length (filter (fun e => match action_label e with JStr x => String.eqb x lbl | _ => false end) entries).

End Summary.

Section Aggregator.

Context {M D Out : Type} `{Registry M D Out}.

(** A submitted signal: the four keys the code reads, each possibly
    missing from the dict. *)
Record agent_signal : Type := mk_signal {
  s_agent : option jval;
  s_action : option jval;
  s_indicator : option jval;
  s_data : option D
}.

(** An entry of the returned list. *)
Record aggregated : Type := mk_aggregated {
  agg_agent : jval;
  agg_action : jval;
  agg_indicator_signal : Out
}.

(** One iteration of the loop of [aggregate_signals] (lines 18-28), in
    Python's evaluation order. *)
Definition aggregate_one (sg : agent_signal) : PyM M aggregated :=
  (ind <- lift (getkey (s_indicator sg)) ;;
   d <- lift (getkey (s_data sg)) ;;
   indicator_signal <- reg_calculate ind d ;;
   a <- lift (getkey (s_agent sg)) ;;
   act <- lift (getkey (s_action sg)) ;;
   ret (mk_aggregated a act indicator_signal))%py.

(** [aggregate_signals(agent_signals)] (lines 7-30). *)
Definition aggregate_signals (sigs : list agent_signal) : PyM M (list aggregated) :=
  mmap aggregate_one sigs.

(** [get_aggregated_signals()] (api/indicators.py, lines 9-37):
    [request_data.get("agent_signals", [])], then both operations. *)
Definition get_aggregated_signals (agent_signals : option (list agent_signal))
  : PyM M (list aggregated * summary) :=
  (aggregated_signals <- aggregate_signals (match agent_signals with Some l => l | None => [] end) ;;
   sentiment_summary <- lift (summarize_signals (fun a => Some (agg_action a)) aggregated_signals) ;;
   ret (aggregated_signals, sentiment_summary))%py.

End Aggregator.

Arguments agent_signal : clear implicits.
Arguments aggregated : clear implicits.

(** ** Samples: the core registry with trivial external indicators *)

Definition unit_calc : frame -> PyM unit unit := fun _ => ret tt.
Definition core_reg := CoreManager.core_registry unit_calc unit_calc unit_calc.
Definition init_core : CoreManager.manager := CoreManager.init_manager tt tt tt.

(** 21 rows of two proportional price ramps: enough for the default
    lookback of 20. *)
Definition ramp (k : Z) : series :=
  map (fun i => Fin (inject_Z (k * (Z.of_nat i + 10)))) (seq 0 21).
Definition sample_pair : frame := [("asset1", ramp 1); ("asset2", ramp 2)]%string.

Definition sig_ccp : agent_signal frame :=
  mk_signal (Some (JStr "CathyWoodAgent")) (Some (JStr "BUY"))
            (Some (JStr "CrossCorrelationPair")) (Some sample_pair).
Definition sig_unknown : agent_signal frame :=
  mk_signal (Some (JStr "WarrenBuffetAgent")) (Some (JStr "SELL"))
            (Some (JStr "Foo")) (Some sample_pair).

(** The summary example of the spec: 3 BUY, 2 SELL, 1 HOLD, 1 WAIT. *)
Definition sample_actions : list (option jval) :=
  map (fun x => Some (JStr x)) ["BUY"; "BUY"; "BUY"; "SELL"; "SELL"; "HOLD"; "WAIT"]%string.

(** ** Lemmas *)

Lemma tally_hashable s a :
  hashable a = true ->
  tally s a = Ok (mk_summary (buy s + is_label "BUY" a) (sell s + is_label "SELL" a)
                             (hold s + is_label "HOLD" a)).
Proof.
  intros Ha. unfold tally. rewrite Ha. simpl.
  destruct a as [x| | | | |]; try discriminate; simpl; [| destruct s; simpl; f_equal; f_equal; lia ..].
  destruct (String.eqb_spec x "BUY") as [-> | H1]; [destruct s; simpl; f_equal; f_equal; lia |].
  destruct (String.eqb_spec x "SELL") as [-> | H2]; [destruct s; simpl; f_equal; f_equal; lia |].
  destruct (String.eqb_spec x "HOLD") as [-> | H3]; destruct s; simpl; f_equal; f_equal; lia.
Qed.

Section SummaryFacts.

Context {E : Type} (action_of : E -> option jval).

Lemma count_label_cons lbl e l :
  count_label action_of lbl (e :: l) = is_label lbl (action_label action_of e) + count_label action_of lbl l.
Proof.
  unfold count_label, is_label. simpl.
  destruct (action_label action_of e) as [x| | | | |]; simpl; try reflexivity.
  now destruct (String.eqb x lbl).
Qed.

Lemma summarize_fold entries s :
  forallb (fun e => hashable (action_label action_of e)) entries = true ->
  fold_left (fun acc e => rbind acc (fun s => tally s (action_label action_of e))) entries (Ok s) =
  Ok (mk_summary (buy s + count_label action_of "BUY" entries)
                 (sell s + count_label action_of "SELL" entries)
                 (hold s + count_label action_of "HOLD" entries)).
Proof.
  revert s. induction entries as [|e l IH]; intros s Hh; simpl.
  - destruct s; simpl. unfold count_label. simpl. f_equal. f_equal; lia.
  - apply andb_true_iff in Hh as [He Hl]. rewrite tally_hashable by exact He. simpl.
    rewrite IH by exact Hl. simpl. rewrite !count_label_cons. f_equal. f_equal; lia.
Qed.

Lemma fold_tally_err entries e :
  fold_left (fun acc x => rbind acc (fun s => tally s (action_label action_of x))) entries (Err e) = Err e.
Proof. induction entries as [|x l IH]; simpl; auto. Qed.

Lemma summarize_unhashable_fold entries s :
  Exists (fun e => hashable (action_label action_of e) = false) entries ->
  fold_left (fun acc e => rbind acc (fun s => tally s (action_label action_of e))) entries (Ok s) =
  Err TypeError.
Proof.
  revert s. induction entries as [|e l IH]; intros s Hex; [inversion Hex |]. simpl.
  destruct (hashable (action_label action_of e)) eqn:He.
  - rewrite tally_hashable by exact He. simpl. apply IH.
    inversion Hex; [congruence | assumption].
  - unfold tally at 2. rewrite He. simpl. apply fold_tally_err.
Qed.

Lemma summarize_ok_hashable entries s :
  summarize_signals action_of entries = Ok s ->
  forallb (fun e => hashable (action_label action_of e)) entries = true.
Proof.
  intros Hs. destruct (forallb _ entries) eqn:Hf; [reflexivity |]. exfalso.
  apply forallb_false_Exists in Hf. unfold summarize_signals in Hs.
  rewrite summarize_unhashable_fold in Hs; [discriminate | exact Hf].
Qed.

(** C10. When every action is hashable, [summarize_signals] counts the
    entries whose action is the string ["BUY"], ["SELL"] or ["HOLD"],
    an entry without an action counting as ["HOLD"]; any other action is
    left out of every bucket. *)
Theorem summarize_counts entries :
  forallb (fun e => hashable (action_label action_of e)) entries = true ->
  summarize_signals action_of entries =
  Ok (mk_summary (count_label action_of "BUY" entries) (count_label action_of "SELL" entries)
                 (count_label action_of "HOLD" entries)).
Proof. intros Hh. unfold summarize_signals. now rewrite summarize_fold. Qed.

(** An action that is a JSON list or object makes
    [summarize_signals] raise [TypeError] (the [in] test hashes it), even
    after valid entries. *)
Theorem summarize_unhashable entries :
  Exists (fun e => hashable (action_label action_of e) = false) entries ->
  summarize_signals action_of entries = Err TypeError.
Proof. intros Hex. unfold summarize_signals. now apply summarize_unhashable_fold. Qed.

End SummaryFacts.

Lemma count_label_Forall2 {E1 E2} (f1 : E1 -> option jval) (f2 : E2 -> option jval) lbl l1 l2 :
  Forall2 (fun x y => f1 x = f2 y) l1 l2 -> count_label f1 lbl l1 = count_label f2 lbl l2.
Proof.
  induction 1 as [|x y l1 l2 Hxy _ IH]; [reflexivity |].
  rewrite !count_label_cons, IH. unfold action_label. now rewrite Hxy.
Qed.

Section AggregatorFacts.

Context {M D Out : Type} `{Registry M D Out}.

Lemma aggregate_one_fields sg st o st' :
  aggregate_one sg st = (Ok o, st') ->
  s_agent sg = Some (agg_agent o) /\ s_action sg = Some (agg_action o).
Proof.
  unfold aggregate_one, bind, lift, ret.
  destruct (s_indicator sg); simpl; [| discriminate]. destruct (s_data sg); simpl; [| discriminate].
  destruct (reg_calculate _ _ st) as [[r|e] st1]; [| discriminate].
  destruct (s_agent sg); simpl; [| discriminate]. destruct (s_action sg); simpl; [| discriminate].
  intros Hr. inversion Hr. auto.
Qed.

(** ** Properties *)

(** C9. [aggregate_signals] stops at the first signal naming an
    indicator the registry does not know: the call raises the lookup
    error ([ValueError] for a string name), no list is returned, and the
    registry is left in the state the earlier signals produced; it is not
    rolled back. *)
Theorem aggregate_fail_fast pre bad post st outs st1 n d :
  aggregate_signals pre st = (Ok outs, st1) ->
  s_indicator bad = Some n -> s_data bad = Some d -> reg_known n = false ->
  aggregate_signals (pre ++ bad :: post) st = (Err (lookup_error n), st1).
Proof.
  intros Hpre Hi Hd Hk. unfold aggregate_signals in *. rewrite mmap_app, Hpre, mmap_cons.
  unfold aggregate_one, bind, lift. rewrite Hi, Hd. simpl. now rewrite reg_unknown.
Qed.

(** C11. A successful [aggregate_signals] returns one entry per signal,
    in input order, each carrying its signal's agent and action. *)
Theorem aggregate_order sigs st outs st' :
  aggregate_signals sigs st = (Ok outs, st') ->
  Forall2 (fun sg o => s_agent sg = Some (agg_agent o) /\ s_action sg = Some (agg_action o)) sigs outs.
Proof. apply mmap_Forall2. intros sg s0 o s1. apply aggregate_one_fields. Qed.

(** When the endpoint answers, its sentiment summary counts the
    actions of the submitted signals: BUY, SELL and HOLD strings. *)
Theorem endpoint_summary sigs st agg summ st' :
  get_aggregated_signals (Some sigs) st = (Ok (agg, summ), st') ->
  summ = mk_summary (count_label s_action "BUY" sigs) (count_label s_action "SELL" sigs)
                    (count_label s_action "HOLD" sigs).
Proof.
  unfold get_aggregated_signals, bind, lift, ret.
  destruct (aggregate_signals sigs st) as [[outs|e] st1] eqn:Ea; [| discriminate].
  destruct (summarize_signals _ outs) as [s|e] eqn:Es; [| discriminate].
  intros Hr. inversion Hr; subst.
  rewrite (summarize_counts _ _ (summarize_ok_hashable _ _ _ Es)) in Es. inversion Es.
  assert (HF : Forall2 (fun x y => s_action x = (fun a => Some (agg_action a)) y) sigs agg).
  { eapply Forall2_impl; [| exact (aggregate_order _ _ _ _ Ea)]. intros x y [_ Hy]. exact Hy. }
  now rewrite !(count_label_Forall2 _ _ _ _ _ HF).
Qed.

End AggregatorFacts.


(** ** Witnesses *)

Lemma aggregate_fail_fast_witness :
  exists outs st1,
    @aggregate_signals _ _ _ core_reg [sig_ccp] init_core = (Ok outs, st1) /\
    @aggregate_signals _ _ _ core_reg ([sig_ccp] ++ [sig_unknown]) init_core =
      (Err (lookup_error (JStr "Foo")), st1) /\
    length (CCP.historical_spread (CoreManager.ccp st1)) = 1.
Proof.
  destruct (run_ok (@aggregate_signals _ _ _ core_reg [sig_ccp]) init_core) as (outs & st1 & H1);
    [vm_compute; reflexivity |].
  exists outs, st1. split; [exact H1 |]. split.
  - exact (aggregate_fail_fast [sig_ccp] sig_unknown [] init_core _ _ (JStr "Foo") sample_pair
             H1 eq_refl eq_refl eq_refl).
  - assert (Hs : st1 = snd (@aggregate_signals _ _ _ core_reg [sig_ccp] init_core)) by now rewrite H1.
    rewrite Hs. vm_compute. reflexivity.
Defined.

Lemma aggregate_order_witness :
  exists outs st',
    @aggregate_signals _ _ _ core_reg [sig_ccp] init_core = (Ok outs, st') /\
    Forall2 (fun sg o => s_agent sg = Some (agg_agent o) /\ s_action sg = Some (agg_action o)) [sig_ccp] outs.
Proof.
  destruct (run_ok (@aggregate_signals _ _ _ core_reg [sig_ccp]) init_core) as (outs & st1 & H1);
    [vm_compute; reflexivity |].
  exists outs, st1. split; [exact H1 | exact (aggregate_order _ _ _ _ H1)].
Defined.

Lemma summarize_counts_witness :
  summarize_signals (fun x => x) sample_actions = Ok (mk_summary 3 2 1).
Proof. rewrite summarize_counts by (vm_compute; reflexivity). vm_compute. reflexivity. Defined.

Lemma summarize_unhashable_witness :
  summarize_signals (fun x => x) [Some (JStr "BUY"); Some (JArr [])] = Err TypeError.
Proof. apply summarize_unhashable. right. left. reflexivity. Defined.

Lemma endpoint_summary_witness :
  exists agg summ st',
    @get_aggregated_signals _ _ _ core_reg (Some [sig_ccp]) init_core = (Ok (agg, summ), st') /\
    summ = mk_summary 1 0 0.
Proof.
  destruct (run_ok (@get_aggregated_signals _ _ _ core_reg (Some [sig_ccp])) init_core)
    as ([agg summ] & st1 & H1); [vm_compute; reflexivity |].
  exists agg, summ, st1. split; [exact H1 |].
  rewrite (endpoint_summary _ _ _ _ _ H1). vm_compute. reflexivity.
Defined.

