(* ===== verification/MovingAverages.v ===== *)
(** * Plain-list moving averages

    [src/strategies/indicators/moving_averages.py]: SMA, EMA and WMA over a
    Python list of floats, returning a list of the same length whose first
    [period - 1] entries are [None]. Each function first raises
    [ValueError] for a non-positive period or a list shorter than the
    period. [exponential_moving_average] fills a list by index; it is
    modelled as that loop over a list updated in place, and proved equal
    to a plain recursion. *)

From Stdlib Require Import String QArith ZArith List Arith Lia Bool.
From S2P Require Import Prelude Series.
Import ListNotations.
Open Scope fl_scope.
Local Open Scope nat_scope.

Module MA.

(** The two guards shared by the three functions. *)
Definition check_args (data : list fl) (period : Z) : result nat :=
  if Z.leb period 0 then Err ValueError
  else if Z.ltb (Z.of_nat (length data)) period then Err ValueError
  else Ok (Z.to_nat period).

(** [simple_moving_average(data, period)] (lines 3-17). Python's
    [i - period + 1] is written [i + 1 - p] so that the natural-number
    subtraction does not truncate at [i = p - 1]. *)
Definition simple_moving_average (data : list fl) (period : Z) : result (list (option fl)) :=
  (p <-? check_args data period ;;
   Ok (map (fun i => if Nat.ltb i (p - 1) then None
                     else Some (fsum (py_slice (i + 1 - p) (i + 1) data) ⊘ fof_nat p))
           (seq 0 (length data))))%py.

(** [xs[i] = v] on a list with an element at [i]. *)
Fixpoint list_set {A} (i : nat) (v : A) (xs : list A) : list A :=
  match xs, i with
  | [], _ => []
  | _ :: xs', 0 => v :: xs'
  | x :: xs', S i' => x :: list_set i' v xs'
  end.

(** One iteration of the loop of lines 32-33: reads [ema[i - 1]], which
    must already hold a float. *)
Definition ema_update (data : list fl) (multiplier : fl) (ema : list (option fl)) (i : nat)
  : result (list (option fl)) :=
  match nth_error ema (i - 1), nth_error data i with
  | Some (Some prev), Some x => Ok (list_set i (Some (((x ⊖ prev) ⊗ multiplier) ⊕ prev)) ema)
  | Some None, Some _ => Err TypeError
  | _, _ => Err IndexError
  end.

(** [exponential_moving_average(data, period)] (lines 19-35). *)
Definition exponential_moving_average (data : list fl) (period : Z) : result (list (option fl)) :=
  (p <-? check_args data period ;;
   let ema := repeat None (length data) in
   let sma_initial := fsum (firstn p data) ⊘ fof_nat p in
   let ema := list_set (p - 1) (Some sma_initial) ema in
   let multiplier := Fin 2 ⊘ fof_nat (p + 1) in
   fold_left (fun acc i => rbind acc (fun ema => ema_update data multiplier ema i))
             (seq p (length data - p)) (Ok ema))%py.

(** [weighted_moving_average(data, period)] (lines 37-51): the weight of
    [data[i - j]] is [weights[j] = j + 1], so the newest value of the
    window gets weight 1 and the oldest gets [period]. *)
Definition weighted_moving_average (data : list fl) (period : Z) : result (list (option fl)) :=
  (p <-? check_args data period ;;
   Ok (map (fun i => if Nat.ltb i (p - 1) then None
                     else let weights := seq 1 p in
                          let weighted_sum :=
                            fsum (map (fun j => nth (i - j) data NaN ⊗ fof_nat (nth j weights 0%nat))
                                      (seq 0 p)) in
                          Some (weighted_sum ⊘ fof_nat (list_sum weights)))
           (seq 0 (length data))))%py.

(** The EMA recursion written directly: each value from the previous. *)
Fixpoint ema_rec (multiplier prev : fl) (xs : list fl) : list (option fl) :=
  match xs with
  | [] => []
  | x :: xs' =>
      let e := ((x ⊖ prev) ⊗ multiplier) ⊕ prev in Some e :: ema_rec multiplier e xs'
  end.

(** Sample prices for the witnesses. *)
Definition ints (zs : list Z) : list fl := map (fun z => Fin (inject_Z z)) zs.
Definition sample_prices : list fl := ints [3; 1; 4; 1; 5; 9; 2; 6]%Z.

End MA.

(** ** Lemmas *)

Section Lemmas.
Import MA.

Lemma check_args_ok data period :
  (0 < period)%Z -> (period <= Z.of_nat (length data))%Z -> check_args data period = Ok (Z.to_nat period).
Proof.
  intros H1 H2. unfold check_args.
  replace (Z.leb period 0) with false by (symmetry; apply Z.leb_gt; lia).
  replace (Z.ltb (Z.of_nat (length data)) period) with false by (symmetry; apply Z.ltb_ge; lia).
  reflexivity.
Qed.

Lemma check_args_err data period :
  (period <= 0 \/ Z.of_nat (length data) < period)%Z -> check_args data period = Err ValueError.
Proof.
  intros H. unfold check_args. destruct (Z.leb_spec period 0); [reflexivity |].
  destruct (Z.ltb_spec (Z.of_nat (length data)) period); [reflexivity | lia].
Qed.

Lemma fold_left_fadd_NaN l : fold_left fadd l NaN = NaN.
Proof. induction l as [|x l IH]; [reflexivity |]. simpl. exact IH. Qed.

Lemma fold_left_fadd_has_nan l a : existsb is_nan l = true -> fold_left fadd l a = NaN.
Proof.
  revert a. induction l as [|x l IH]; intros a H; [discriminate |]. simpl in *.
  apply orb_true_iff in H as [Hx | Hl].
  - destruct x; try discriminate. rewrite fadd_comm. simpl. apply fold_left_fadd_NaN.
  - now apply IH.
Qed.

Lemma fsum_has_nan l : existsb is_nan l = true -> fsum l = NaN.
Proof. apply fold_left_fadd_has_nan. Qed.

Lemma py_slice_window p data i :
  (p - 1 <= i)%nat -> py_slice (i + 1 - p) (i + 1) data = window_at p data i.
Proof.
  intros H. unfold py_slice, window_at. f_equal; [lia | f_equal; lia].
Qed.

Lemma length_window_at_full p data i :
  (p - 1 <= i)%nat -> (i < length data)%nat -> length (window_at p data i) = p.
Proof. intros H1 H2. unfold window_at. rewrite length_firstn, length_skipn. lia. Qed.

Lemma nth_map_seq {A} (f : nat -> A) n i d : (i < n)%nat -> nth i (map f (seq 0 n)) d = f i.
Proof.
  intros H. rewrite nth_indep with (d' := f 0%nat) by (rewrite length_map, length_seq; lia).
  rewrite map_nth, seq_nth by lia. reflexivity.
Qed.

Lemma fsum_fold_right l : fsum l = fold_right fadd (Fin 0) l.
Proof. apply fold_symmetric; [apply fadd_assoc | intros y; apply fadd_comm]. Qed.

Lemma list_sum_seq1 p : list_sum (seq 1 p) = Nat.div (p * S p) 2.
Proof.
  assert (H : 2 * list_sum (seq 1 p) = p * S p).
  { induction p as [|p IH]; [reflexivity |].
    rewrite seq_S, list_sum_app. simpl. rewrite Nat.add_0_r. nia. }
  rewrite <- H, Nat.mul_comm, Nat.div_mul by discriminate. reflexivity.
Qed.

Lemma weighted_sum_spec k xs :
  weighted_sum k xs =
  fold_right fadd (Fin 0) (map (fun j => fof_nat (k + j) ⊗ nth j xs NaN) (seq 0 (length xs))).
Proof.
  revert k. induction xs as [|x xs IH]; intros k; [reflexivity |].
  cbn [weighted_sum length seq map fold_right]. rewrite IH, Nat.add_0_r, <- seq_shift, map_map.
  do 2 f_equal. apply map_ext. intros j. now rewrite Nat.add_succ_r.
Qed.

(** The WMA of the list code at a full window is the pandas weighted
    window applied to the window read newest first. *)
Lemma wma_window_reversed data p i :
  (p - 1 <= i)%nat -> (i < length data)%nat ->
  fsum (map (fun j => nth (i - j) data NaN ⊗ fof_nat (nth j (seq 1 p) 0%nat)) (seq 0 p)) =
  weighted_sum 1 (rev (window_at p data i)).
Proof.
  intros H1 H2. rewrite fsum_fold_right, weighted_sum_spec, length_rev, length_window_at_full by lia.
  f_equal. apply map_ext_in. intros j Hj. apply in_seq in Hj.
  rewrite seq_nth by lia. rewrite fmul_comm. f_equal.
  rewrite rev_nth by (rewrite length_window_at_full; lia). rewrite length_window_at_full by lia.
  unfold window_at. rewrite nth_firstn. replace (Nat.ltb (p - S j) p) with true by (symmetry; apply Nat.ltb_lt; lia).
  rewrite nth_skipn. f_equal. lia.
Qed.

Lemma list_set_app {A} (pre : list A) a v l : MA.list_set (length pre) v (pre ++ a :: l) = pre ++ v :: l.
Proof. induction pre as [|x pre IH]; simpl; [reflexivity | now rewrite IH]. Qed.

Lemma list_set_at {A} (pre : list A) a v l n :
  n = length pre -> MA.list_set n v (pre ++ a :: l) = pre ++ v :: l.
Proof. intros ->. apply list_set_app. Qed.

Lemma skipn_nth_error {A} (l : list A) k x : nth_error l k = Some x -> skipn k l = x :: skipn (S k) l.
Proof.
  revert k. induction l as [|y l IH]; intros [|k] H; simpl in *; try discriminate.
  - now inversion H.
  - now apply IH.
Qed.

Lemma nth_error_app_mid {A} (pre : list A) a l : nth_error (pre ++ a :: l) (length pre) = Some a.
Proof. rewrite nth_error_app2, Nat.sub_diag by lia. reflexivity. Qed.

(** The loop of lines 32-33 from index [k] on, [m] iterations, with the
    entries before [k] filled and the others still [None]. *)
Lemma ema_fold data mult m k pre e :
  length pre = k - 1 -> (1 <= k)%nat -> (k + m <= length data)%nat ->
  fold_left (fun acc i => rbind acc (fun ema => MA.ema_update data mult ema i)) (seq k m)
            (Ok (pre ++ Some e :: repeat None m)) =
  Ok (pre ++ Some e :: MA.ema_rec mult e (firstn m (skipn k data))).
Proof.
  revert k pre e. induction m as [|m IH]; intros k pre e Hl Hk Hm; [reflexivity |].
  destruct (nth_error data k) as [x|] eqn:Ex;
    [| apply nth_error_None in Ex; lia].
  cbn [seq fold_left repeat]. unfold rbind at 2. unfold MA.ema_update.
  replace (k - 1) with (length pre) by lia. rewrite nth_error_app_mid, Ex.
  replace (pre ++ Some e :: None :: repeat None m) with ((pre ++ [Some e]) ++ None :: repeat None m)
    by (now rewrite <- app_assoc).
  rewrite (list_set_at (pre ++ [Some e])) by (rewrite length_app; simpl; lia).
  rewrite IH by (rewrite ?length_app; simpl; lia).
  rewrite (skipn_nth_error data k x Ex). rewrite <- app_assoc. reflexivity.
Qed.

Lemma list_set_repeat {A} (v x : A) p n :
  (1 <= p <= n)%nat -> MA.list_set (p - 1) v (repeat x n) = repeat x (p - 1) ++ v :: repeat x (n - p).
Proof.
  intros H. replace (repeat x n) with (repeat x (p - 1) ++ x :: repeat x (n - p)).
  - rewrite <- (repeat_length x (p - 1)) at 1. apply list_set_app.
  - change (x :: repeat x (n - p)) with (repeat x (S (n - p))). rewrite <- repeat_app. f_equal. lia.
Qed.

End Lemmas.

(** ** Properties *)

(** Each of the three functions raises [ValueError] when the period
    is not positive or the list is shorter than the period, whatever the
    data. *)
Theorem moving_average_guards data period :
  (period <= 0 \/ Z.of_nat (length data) < period)%Z ->
  MA.simple_moving_average data period = Err ValueError /\
  MA.exponential_moving_average data period = Err ValueError /\
  MA.weighted_moving_average data period = Err ValueError.
Proof.
  intros H. unfold MA.simple_moving_average, MA.exponential_moving_average, MA.weighted_moving_average.
  rewrite (check_args_err data period H). repeat split.
Qed.

(** C35. For a valid period the list SMA is pandas' rolling mean with
    the warm-up values replaced by [None]: entry [i] is [None] for
    [i < period - 1] and otherwise the mean of the window ending at [i]
    (NaN when the window holds a NaN). *)
Theorem sma_rolling_mean data period :
  (0 < period)%Z -> (period <= Z.of_nat (length data))%Z ->
  MA.simple_moving_average data period =
  Ok (map (fun i => if Nat.ltb i (Z.to_nat period - 1) then None
                    else Some (nth i (rolling_mean (Z.to_nat period) data) NaN))
          (seq 0 (length data))).
Proof.
  intros H1 H2. unfold MA.simple_moving_average. rewrite check_args_ok by assumption. simpl rbind.
  f_equal. apply map_ext_in. intros i Hi. apply in_seq in Hi.
  set (p := Z.to_nat period). destruct (Nat.ltb_spec i (p - 1)) as [Hlt | Hge]; [reflexivity |].
  unfold rolling_mean, rolling. rewrite nth_map_seq by lia.
  replace (Nat.ltb (S i) p) with false by (symmetry; apply Nat.ltb_ge; lia).
  rewrite py_slice_window by lia. f_equal.
  destruct (existsb is_nan (window_at p data i)) eqn:En.
  - now rewrite fsum_has_nan.
  - unfold fmean. now rewrite length_window_at_full by lia.
Qed.

(** C16. The list WMA at a full window is pandas' weighted window of the
    window read newest first: the newest price gets weight 1 and the
    oldest weight [period], the reverse of the rolling WMA of the MLMI
    indicator ([Series.wma_window] on the window oldest first). *)
Theorem wma_newest_weight_one data period :
  (0 < period)%Z -> (period <= Z.of_nat (length data))%Z ->
  MA.weighted_moving_average data period =
  Ok (map (fun i => if Nat.ltb i (Z.to_nat period - 1) then None
                    else Some (wma_window (Z.to_nat period) (rev (window_at (Z.to_nat period) data i))))
          (seq 0 (length data))).
Proof.
  intros H1 H2. unfold MA.weighted_moving_average. rewrite check_args_ok by assumption. simpl rbind.
  f_equal. apply map_ext_in. intros i Hi. apply in_seq in Hi.
  destruct (Nat.ltb_spec i (Z.to_nat period - 1)); [reflexivity |].
  unfold wma_window. rewrite wma_window_reversed, list_sum_seq1 by lia. reflexivity.
Qed.

(** C36. The index-filling loop of [exponential_moving_average] computes
    the EMA recursion: [period - 1] [None]s, the SMA of the first
    [period] prices, then [e' = (x - e) * 2/(period + 1) + e] for each
    later price; the result has one entry per price. *)
Theorem ema_loop_rec data period :
  (0 < period)%Z -> (period <= Z.of_nat (length data))%Z ->
  MA.exponential_moving_average data period =
  Ok (repeat None (Z.to_nat period - 1) ++
      Some (fsum (firstn (Z.to_nat period) data) ⊘ fof_nat (Z.to_nat period)) ::
      MA.ema_rec (Fin 2 ⊘ fof_nat (Z.to_nat period + 1))
                 (fsum (firstn (Z.to_nat period) data) ⊘ fof_nat (Z.to_nat period))
                 (skipn (Z.to_nat period) data)).
Proof.
  intros H1 H2. unfold MA.exponential_moving_average. rewrite check_args_ok by assumption. cbn [rbind].
  set (p := Z.to_nat period). assert (Hp : (1 <= p <= length data)%nat) by lia.
  rewrite list_set_repeat by exact Hp.
  rewrite ema_fold by (rewrite ?repeat_length; lia).
  rewrite (firstn_all2 (n := length data - p) (skipn p data)) by (rewrite length_skipn; lia).
  reflexivity.
Qed.

(** ** Witnesses *)

Lemma moving_average_guards_witness :
  MA.simple_moving_average MA.sample_prices 0 = Err ValueError /\
  MA.exponential_moving_average MA.sample_prices 0 = Err ValueError /\
  MA.weighted_moving_average MA.sample_prices 0 = Err ValueError.
Proof. apply moving_average_guards. left. apply Z.le_refl. Defined.

Lemma sma_rolling_mean_witness :
  MA.simple_moving_average MA.sample_prices 3 =
  Ok (map (fun i => if Nat.ltb i (Z.to_nat 3 - 1) then None
                    else Some (nth i (rolling_mean (Z.to_nat 3) MA.sample_prices) NaN))
          (seq 0 (length MA.sample_prices))).
Proof. apply sma_rolling_mean; [apply Z.ltb_lt | apply Z.leb_le]; reflexivity. Defined.

(** The list WMA gives 4/3 on [1; 2] where the rolling WMA of MLMI gives
    5/3. *)
Lemma wma_newest_weight_one_witness :
  MA.weighted_moving_average (MA.ints [1; 2]%Z) 2 =
  Ok (map (fun i => if Nat.ltb i (Z.to_nat 2 - 1) then None
                    else Some (wma_window (Z.to_nat 2) (rev (window_at (Z.to_nat 2) (MA.ints [1; 2]%Z) i))))
          (seq 0 (length (MA.ints [1; 2]%Z)))) /\
  MA.weighted_moving_average (MA.ints [1; 2]%Z) 2 = Ok [None; Some (Fin (4 # 3))] /\
  nth 1 (rolling 2 (wma_window 2) (MA.ints [1; 2]%Z)) NaN = Fin (5 # 3).
Proof.
  split; [apply wma_newest_weight_one; [apply Z.ltb_lt | apply Z.leb_le]; reflexivity |].
  split; vm_compute; reflexivity.
Defined.

Lemma ema_loop_rec_witness :
  MA.exponential_moving_average MA.sample_prices 3 =
  Ok (repeat None (Z.to_nat 3 - 1) ++
      Some (fsum (firstn (Z.to_nat 3) MA.sample_prices) ⊘ fof_nat (Z.to_nat 3)) ::
      MA.ema_rec (Fin 2 ⊘ fof_nat (Z.to_nat 3 + 1))
                 (fsum (firstn (Z.to_nat 3) MA.sample_prices) ⊘ fof_nat (Z.to_nat 3))
                 (skipn (Z.to_nat 3) MA.sample_prices)).
Proof. apply ema_loop_rec; [apply Z.ltb_lt | apply Z.leb_le]; reflexivity. Defined.
