(* ===== verification/Engine.v ===== *)
(** * TradingEngine

    [TradingEngine] of [src/FuturesQuant/core/engine.py]: a dict of
    strategies in insertion order, a [config] dict and an [is_running]
    flag. The strategies are opaque: [execute] is a section variable that
    acts on a world state [W] and may raise. [_execute_strategies] runs
    each strategy in dict order and swallows its exception, keeping what
    the strategy did before raising. [start] sets the flag and loops while
    it is set: process data (a no-op), execute the strategies, sleep for
    [config.get("refresh_interval", 1)]; an exception from the sleep is
    caught by [start], which calls [stop] and returns. The loop is a step
    relation on the engine and world, and [start] a fuel-bounded run of
    it; the run with unbounded fuel never returns when the sleep succeeds. *)

From Stdlib Require Import String QArith List Bool Arith Lia.
From S2P Require Import Prelude Registry.
Import ListNotations.
Local Open Scope nat_scope.

Module Engine.

Section Engine.

Context {Strat W : Type}.
Context (execute : Strat -> PyM W unit).

Record engine : Type := mk_engine {
  config : jval;
  strategies : list (string * Strat);
  is_running : bool
}.

(** [__init__(config)] (lines 16-26). *)
Definition init (cfg : jval) : engine := mk_engine cfg [] false.

(** [add_strategy(strategy_id, strategy)] (lines 28-37). *)
Definition add_strategy (strategy_id : string) (strategy : Strat) (e : engine) : engine :=
  mk_engine (config e) (dict_set String.eqb strategy_id strategy (strategies e)) (is_running e).

(** [remove_strategy(strategy_id)] (lines 39-48). *)
Definition remove_strategy (strategy_id : string) (e : engine) : engine :=
  match assoc String.eqb strategy_id (strategies e) with
  | Some _ => mk_engine (config e) (dict_del String.eqb strategy_id (strategies e)) (is_running e)
  | None => e
  end.

(** [stop()] (lines 64-67). *)
Definition stop (e : engine) : engine := mk_engine (config e) (strategies e) false.

(** [_process_data()] (lines 69-72): [pass]. *)
Definition process_data : PyM W unit := ret tt.

(** [_execute_strategies()] (lines 74-80): every exception of a strategy
    is caught and logged; the state it reached is kept. *)
Fixpoint execute_all (ss : list (string * Strat)) : PyM W unit :=
  match ss with
  | [] => ret tt
  | (_, s) :: ss' => fun w => execute_all ss' (snd (execute s w))
  end.

Definition execute_strategies (e : engine) : PyM W unit := execute_all (strategies e).

(** [time.sleep(x)]: a number of seconds, not negative. A [bool] is an
    [int] in Python. *)
Definition sleep (x : jval) : result unit :=
  match x with
  | JNum q => if Qle_bool 0 q then Ok tt else Err ValueError
  | JBool _ => Ok tt
  | _ => Err TypeError
  end.

(** [self.config.get("refresh_interval", 1)]: the config must be a
    dict. *)
Definition refresh_interval (e : engine) : result jval :=
  get_default (config e) "refresh_interval" (JNum 1).

(** [time.sleep(self.config.get("refresh_interval", 1))] (line 59). *)
Definition sleep_interval (e : engine) : result unit :=
  (v <-? refresh_interval e ;; sleep v)%py.

(** One pass of the [while] body of [start] (lines 56-62): an exception
    of the sleep is caught, [stop()] is called and the loop ends. *)
Definition iteration (s : engine * W) : engine * W :=
  let (e, w) := s in
  let w1 := snd (process_data w) in
  let w2 := snd (execute_strategies e w1) in
  match sleep_interval e with
  | Ok _ => (e, w2)
  | Err _ => (stop e, w2)
  end.

(** The loop as a step relation: a step is taken while [is_running]. *)
Definition loop_step (s s' : engine * W) : Prop :=
  is_running (fst s) = true /\ s' = iteration s.

(** The loop run for at most [fuel] passes: [None] while still running. *)
Fixpoint run (fuel : nat) (s : engine * W) : option (engine * W) :=
  match fuel with
  | 0 => if is_running (fst s) then None else Some s
  | S f => if is_running (fst s) then run f (iteration s) else Some s
  end.

(** [start()] (lines 50-62) with a bound on the number of passes. *)
Definition start (fuel : nat) (s : engine * W) : option (engine * W) :=
  run fuel (mk_engine (config (fst s)) (strategies (fst s)) true, snd s).

(** The keys of the strategy dict are distinct. *)
Definition engine_inv (e : engine) : Prop := NoDup (map fst (strategies e)).

End Engine.

(** Sample strategies for the witnesses: strategy [0] adds 100 to the
    world and raises, strategy [n > 0] adds [n]. *)
Definition sample_execute (n : nat) : PyM nat unit :=
  fun w => if Nat.eqb n 0 then (Err ValueError, w + 100) else (Ok tt, w + n).

Definition sample_engine (cfg : jval) : engine :=
  add_strategy "a" 1 (add_strategy "b" 0 (init cfg)).

End Engine.

(** ** Lemmas on the strategy dict *)

Section DictLemmas.

Context {V : Type}.

Lemma keys_dict_set k (v : V) d :
  map fst (dict_set String.eqb k v d) =
  if existsb (fun k' => String.eqb k' k) (map fst d) then map fst d else map fst d ++ [k].
Proof.
  induction d as [|[k' v'] d IH]; [reflexivity |]. simpl.
  destruct (String.eqb_spec k' k) as [-> | Hne]; simpl; [reflexivity |].
  rewrite IH. now destruct (existsb _ _).
Qed.

Lemma existsb_key_In k (ks : list string) : existsb (fun k' => String.eqb k' k) ks = true <-> In k ks.
Proof.
  rewrite existsb_exists. split.
  - intros (k' & Hin & E). apply String.eqb_eq in E. now subst.
  - intros H. exists k. split; [exact H | apply String.eqb_refl].
Qed.

Lemma dict_set_nodup k (v : V) d : NoDup (map fst d) -> NoDup (map fst (dict_set String.eqb k v d)).
Proof.
  intros H. rewrite keys_dict_set. destruct (existsb _ _) eqn:E; [exact H |].
  apply NoDup_app; [exact H | repeat constructor; auto |].
  intros x Hx [<- | []]. apply (proj2 (existsb_key_In k _)) in Hx. congruence.
Qed.

Lemma keys_dict_del k (d : list (string * V)) : incl (map fst (dict_del String.eqb k d)) (map fst d).
Proof.
  induction d as [|[k' v'] d IH]; simpl; [apply incl_refl |].
  destruct (String.eqb k' k); [apply incl_tl, incl_refl |].
  simpl. apply incl_cons; [now left | apply incl_tl, IH].
Qed.

Lemma dict_del_nodup k (d : list (string * V)) : NoDup (map fst d) -> NoDup (map fst (dict_del String.eqb k d)).
Proof.
  induction d as [|[k' v'] d IH]; intros H; simpl; [constructor |].
  inversion H as [|? ? Hni Hnd]; subst.
  destruct (String.eqb k' k); [exact Hnd |]. simpl. constructor; [| now apply IH].
  intros Hin. apply Hni. now apply (keys_dict_del k d).
Qed.

Lemma assoc_dict_set k k' (v : V) d :
  assoc String.eqb k' (dict_set String.eqb k v d) =
  if String.eqb k k' then Some v else assoc String.eqb k' d.
Proof.
  induction d as [|[j w] d IH]; simpl.
  - reflexivity.
  - destruct (String.eqb_spec j k) as [-> | Hne]; simpl; [now destruct (String.eqb k k') |].
    rewrite IH. destruct (String.eqb_spec k k') as [<- | Hne']; [| reflexivity].
    destruct (String.eqb_spec j k); [congruence | reflexivity].
Qed.

Lemma assoc_none_not_in k (d : list (string * V)) : ~ In k (map fst d) -> assoc String.eqb k d = None.
Proof.
  induction d as [|[j w] d IH]; intros H; simpl; [reflexivity |].
  destruct (String.eqb_spec j k) as [-> | Hne]; [exfalso; apply H; now left |].
  apply IH. intros Hin. apply H. now right.
Qed.

Lemma assoc_dict_del k (d : list (string * V)) :
  NoDup (map fst d) -> assoc String.eqb k (dict_del String.eqb k d) = None.
Proof.
  induction d as [|[j w] d IH]; intros H; simpl; [reflexivity |].
  inversion H as [|? ? Hni Hnd]; subst.
  destruct (String.eqb_spec j k) as [-> | Hne].
  - now apply assoc_none_not_in.
  - simpl. destruct (String.eqb_spec j k); [congruence | now apply IH].
Qed.

End DictLemmas.

(** ** Properties *)

Section EngineFacts.
Import Engine.

Context {Strat W : Type} (execute : Strat -> PyM W unit).

Lemma iteration_sleep e w :
  iteration execute (e, w) =
  match sleep_interval e with
  | Ok _ => (e, snd (execute_strategies execute e w))
  | Err _ => (stop e, snd (execute_strategies execute e w))
  end.
Proof. reflexivity. Qed.

Lemma run_forever e w fuel :
  is_running e = true -> sleep_interval e = Ok tt -> run execute fuel (e, w) = None.
Proof.
  intros Hr Hs. revert w. induction fuel as [|f IH]; intros w; cbn [run fst]; rewrite Hr; [reflexivity |].
  rewrite iteration_sleep, Hs. apply IH.
Qed.

(** While the refresh interval is accepted, [n] passes of the loop keep
    the engine and run the strategies [n] times. *)
Lemma loop_iter e w n :
  is_running e = true -> sleep_interval e = Ok tt ->
  star (loop_step execute) (e, w)
    (e, Nat.iter n (fun w => snd (execute_strategies execute e w)) w).
Proof.
  intros Hr Hs. induction n as [|n IH]; [constructor |].
  apply (star_snoc _ _ _ _ IH). split; [exact Hr |]. now rewrite iteration_sleep, Hs.
Qed.

(** C17. When [time.sleep] accepts the refresh interval, [start] never
    returns: no number of passes ends the loop, and the loop has an
    infinite run from the started engine. *)
Theorem start_never_returns e w :
  sleep_interval e = Ok tt ->
  (forall fuel, start execute fuel (e, w) = None) /\
  infseq (loop_step execute) (mk_engine (config e) (strategies e) true, w).
Proof.
  intros Hs. set (er := mk_engine (config e) (strategies e) true).
  assert (Hs' : sleep_interval er = Ok tt) by exact Hs.
  split; [intros fuel; now apply run_forever |].
  exists (fun s => fst s = er). split; [reflexivity |].
  intros [e1 w1] H1. simpl in H1. subst e1.
  exists (er, snd (execute_strategies execute er w1)). split; [| reflexivity].
  split; [reflexivity |]. now rewrite iteration_sleep, Hs'.
Qed.

(** C37. When [time.sleep] rejects the refresh interval (a string, a
    negative number), [start] runs the strategies once, catches the
    exception, stops the engine and returns. *)
Theorem start_sleep_error e w err fuel :
  sleep_interval e = Err err -> (1 <= fuel)%nat ->
  start execute fuel (e, w) =
  Some (stop (mk_engine (config e) (strategies e) true),
        snd (execute_strategies execute (mk_engine (config e) (strategies e) true) w)).
Proof.
  intros Hs Hf. destruct fuel as [|f]; [lia |]. unfold start. cbn [run fst is_running].
  rewrite iteration_sleep. change (sleep_interval (mk_engine (config e) (strategies e) true))
    with (sleep_interval e). rewrite Hs. now destruct f.
Qed.

End EngineFacts.

Section EngineOps.
Import Engine.
Context {Strat : Type}.

(** [add_strategy] binds the id to the strategy and leaves the
    other ids alone; on an engine with distinct ids, [remove_strategy]
    leaves no binding for its id. *)
Theorem add_remove_roundtrip i s (e : @engine Strat) :
  engine_inv e ->
  assoc String.eqb i (strategies (add_strategy i s e)) = Some s /\
  (forall j, j <> i -> assoc String.eqb j (strategies (add_strategy i s e)) = assoc String.eqb j (strategies e)) /\
  assoc String.eqb i (strategies (remove_strategy i e)) = None.
Proof.
  intros H. simpl. split; [| split].
  - now rewrite assoc_dict_set, String.eqb_refl.
  - intros j Hj. rewrite assoc_dict_set. destruct (String.eqb_spec i j); [congruence | reflexivity].
  - unfold remove_strategy. destruct (assoc String.eqb i (strategies e)) eqn:E; [| exact E].
    simpl. now apply assoc_dict_del.
Qed.

End EngineOps.

(** ** Witnesses *)

Lemma start_never_returns_witness :
  (forall fuel, Engine.start Engine.sample_execute fuel
                  (Engine.sample_engine (JObj [("refresh_interval", JNum 1)]%string), 0) = None) /\
  infseq (Engine.loop_step Engine.sample_execute)
    (Engine.mk_engine (Engine.config (Engine.sample_engine (JObj [("refresh_interval", JNum 1)]%string)))
                      (Engine.strategies (Engine.sample_engine (JObj [("refresh_interval", JNum 1)]%string))) true, 0).
Proof. apply start_never_returns. reflexivity. Defined.

Lemma start_sleep_error_witness :
  Engine.start Engine.sample_execute 5 (Engine.sample_engine (JObj [("refresh_interval", JStr "fast")]%string), 0) =
  Some (Engine.stop (Engine.mk_engine (JObj [("refresh_interval", JStr "fast")]%string)
                       (Engine.strategies (Engine.sample_engine (JObj [("refresh_interval", JStr "fast")]%string))) true),
        101) /\
  Engine.sleep_interval (Engine.sample_engine (JObj [("refresh_interval", JStr "fast")]%string)) =
  Err TypeError.
Proof.
  split; [| reflexivity].
  rewrite (start_sleep_error Engine.sample_execute _ 0 TypeError 5); [reflexivity | reflexivity | lia].
Defined.

Lemma add_remove_roundtrip_witness :
  Engine.engine_inv (Engine.sample_engine (JObj [])) /\
  assoc String.eqb "c"%string (Engine.strategies (Engine.add_strategy "c"%string 7 (Engine.sample_engine (JObj [])))) = Some 7.
Proof.
  assert (H : Engine.engine_inv (Engine.sample_engine (JObj []))) by (repeat constructor; simpl; intuition discriminate).
  split; [exact H | exact (proj1 (add_remove_roundtrip "c"%string 7 _ H))].
Defined.
