(* ===== verification/Agents.v ===== *)
(** * The copilot agents

    [SignalAgent] of
    [src/FuturesQuant/FuturesQuantCopilotFiles/src_agents_signal_agent.py]:
    a config dict, a list of registered models and an [active] flag.
    [generate_signals] runs every model's [predict] in registration order
    inside a [try]; the body extends the signal list and then evaluates
    [len(model_signals)] for the debug line, so a model that returns an
    iterator without a length has its signals kept and an error logged.
    [get_status] builds the agent's status dict.

    [LeverageAgent] of
    [src/FuturesQuant/FuturesQuantCopilotFiles/FuturesQuant_core_leverage_agent.py]:
    the constructor's attributes, and [calculate_position_size], whose
    body ends after a comment and so returns [None]. *)

From Stdlib Require Import String QArith ZArith List Bool Arith Lia.
From S2P Require Import Prelude Registry.
Import ListNotations.
Local Open Scope nat_scope.
Local Open Scope py_scope.

(** The value a model's [predict] returns: a list, an iterator without a
    length (a generator), or something that is not iterable. *)
Inductive pyiter (A : Type) : Type :=
| PyList (l : list A)
| PyGen (l : list A)
| PyOther.
Arguments PyList {A} l.
Arguments PyGen {A} l.
Arguments PyOther {A}.

(** [acc.extend(it)]: consumes any iterable, raises [TypeError] on
    anything else. *)
Definition extend {A} (it : pyiter A) : PyM (list A) unit :=
  match it with
  | PyList l | PyGen l => modify (fun acc => acc ++ l)
  | PyOther => raise TypeError
  end.

(** [len(it)]: only a list has one. *)
Definition py_len {A} (it : pyiter A) : result nat :=
  match it with
  | PyList l => Ok (List.length l)
  | _ => Err TypeError
  end.

(** [try: body except Exception: log]: the state the body reached is
    kept. *)
Definition try_except {S} (body : PyM S unit) : PyM S unit :=
  fun s => (Ok tt, snd (body s)).

Module SignalAgent.

Section SignalAgent.

Context {model data sig : Type}.
Context (predict : model -> data -> result (pyiter sig)).
Context (type_name : model -> string).

Record agent : Type := mk_agent {
  config : jval;
  models : list model;
  active : bool
}.

(** [__init__(config=None)] (lines 14-24). *)
Definition init (cfg : jval) : agent :=
  mk_agent (if truthy cfg then cfg else JObj []) [] true.

(** [register_model(model)] (lines 26-34). *)
Definition register_model (m : model) (a : agent) : agent :=
  mk_agent (config a) (models a ++ [m]) (active a).

(** The [try] body of the loop of lines 55-59. *)
Definition model_body (d : data) (m : model) : PyM (list sig) unit :=
  model_signals <- lift (predict m d) ;;
  extend model_signals ;;;
  n <- lift (py_len model_signals) ;;
  ret tt.

(** [generate_signals(market_data)] (lines 36-66). *)
Definition generate_signals (a : agent) (d : data) : list sig :=
  if negb (active a) then []
  else snd (fold_left (fun acc m => try_except (model_body d m) (snd acc)) (models a) (Ok tt, [])).

(** [get_status()] (lines 68-79). *)
Definition get_status (a : agent) : jval :=
  JObj [("active", JBool (active a));
        ("registered_models", JNum (inject_Z (Z.of_nat (List.length (models a)))));
        ("model_types", JArr (map (fun m => JStr (type_name m)) (models a)))]%string.

(** The calls that change an agent. *)
Definition step (a a' : agent) : Prop := exists m, a' = register_model m a.

(** What a model contributes to the signal list: whatever [extend]
    consumed, whether or not the [len] of the debug line raised. *)
Definition kept_signals (d : data) (m : model) : list sig :=
  match predict m d with
  | Ok (PyList l) | Ok (PyGen l) => l
  | _ => []
  end.

End SignalAgent.

End SignalAgent.

Module LeverageAgent.

Record agent : Type := mk_agent {
  capital : Q;
  max_leverage : Q;
  default_risk_per_trade : Q;
  vol_based_sizing : bool;
  positions : list (string * jval);
  leverage_history : list jval;
  risk_metrics : list (string * Q)
}.

(** [__init__] with its defaults (lines 18-43). *)
Definition init (initial_capital max_lev risk : Q) (vol : bool) : agent :=
  mk_agent initial_capital max_lev risk vol [] []
    [("account_volatility", 0%Q); ("drawdown", 0%Q); ("sharpe", 0%Q); ("max_drawdown", 0%Q)]%string.

Definition default_agent : agent := init 100000%Q 5%Q (2 # 100) true.

(** [calculate_position_size(...)] (lines 45-64): the body is the
    docstring and a comment, so the call returns [None]. *)
Definition calculate_position_size (a : agent) (instrument : string)
  (signal_strength price volatility margin_requirement : Q) : jval := JNull.

End LeverageAgent.

(** ** Lemmas *)

Section AgentLemmas.
Import SignalAgent.
Context {model data sig : Type} (predict : model -> data -> result (pyiter sig)).

Lemma model_body_state d m acc :
  snd (model_body predict d m acc) = acc ++ kept_signals predict d m.
Proof.
  unfold model_body, kept_signals. py_unfold. cbn.
  destruct (predict m d) as [[l | l |] | e]; cbn; now rewrite ?app_nil_r.
Qed.

Lemma generate_fold d ms r acc :
  snd (fold_left (fun acc m => try_except (model_body predict d m) (snd acc)) ms (r, acc)) =
  acc ++ flat_map (kept_signals predict d) ms.
Proof.
  revert r acc. induction ms as [|m ms IH]; intros r acc; cbn [fold_left flat_map].
  - now rewrite app_nil_r.
  - unfold try_except at 2. cbn [snd]. now rewrite IH, model_body_state, app_assoc.
Qed.

End AgentLemmas.

(** ** Properties *)

Section AgentProps.
Import SignalAgent.
Context {model data sig : Type} (predict : model -> data -> result (pyiter sig)).
Context (type_name : model -> string).

(** C20. Every [SignalAgent] reachable from [__init__] by
    [register_model] is active, so the early return of line 48 never
    runs, and [generate_signals] returns the signals of the registered
    models in registration order: a model that raises or returns a
    non-iterable contributes nothing, and a model that returns an
    iterator without a length contributes its signals although the
    debug line's [len] raised. *)
Theorem reachable_generate cfg (a : @agent model) :
  star step (init cfg) a ->
  active a = true /\
  forall d, generate_signals predict a d = flat_map (kept_signals predict d) (models a).
Proof.
  intros Hr. assert (Ha : active a = true).
  { apply (star_inv step (fun a => active a = true)) with (s := init cfg); [| exact Hr | reflexivity].
    intros s s' Hs [m ->]. exact Hs. }
  split; [exact Ha |]. intros d. unfold generate_signals. rewrite Ha. apply (generate_fold predict d _ _ []).
Qed.

End AgentProps.

(** ** Witnesses *)

(** A sample: model [0] returns a list, [1] a generator, [2] raises,
    [3] returns a non-iterable value. *)
Definition sample_predict (m : nat) (d : nat) : result (pyiter nat) :=
  match m with
  | 0 => Ok (PyList [d])
  | 1 => Ok (PyGen [d + 1; d + 2])
  | 2 => Err KeyError
  | _ => Ok PyOther
  end.

Lemma reachable_generate_witness :
  SignalAgent.generate_signals sample_predict
    (SignalAgent.register_model 3 (SignalAgent.register_model 2
      (SignalAgent.register_model 1 (SignalAgent.register_model 0 (SignalAgent.init JNull))))) 10
  = [10; 11; 12].
Proof.
  pose proof (reachable_generate sample_predict JNull
    (SignalAgent.register_model 3 (SignalAgent.register_model 2
      (SignalAgent.register_model 1 (SignalAgent.register_model 0 (SignalAgent.init JNull)))))) as H.
  destruct H as [_ H].
  - eapply star_step; [exists 0; reflexivity |]. eapply star_step; [exists 1; reflexivity |].
    eapply star_step; [exists 2; reflexivity |]. eapply star_step; [exists 3; reflexivity |].
    apply star_refl.
  - rewrite H. reflexivity.
Defined.
