(* ===== verification/Strategy.v ===== *)
(** * The strategy base class and its wiring into the engine

    [BaseStrategy] of
    [src/FuturesQuant/FuturesQuantCopilotFiles/FuturesQuant_strategies_base_strategy.py]:
    a record of the instance attributes, [start]/[stop] flipping
    [is_active], and [execute], which does nothing on an inactive strategy
    and otherwise calls the abstract [generate_signals] (a section
    variable) and logs an entry for every [BUY] and an exit for every
    [SELL], in dict order. [_enter_position] and [_exit_position] only
    log, so the log is the output of the model.

    [Wiring] models the start-up of
    [src/FuturesQuant/FuturesQuantCopilotFiles/FuturesQuant_main.py]
    (lines 63-78): every ["cathie_wood"] entry of the strategy config
    builds a strategy, adds it to a [TradingEngine] and then calls
    [strategy.start()] on the same object. The engine holds references
    into a shared heap of strategy objects, so the [start] reaches the
    strategy the engine runs. *)

From Stdlib Require Import String List Bool Arith Lia.
From S2P Require Import Prelude Registry MovingAverages Engine.
Import ListNotations.
Local Open Scope nat_scope.
Local Open Scope py_scope.

Module BaseStrategy.

(** The instance attributes of [__init__] (lines 15-29); the logger is
    not modelled. *)
Record strategy : Type := mk_strategy {
  name : string;
  symbols : jval;
  params : jval;
  is_active : bool;
  positions : list (string * jval)
}.

(** The log lines of [_enter_position] and [_exit_position]. *)
Inductive event : Type :=
| EnterPosition (symbol : string)
| ExitPosition (symbol : string).

(** [__init__(name, symbols, params)] (lines 15-29). *)
Definition init (nm : string) (syms prms : jval) : strategy := mk_strategy nm syms prms false [].

Definition set_active (b : bool) (s : strategy) : strategy :=
  mk_strategy (name s) (symbols s) (params s) b (positions s).

(** [start()] and [stop()] (lines 82-90). *)
Definition start (s : strategy) : strategy := set_active true s.
Definition stop (s : strategy) : strategy := set_active false s.

(** [_enter_position(symbol)] and [_exit_position(symbol)] (lines 62-80). *)
Definition enter_position (symbol : string) : list event := [EnterPosition symbol].
Definition exit_position (symbol : string) : list event := [ExitPosition symbol].

(** One pass of the loop of [_process_signals] (lines 56-60). *)
Definition process_signal (p : string * string) : list event :=
  let (symbol, signal) := p in
  if String.eqb signal "BUY" then enter_position symbol
  else if String.eqb signal "SELL" then exit_position symbol
  else [].

(** [_process_signals(signals)] (lines 49-60), over the dict's items. *)
Definition process_signals (signals : list (string * string)) : list event :=
  flat_map process_signal signals.

Section Execute.

(** The abstract [generate_signals] of the subclass: it may raise. *)
Context (generate_signals : strategy -> result (list (string * string))).

(** [execute()] (lines 41-47). *)
Definition execute (s : strategy) : result (list event) :=
  if negb (is_active s) then Ok []
  else signals <-? generate_signals s ;; Ok (process_signals signals).

End Execute.

End BaseStrategy.

Module Wiring.
Import BaseStrategy.

(** The strategy objects, addressed by reference, and the position log. *)
Record world : Type := mk_world { heap : list strategy; log : list event }.

Section Wiring.

Context (generate_signals : strategy -> result (list (string * string))).

(** [strategy.execute()] on the object a reference names. An exception
    leaves the log as it was. *)
Definition exec_ref (r : nat) : PyM world unit :=
  fun w =>
    match nth_error (heap w) r with
    | None => (Err AttributeError, w)
    | Some s =>
        match execute generate_signals s with
        | Ok evs => (Ok tt, mk_world (heap w) (log w ++ evs))
        | Err e => (Err e, w)
        end
    end.

(** [params.get('symbols', [])]: [params] must be a dict. *)
Definition get_symbols (prms : jval) : result jval := get_default prms "symbols" (JArr []).

(** One pass of the loop of lines 68-74: a ["cathie_wood"] entry builds
    the strategy object, adds its reference to the engine, then starts
    the object through the shared heap. *)
Definition setup_one (p : string * jval) (st : Engine.engine * list strategy)
  : result (Engine.engine * list strategy) :=
  let (strategy_name, prms) := p in
  let (e, h) := st in
  if String.eqb strategy_name "cathie_wood" then
    syms <-? get_symbols prms ;;
    let r := length h in
    let h1 := h ++ [init strategy_name syms prms] in
    let e1 := Engine.add_strategy strategy_name r e in
    Ok (e1, MA.list_set r (start (init strategy_name syms prms)) h1)
  else Ok (e, h).

Fixpoint setup (cfg : list (string * jval)) (st : Engine.engine * list strategy)
  : result (Engine.engine * list strategy) :=
  match cfg with
  | [] => Ok st
  | p :: cfg' => st1 <-? setup_one p st ;; setup cfg' st1
  end.

(** The loop state [engine.start()] (line 78) begins with, from the
    engine's config and the items of the strategy config. *)
Definition start_state (engine_cfg : jval) (strategy_cfg : list (string * jval))
  : result (Engine.engine * world) :=
  st <-? setup strategy_cfg (Engine.init engine_cfg, []) ;;
  let (e, h) := st in
  Ok (Engine.mk_engine (Engine.config e) (Engine.strategies e) true, mk_world h []).

(** [dict.items()]: only a dict has it. *)
Definition dict_items (v : jval) : result (list (string * jval)) :=
  match v with JObj l => Ok l | _ => Err AttributeError end.

(** [load_config(config_path)] (lines 16-31): the decoded file, or [{}]
    when opening or decoding raises ([None] here). *)
Definition load_config (file : option jval) : jval :=
  match file with Some v => v | None => JObj [] end.

(** [main()] from the loaded config to [engine.start()] (lines 57-78):
    an empty config prints and returns ([None]); [DataHandler] only
    stores its config. *)
Definition main_state (config : jval) : result (option (Engine.engine * world)) :=
  if negb (truthy config) then Ok None
  else
    data_cfg <-? get_default config "data" (JObj []) ;;
    engine_cfg <-? get_default config "engine" (JObj []) ;;
    strategy_config <-? get_default config "strategies" (JObj []) ;;
    items <-? dict_items strategy_config ;;
    s0 <-? start_state engine_cfg items ;;
    Ok (Some s0).

(** [main()] (lines 46-81) after argument parsing: the config file's
    content, loaded, then the set-up. *)
Definition main (file : option jval) : result (option (Engine.engine * world)) :=
  main_state (load_config file).

End Wiring.

End Wiring.

(** ** Sample configuration for the witnesses *)

(** A subclass whose [generate_signals] buys ["ES"] and sells ["NQ"]. *)
Definition sample_generate (s : BaseStrategy.strategy) : result (list (string * string)) :=
  Ok [("ES", "BUY"); ("NQ", "SELL"); ("CL", "HOLD")]%string.

Definition sample_strategy_cfg : list (string * jval) :=
  [("momentum", JObj []); ("cathie_wood", JObj [("symbols", JArr [JStr "ES"])])]%string.

(** ** Lemmas *)

Section StrategyLemmas.
Import BaseStrategy Wiring.
Context (generate_signals : strategy -> result (list (string * string))).

Lemma setup_one_other nm prms st :
  String.eqb nm "cathie_wood" = false -> setup_one (nm, prms) st = Ok st.
Proof. intros H. destruct st as [e h]. simpl. now rewrite H. Qed.

Lemma setup_no_cathie cfg st :
  ~ In "cathie_wood"%string (map fst cfg) -> setup cfg st = Ok st.
Proof.
  revert st. induction cfg as [|[nm prms] cfg IH]; intros st Hn; [reflexivity |].
  simpl in Hn. cbn [setup]. rewrite setup_one_other.
  - apply IH. tauto.
  - apply String.eqb_neq. intros ->. tauto.
Qed.

Lemma setup_app c1 c2 st :
  setup (c1 ++ c2) st = (st1 <-? setup c1 st ;; setup c2 st1).
Proof.
  revert st. induction c1 as [|p c1 IH]; intros st; [reflexivity |].
  cbn [app setup]. destruct (setup_one p st); simpl; [apply IH | reflexivity].
Qed.

(** The ["cathie_wood"] entry appends the started object to the heap and
    its reference to the engine. *)
Lemma setup_one_cathie prms syms e h :
  get_symbols prms = Ok syms ->
  setup_one ("cathie_wood"%string, prms) (e, h) =
  Ok (Engine.add_strategy "cathie_wood"%string (length h) e,
      h ++ [start (init "cathie_wood" syms prms)]).
Proof. intros Hs. cbn [setup_one String.eqb]. rewrite Hs. simpl. now rewrite list_set_app. Qed.

Lemma exec_ref_ok h log r s evs :
  nth_error h r = Some s -> execute generate_signals s = Ok evs ->
  exec_ref generate_signals r (mk_world h log) = (Ok tt, mk_world h (log ++ evs)).
Proof. intros Hn He. unfold exec_ref. simpl. now rewrite Hn, He. Qed.

Lemma concat_repeat_snoc {A} (l : list A) n :
  concat (repeat l n) ++ l = concat (repeat l (S n)).
Proof.
  induction n as [|n IH]; simpl; [now rewrite app_nil_r |].
  now rewrite <- app_assoc, IH.
Qed.

(** A started strategy whose [generate_signals] returns [sigs] logs the
    position events of [sigs]. *)
Lemma execute_started s sigs :
  generate_signals (start s) = Ok sigs ->
  execute generate_signals (start s) = Ok (process_signals sigs).
Proof. intros H. unfold execute. simpl. now rewrite H. Qed.

(** A non-empty config dict reaches the strategy set-up. *)
Lemma main_state_dict cfg_items engine_cfg items :
  cfg_items <> [] ->
  get_default (JObj cfg_items) "engine" (JObj []) = Ok engine_cfg ->
  get_default (JObj cfg_items) "strategies" (JObj []) = Ok (JObj items) ->
  main_state (JObj cfg_items) = (s0 <-? start_state engine_cfg items ;; Ok (Some s0)).
Proof.
  intros Hne He Hs. unfold main_state.
  replace (truthy (JObj cfg_items)) with true by (destruct cfg_items; [congruence | reflexivity]).
  cbn [negb]. unfold get_default at 1. cbn [rbind]. rewrite He. cbn [rbind]. rewrite Hs. reflexivity.
Qed.

End StrategyLemmas.

(** ** Properties *)

Section StrategyProps.
Import BaseStrategy Wiring.
Context (generate_signals : strategy -> result (list (string * string))).

(** The symbols a log enters and exits, in order. *)
Definition entered (evs : list event) : list string :=
  flat_map (fun ev => match ev with EnterPosition x => [x] | ExitPosition _ => [] end) evs.
Definition exited (evs : list event) : list string :=
  flat_map (fun ev => match ev with ExitPosition x => [x] | EnterPosition _ => [] end) evs.

(** C19. [execute] does nothing on an inactive strategy (its
    [generate_signals] is not even called), and on an active one enters
    the symbols signalled [BUY] and exits those signalled [SELL], in dict
    order, ignoring every other signal. *)
Theorem execute_spec s sigs :
  generate_signals s = Ok sigs ->
  (is_active s = false -> forall gen, execute gen s = Ok []) /\
  (is_active s = true -> exists evs, execute generate_signals s = Ok evs /\
     entered evs = map fst (filter (fun p => String.eqb (snd p) "BUY") sigs) /\
     exited evs = map fst (filter (fun p => String.eqb (snd p) "SELL") sigs)).
Proof.
  intros Hg. split; intros Ha; [intros gen; unfold execute; now rewrite Ha |].
  exists (process_signals sigs). unfold execute. rewrite Ha, Hg. split; [reflexivity |].
  unfold process_signals. clear. induction sigs as [|[x sg] sigs IH]; [split; reflexivity |].
  destruct IH as [IH1 IH2]. unfold entered, exited in *.
  cbn [flat_map process_signal filter fst snd]. rewrite !flat_map_app.
  destruct (String.eqb sg "BUY") eqn:Hb; destruct (String.eqb sg "SELL") eqn:Hs;
  [apply String.eqb_eq in Hb; subst sg; discriminate Hs |..];
  cbn; rewrite ?IH1, ?IH2; auto.
Qed.

(** C18. Liveness of the wiring of main.py: for a config dict whose
    strategy config has one ["cathie_wood"] entry and whose engine config
    gives an accepted refresh interval, [main] starts an engine that keeps
    running the started strategy: for every [n] the loop reaches a state
    whose log holds [n] rounds of the strategy's position events. The
    strategy is active because [strategy.start()] reaches the very object
    the engine holds. *)
Theorem main_strategy_live cfg_items engine_cfg pre l post syms sigs :
  cfg_items <> [] ->
  get_default (JObj cfg_items) "engine" (JObj []) = Ok engine_cfg ->
  get_default (JObj cfg_items) "strategies" (JObj []) =
    Ok (JObj (pre ++ ("cathie_wood"%string, JObj l) :: post)) ->
  ~ In "cathie_wood"%string (map fst pre) -> ~ In "cathie_wood"%string (map fst post) ->
  Engine.sleep_interval (@Engine.init nat engine_cfg) = Ok tt ->
  get_symbols (JObj l) = Ok syms ->
  generate_signals (start (init "cathie_wood" syms (JObj l))) = Ok sigs ->
  exists s0, main_state (JObj cfg_items) = Ok (Some s0) /\
  forall n, exists s, star (Engine.loop_step (exec_ref generate_signals)) s0 s /\
    log (snd s) = concat (repeat (process_signals sigs) n).
Proof.
  intros Hne He Hst Hpre Hpost Hsl Hsy Hgen. set (obj := start (init "cathie_wood" syms (JObj l))).
  set (e0 := Engine.mk_engine engine_cfg [("cathie_wood"%string, 0)] true).
  exists (e0, mk_world [obj] []). split.
  { rewrite (main_state_dict _ _ _ Hne He Hst). unfold start_state.
    rewrite setup_app, setup_no_cathie by exact Hpre. cbn [rbind setup].
    rewrite (setup_one_cathie _ _ _ _ Hsy). cbn [rbind app length]. rewrite setup_no_cathie by exact Hpost.
    reflexivity. }
  intros n. eexists. split; [apply (Engine.loop_iter _ e0 _ n); [reflexivity | exact Hsl] |].
  cbn [snd]. enough (Hit : Nat.iter n (fun w => snd (Engine.execute_strategies (exec_ref generate_signals) e0 w))
    (mk_world [obj] []) = mk_world [obj] (concat (repeat (process_signals sigs) n))) by (apply (f_equal log) in Hit; exact Hit).
  induction n as [|n IH]; [reflexivity |]. rewrite Nat.iter_succ, IH.
  unfold Engine.execute_strategies. cbn [Engine.strategies e0 Engine.execute_all].
  rewrite (exec_ref_ok _ _ _ 0 obj (process_signals sigs)); [| reflexivity | now apply execute_started].
  cbn [snd]. now rewrite concat_repeat_snoc.
Qed.

End StrategyProps.

(** ** Witnesses *)

Section StrategyWitnesses.
Import BaseStrategy Wiring.

Definition sample_started : strategy := start (init "cathie_wood" (JArr [JStr "ES"]) (JObj [])).

Lemma execute_spec_witness :
  exists evs, execute sample_generate sample_started = Ok evs /\
    entered evs = ["ES"%string] /\ exited evs = ["NQ"%string].
Proof.
  destruct (execute_spec sample_generate sample_started _ eq_refl) as [_ H].
  destruct (H eq_refl) as [evs [H1 [H2 H3]]]. exists evs.
  split; [exact H1 | split; [rewrite H2; reflexivity | rewrite H3; reflexivity]].
Defined.

Definition sample_config : jval := JObj [("strategies"%string, JObj sample_strategy_cfg)].

Lemma main_strategy_live_witness :
  exists s0, main_state sample_config = Ok (Some s0) /\
  forall n, exists s, star (Engine.loop_step (exec_ref sample_generate)) s0 s /\
    log (snd s) = concat (repeat [EnterPosition "ES"; ExitPosition "NQ"] n).
Proof.
  refine (main_strategy_live sample_generate [("strategies"%string, JObj sample_strategy_cfg)] (JObj [])
    [("momentum"%string, JObj [])]
    [("symbols"%string, JArr [JStr "ES"])] [] (JArr [JStr "ES"])
    [("ES", "BUY"); ("NQ", "SELL"); ("CL", "HOLD")]%string _ _ _ _ _ _ _ _).
  - discriminate.
  - reflexivity.
  - reflexivity.
  - simpl. intros [H | []]. discriminate H.
  - simpl. intros [].
  - reflexivity.
  - reflexivity.
  - reflexivity.
Defined.

End StrategyWitnesses.
