(* ===== verification/Dashboard.v ===== *)
(** * The web dashboard

    [DashboardManager] and the blueprint routes of
    [src/FuturesQuant/FuturesQuantCopilotFiles/FuturesQuant_web_dashboard.py].
    The module holds a global [VERBOSE_MODE] and a singleton manager built
    from it at import time; the model's [world] is that pair, so the
    global written by [toggle_verbose_mode] is part of the state. Trades
    are JSON values ([jval]); the history is capped at 1000 entries by
    slicing [[-1000:]]. [_process_trade_history] simplifies the last 50
    trades (subscripting each one, which raises on a trade that is not a
    dict with the five keys) or, in verbose mode, returns the last 100.
    [get_trades] reads [limit] and [offset] from the query string with
    Flask's [type=int] conversion and slices with Python's rules, so
    negative values index from the end. *)

From Stdlib Require Import String Ascii ZArith QArith List Bool Arith Lia.
From S2P Require Import Prelude Registry.
Import ListNotations.
Local Open Scope nat_scope.
Local Open Scope py_scope.

(** ** Python's [int(s)] on a string, as Flask's [type=int] calls it *)

Definition is_space (c : ascii) : bool :=
  existsb (Ascii.eqb c) [" "; "009"; "010"; "011"; "012"; "013"]%char.

Definition digit_val (c : ascii) : option Z :=
  let n := nat_of_ascii c in
  if (48 <=? n) && (n <=? 57) then Some (Z.of_nat (n - 48)) else None.

Fixpoint strip_left (cs : list ascii) : list ascii :=
  match cs with
  | c :: cs' => if is_space c then strip_left cs' else cs
  | [] => []
  end.

Definition strip (cs : list ascii) : list ascii := rev (strip_left (rev (strip_left cs))).

(** Decimal digits, an underscore allowed only between two digits. *)
Fixpoint digits (cs : list ascii) (acc : Z) (prev_digit : bool) : option Z :=
  match cs with
  | [] => if prev_digit then Some acc else None
  | c :: cs' =>
      match digit_val c with
      | Some d => digits cs' (10 * acc + d)%Z true
      | None => if Ascii.eqb c "_" && prev_digit then digits cs' acc false else None
      end
  end.

(** [int(s)]: [None] where Python raises [ValueError]. Only ASCII
    digits are read; Python also accepts other Unicode decimal digits. *)
Definition py_int (s : string) : option Z :=
  match strip (list_ascii_of_string s) with
  | "-"%char :: cs => option_map Z.opp (digits cs 0 false)
  | "+"%char :: cs => digits cs 0 false
  | cs => digits cs 0 false
  end.

(** [request.args.get(key, default, type=int)]: the default when the key
    is absent or its value does not convert. *)
Definition arg_int (args : list (string * string)) (key : string) (dflt : Z) : Z :=
  match assoc String.eqb key args with
  | Some v => match py_int v with Some z => z | None => dflt end
  | None => dflt
  end.

Module Dashboard.

(** The attributes of [DashboardManager.__init__] (lines 32-38). *)
Record manager : Type := mk_manager {
  trade_history : list jval;
  performance_data : jval;
  strategy_metrics : jval;
  verbose_mode : bool;
  positions : jval;
  leverage_data : jval
}.

(** The module's global [VERBOSE_MODE] and the singleton
    [dashboard_manager]. *)
Record world : Type := mk_world {
  VERBOSE_MODE : bool;
  dashboard_manager : manager
}.

(** [DashboardManager()] (lines 32-38): reads the global. *)
Definition init_manager (g : bool) : manager :=
  mk_manager [] (JObj []) (JObj []) g (JObj []) (JObj []).

(** The module at import time (lines 27 and 98). *)
Definition init_world : world := mk_world false (init_manager false).

Definition set_history (h : list jval) (m : manager) : manager :=
  mk_manager h (performance_data m) (strategy_metrics m) (verbose_mode m) (positions m) (leverage_data m).

(** [update_trade_history(new_trades)] (lines 40-46). *)
Definition update_trade_history (new_trades : jval) : PyM manager unit :=
  items <- lift (py_iter new_trades) ;;
  modify (fun m => set_history (trade_history m ++ items) m) ;;;
  m <- get ;;
  if 1000 <? length (trade_history m)
  then modify (fun m => set_history (py_slice_from (-1000) (trade_history m)) m)
  else ret tt.

(** [update_positions], [update_leverage_data], [update_performance]
    (lines 48-58). *)
Definition update_positions (p : jval) (m : manager) : manager :=
  mk_manager (trade_history m) (performance_data m) (strategy_metrics m) (verbose_mode m) p (leverage_data m).
Definition update_leverage_data (l : jval) (m : manager) : manager :=
  mk_manager (trade_history m) (performance_data m) (strategy_metrics m) (verbose_mode m) (positions m) l.
Definition update_performance (p : jval) (m : manager) : manager :=
  mk_manager (trade_history m) p (strategy_metrics m) (verbose_mode m) (positions m) (leverage_data m).

(** [toggle_verbose_mode()] (lines 60-66): flips the manager's flag and
    copies it to the global. *)
Definition toggle_verbose_mode : PyM world bool :=
  fun w =>
    let m := dashboard_manager w in
    let v := negb (verbose_mode m) in
    let m' := mk_manager (trade_history m) (performance_data m) (strategy_metrics m) v
                (positions m) (leverage_data m) in
    (Ok v, mk_world v m').

(** The dict comprehension's element (lines 84-90). *)
Definition simplify_trade (trade : jval) : result jval :=
  ts <-? subscript trade "timestamp" ;;
  ins <-? subscript trade "instrument" ;;
  sd <-? subscript trade "side" ;;
  sz <-? subscript trade "size" ;;
  pr <-? subscript trade "price" ;;
  pnl <-? get_default trade "pnl" (JStr "N/A") ;;
  Ok (JObj [("timestamp", ts); ("instrument", ins); ("side", sd); ("size", sz);
            ("price", pr); ("pnl", pnl)])%string.

(** [_process_trade_history()] (lines 80-94). *)
Definition process_trade_history (m : manager) : result (list jval) :=
  if negb (verbose_mode m) then rmap simplify_trade (py_slice_from (-50) (trade_history m))
  else Ok (py_slice_from (-100) (trade_history m)).

(** [get_dashboard_data()] (lines 68-78); [now] is
    [datetime.now().isoformat()]. *)
Definition get_dashboard_data (now : string) (m : manager) : result jval :=
  th <-? process_trade_history m ;;
  Ok (JObj [("trade_history", JArr th); ("positions", positions m);
            ("performance", performance_data m); ("leverage", leverage_data m);
            ("verbose_mode", JBool (verbose_mode m)); ("timestamp", JStr now);
            ("strategy_metrics", strategy_metrics m)])%string.

(** The [/api/toggle_verbose] route (lines 113-117). *)
Definition toggle_verbose : PyM world jval :=
  b <- toggle_verbose_mode ;;
  ret (JObj [("verbose_mode"%string, JBool b)]).

(** The [/api/trades] route (lines 119-132). *)
Definition get_trades (args : list (string * string)) (m : manager) : result jval :=
  let limit := arg_int args "limit" 50 in
  let offset := arg_int args "offset" 0 in
  trades <-? process_trade_history m ;;
  let subset := if (offset <? Z.of_nat (length trades))%Z
                then py_slice_z offset (offset + limit) trades else [] in
  Ok (JObj [("trades", JArr subset); ("total", JNum (inject_Z (Z.of_nat (length trades))));
            ("verbose_mode", JBool (verbose_mode m))])%string.

(** The calls that change the module's state. *)
Inductive op : Type :=
| OpTrades (new_trades : jval)
| OpPositions (p : jval)
| OpLeverage (l : jval)
| OpPerformance (p : jval)
| OpToggle.

Definition on_manager (f : manager -> manager) (w : world) : world :=
  mk_world (VERBOSE_MODE w) (f (dashboard_manager w)).

Definition apply_op (o : op) (w : world) : world :=
  match o with
  | OpTrades t => on_manager (fun m => snd (update_trade_history t m)) w
  | OpPositions p => on_manager (update_positions p) w
  | OpLeverage l => on_manager (update_leverage_data l) w
  | OpPerformance p => on_manager (update_performance p) w
  | OpToggle => snd (toggle_verbose_mode w)
  end.

Definition step (w w' : world) : Prop := exists o, w' = apply_op o w.

(** The invariant: the history is capped and the global agrees with the
    manager's flag. *)
Definition dash_inv (w : world) : Prop :=
  length (trade_history (dashboard_manager w)) <= 1000 /\
  VERBOSE_MODE w = verbose_mode (dashboard_manager w).

(** ** The blueprint's routes *)

(** What a request gets back: a rendered page, a [jsonify] body, or a
    status without a view's body (an error or a redirect). *)
Inductive response : Type :=
| Page (template : string) (verbose_mode : bool)
| Json (body : jval)
| Status (code : Z).

Inductive view : Type := VHome | VData | VToggle | VTrades.

(** The blueprint's rules (lines 100-132) and their methods. *)
Definition routes : list (string * (list string * view)) :=
  [("/", (["GET"], VHome)); ("/api/data", (["GET"], VData));
   ("/api/toggle_verbose", (["POST"], VToggle)); ("/api/trades", (["GET"], VTrades))]%string.

(** [register_blueprint(app)] (lines 134-136): the rules under
    [/dashboard]. *)
Definition url_prefix : string := "/dashboard"%string.

Definition rule_of (path : string) : option (list string * view) :=
  match find (fun rv => String.eqb (url_prefix ++ fst rv) path) routes with
  | Some (_, mv) => Some mv
  | None => None
  end.

(** Flask's method check: a GET rule answers HEAD too; OPTIONS is
    answered without calling the view. *)
Definition allows (methods : list string) (m : string) : bool :=
  existsb (String.eqb m) methods || (String.eqb m "HEAD" && existsb (String.eqb "GET") methods).

Section Routes.

(** Whether the application's template folder holds a template: the
    repository has no [dashboard.html]. *)
Context (template_exists : string -> bool).

Definition of_result (r : result jval) : response :=
  match r with Ok d => Json d | Err _ => Status 500 end.

(** The views (lines 100-132); an exception in a view is a 500. *)
Definition run_view (now : string) (args : list (string * string)) (v : view) (w : world)
  : response * world :=
  match v with
  | VHome => (if template_exists "dashboard.html"
              then Page "dashboard.html" (verbose_mode (dashboard_manager w)) else Status 500, w)
  | VData => (of_result (get_dashboard_data now (dashboard_manager w)), w)
  | VToggle => let (r, w') := toggle_verbose w in (of_result r, w')
  | VTrades => (of_result (get_trades args (dashboard_manager w)), w)
  end.

(** A request to the application: no rule is a 404, the rule [/] asked
    without its trailing slash a redirect, a method the rule does not
    take a 405. *)
Definition handle (now method path : string) (args : list (string * string)) (w : world)
  : response * world :=
  match rule_of path with
  | None => (if String.eqb path url_prefix then Status 308 else Status 404, w)
  | Some (methods, v) =>
      if String.eqb method "OPTIONS" then (Status 200, w)
      else if allows methods method then run_view now args v w
      else (Status 405, w)
  end.

End Routes.

(** Concatenations and comparisons of string literals, evaluated. *)
Ltac str_eval :=
  repeat match goal with
  | |- context [String.append ?a ?b] =>
      let v := eval vm_compute in (String.append a b) in
      lazymatch v with String _ _ => change (String.append a b) with v end
  | |- context [String.eqb ?a ?b] =>
      let v := eval vm_compute in (String.eqb a b) in
      lazymatch v with
      | true => change (String.eqb a b) with true
      | false => change (String.eqb a b) with false
      end
  end.

Lemma rule_of_eq path :
  rule_of path =
  if String.eqb "/dashboard/"%string path then Some (["GET"%string], VHome)
  else if String.eqb "/dashboard/api/data"%string path then Some (["GET"%string], VData)
  else if String.eqb "/dashboard/api/toggle_verbose"%string path then Some (["POST"%string], VToggle)
  else if String.eqb "/dashboard/api/trades"%string path then Some (["GET"%string], VTrades)
  else None.
Proof.
  unfold rule_of, routes, url_prefix. cbn [find fst]. str_eval.
  repeat match goal with |- context [String.eqb ?a path] => destruct (String.eqb a path) end;
    reflexivity.
Qed.

End Dashboard.

(** ** Lemmas *)

Section DashboardLemmas.
Import Dashboard.

Lemma neg_1000 : (-1000)%Z = (- Z.of_nat 1000)%Z.
Proof. reflexivity. Qed.

Lemma process_trade_history_cap m l :
  process_trade_history m = Ok l -> length l <= (if verbose_mode m then 100 else 50).
Proof.
  unfold process_trade_history. destruct (verbose_mode m); simpl; intros H.
  - inversion H; subst. change (-100)%Z with (- Z.of_nat 100)%Z.
    rewrite py_slice_from_neg, length_keep_last by lia. lia.
  - apply rmap_length in H. rewrite H. change (-50)%Z with (- Z.of_nat 50)%Z.
    rewrite py_slice_from_neg, length_keep_last by lia. lia.
Qed.

Lemma length_py_slice_z_le {A} a b (xs : list A) : length (py_slice_z a b xs) <= length xs.
Proof. unfold py_slice_z. rewrite length_firstn, length_skipn. lia. Qed.

End DashboardLemmas.

(** ** Properties *)

Section DashboardProps.
Import Dashboard.

(** C21. [update_trade_history] appends the new trades and keeps the
    last 1000 entries: it equals [keep_last 1000] of the extended
    history, and raises [TypeError], leaving the manager as it was, when
    the argument is not iterable. *)
Theorem update_trade_history_keep_last t m :
  update_trade_history t m =
  match py_iter t with
  | Ok items => (Ok tt, set_history (keep_last 1000 (trade_history m ++ items)) m)
  | Err e => (Err e, m)
  end.
Proof.
  unfold update_trade_history. py_unfold.
  destruct (py_iter t) as [items | e]; [| reflexivity]. cbv beta iota.
  cbn [fst snd trade_history set_history].
  destruct (Nat.ltb_spec 1000 (length (trade_history m ++ items))) as [H | H].
  - rewrite neg_1000, py_slice_from_neg by lia. reflexivity.
  - now rewrite keep_last_short.
Qed.

(** C22. In every state of the module reachable from import by the
    manager's updates and toggles, the trade history holds at most 1000
    entries and the global [VERBOSE_MODE] equals the manager's flag. *)
Theorem reachable_dash_inv w :
  star step init_world w -> dash_inv w.
Proof.
  intros Hr. apply (star_inv step dash_inv) with (s := init_world); [| exact Hr | split; simpl; lia].
  intros s s' [Hl Hv] [[t | p | l | p |] ->]; try (split; assumption).
  - unfold dash_inv, apply_op, on_manager. cbn [dashboard_manager VERBOSE_MODE].
    rewrite update_trade_history_keep_last.
    destruct (py_iter t); cbn; split; try assumption.
    rewrite length_keep_last. lia.
  - split; simpl; [exact Hl | reflexivity].
Qed.

(** Toggling twice is the identity on a state where the global
    agrees with the manager: the two calls return the negated flag, then
    the flag itself. *)
Theorem toggle_twice w :
  VERBOSE_MODE w = verbose_mode (dashboard_manager w) ->
  let '(r1, w1) := toggle_verbose_mode w in
  let '(r2, w2) := toggle_verbose_mode w1 in
  r1 = Ok (negb (verbose_mode (dashboard_manager w))) /\
  r2 = Ok (verbose_mode (dashboard_manager w)) /\ w2 = w.
Proof.
  intros H. destruct w as [g [th pd sm v ps ld]]. simpl in *. subst g.
  rewrite negb_involutive. auto.
Qed.

(** C23. When [/api/trades] answers, its [total] is at most 50 trades
    (100 in verbose mode), the page holds at most [total] trades, and
    with a non-negative [offset] at most [limit] of them. *)
Theorem get_trades_bounds args m out :
  get_trades args m = Ok out ->
  exists sub total,
    out = JObj [("trades", JArr sub); ("total", JNum (inject_Z (Z.of_nat total)));
                ("verbose_mode", JBool (verbose_mode m))]%string /\
    length sub <= total <= (if verbose_mode m then 100 else 50) /\
    ((0 <= arg_int args "offset" 0)%Z -> (0 <= arg_int args "limit" 50)%Z ->
     length sub <= Z.to_nat (arg_int args "limit" 50)).
Proof.
  unfold get_trades. destruct (process_trade_history m) as [trades | e] eqn:Hp; [| discriminate].
  cbn [rbind]. intros H. inversion H; subst; clear H.
  set (o := arg_int args "offset" 0). set (l := arg_int args "limit" 50).
  eexists _, (length trades). split; [reflexivity |].
  pose proof (process_trade_history_cap _ _ Hp).
  destruct (Z.ltb_spec o (Z.of_nat (length trades))) as [Ho | Ho].
  - split; [pose proof (length_py_slice_z_le o (o + l) trades); lia |].
    intros H0 H1. pose proof (length_py_slice_z o (o + l) trades H0 ltac:(lia)).
    replace (o + l - o)%Z with l in * by lia. lia.
  - simpl. lia.
Qed.

(** C24. The standard view fails where the verbose one does not: when
    one of the last 50 trades is not a dict holding [timestamp],
    [instrument], [side], [size] and [price], [get_dashboard_data] raises
    in standard mode, while after a toggle it returns the raw trades. *)
Theorem standard_view_raises m now t :
  verbose_mode m = false -> In t (keep_last 50 (trade_history m)) ->
  is_ok (simplify_trade t) = false ->
  is_ok (get_dashboard_data now m) = false /\
  exists out, get_dashboard_data now
    (dashboard_manager (snd (toggle_verbose_mode (mk_world false m)))) = Ok out.
Proof.
  intros Hv Hin Ht. split.
  - unfold get_dashboard_data, process_trade_history. rewrite Hv. cbn [negb].
    change (-50)%Z with (- Z.of_nat 50)%Z. rewrite py_slice_from_neg by lia.
    pose proof (rmap_not_ok simplify_trade _ _ Hin Ht) as Hr.
    destruct (rmap _ _); [discriminate | reflexivity].
  - eexists. unfold get_dashboard_data, process_trade_history. simpl. rewrite Hv. reflexivity.
Qed.

(** C33. Of all requests to the dashboard's routes, only a POST to
    [/dashboard/api/toggle_verbose] changes the module's state, and it
    changes it as [toggle_verbose_mode] does; every other request (other
    routes, other methods, unknown paths, OPTIONS) leaves the manager and
    the global as they were. *)
Theorem only_toggle_mutates template_exists now method path args w :
  snd (handle template_exists now method path args w) =
  if String.eqb path "/dashboard/api/toggle_verbose" && String.eqb method "POST"
  then snd (toggle_verbose_mode w) else w.
Proof.
  unfold handle. rewrite rule_of_eq.
  destruct (String.eqb_spec path "/dashboard/api/toggle_verbose") as [-> | Hp].
  - str_eval. cbv iota. destruct (String.eqb_spec method "POST") as [-> | Hm]; [reflexivity |].
    destruct (String.eqb method "OPTIONS"); [reflexivity |].
    unfold allows. str_eval. simpl existsb. apply String.eqb_neq in Hm. rewrite Hm.
    destruct (String.eqb method "HEAD"); reflexivity.
  - rewrite (proj2 (String.eqb_neq _ _) (not_eq_sym Hp)). cbv iota.
    destruct (String.eqb "/dashboard/" path); [| destruct (String.eqb "/dashboard/api/data" path);
      [| destruct (String.eqb "/dashboard/api/trades" path)]]; cbv iota; try reflexivity;
    destruct (String.eqb method "OPTIONS"); try reflexivity; destruct (allows _ method); reflexivity.
Qed.

End DashboardProps.

(** ** Witnesses *)

Definition sample_trade : jval :=
  JObj [("timestamp", JStr "t0"); ("instrument", JStr "ES"); ("side", JStr "BUY");
        ("size", JNum 1); ("price", JNum 5000)]%string.

(** A trade without a price. *)
Definition sample_bad_trade : jval :=
  JObj [("timestamp", JStr "t1"); ("instrument", JStr "NQ"); ("side", JStr "SELL");
        ("size", JNum 2)]%string.

Definition sample_world1 : Dashboard.world :=
  Dashboard.apply_op (Dashboard.OpTrades (JArr [sample_trade; sample_bad_trade])) Dashboard.init_world.

Definition sample_world2 : Dashboard.world := Dashboard.apply_op Dashboard.OpToggle sample_world1.

Lemma reachable_dash_inv_witness :
  star Dashboard.step Dashboard.init_world sample_world2 /\ Dashboard.dash_inv sample_world2.
Proof.
  assert (Hr : star Dashboard.step Dashboard.init_world sample_world2).
  { eapply star_step; [exists (Dashboard.OpTrades (JArr [sample_trade; sample_bad_trade])); reflexivity |].
    eapply star_step; [exists Dashboard.OpToggle; reflexivity |]. apply star_refl. }
  split; [exact Hr | exact (reachable_dash_inv _ Hr)].
Defined.

Lemma toggle_twice_witness :
  let '(r1, w1) := Dashboard.toggle_verbose_mode sample_world1 in
  let '(r2, w2) := Dashboard.toggle_verbose_mode w1 in
  r1 = Ok true /\ r2 = Ok false /\ w2 = sample_world1.
Proof. exact (toggle_twice sample_world1 eq_refl). Defined.

(** A negative offset counts from the end: [?offset=-1] returns the last
    trade ([trades[-1:49]]). *)
Lemma get_trades_bounds_witness :
  Dashboard.get_trades [("offset", " -1 ")]%string
    (Dashboard.dashboard_manager sample_world2) =
  Ok (JObj [("trades", JArr [sample_bad_trade]); ("total", JNum 2); ("verbose_mode", JBool true)])%string /\
  exists sub total,
    JObj [("trades", JArr [sample_bad_trade]); ("total", JNum 2); ("verbose_mode", JBool true)]%string =
    JObj [("trades", JArr sub); ("total", JNum (inject_Z (Z.of_nat total)));
          ("verbose_mode", JBool true)]%string /\
    (length sub <= total <= 100)%nat /\
    ((0 <= -1)%Z -> (0 <= 50)%Z -> (length sub <= Z.to_nat 50)%nat).
Proof.
  assert (H : Dashboard.get_trades [("offset", " -1 ")]%string
    (Dashboard.dashboard_manager sample_world2) =
    Ok (JObj [("trades", JArr [sample_bad_trade]); ("total", JNum 2); ("verbose_mode", JBool true)])%string)
    by (vm_compute; reflexivity).
  split; [exact H | exact (get_trades_bounds _ _ _ H)].
Defined.

Lemma standard_view_raises_witness :
  is_ok (Dashboard.get_dashboard_data "now" (Dashboard.dashboard_manager sample_world1)) = false /\
  exists out, Dashboard.get_dashboard_data "now"
    (Dashboard.dashboard_manager (snd (Dashboard.toggle_verbose_mode
      (Dashboard.mk_world false (Dashboard.dashboard_manager sample_world1))))) = Ok out.
Proof.
  apply (standard_view_raises _ _ sample_bad_trade).
  - reflexivity.
  - simpl. auto.
  - reflexivity.
Defined.
