(* ===== verification/Interaction.v ===== *)
(** * Interaction trees for the I/O-bound components

    The broker wrapper and the computation engine talk to a peer (the
    Interactive Brokers gateway, the integration server's websocket):
    their code is an interaction tree whose events are the calls on the
    peer and whose [exceptE py_error] events are Python exceptions. This
    file holds what both share: the bind notations (in a scope of their
    own, since ITree's [;;] clashes with the [py_scope] notations of the
    prelude), and the lemmas on leaves and postconditions that the loop
    proofs use, after [Props/Leaf.v] and [Props/HasPost.v] of the ITree
    library. *)

From Stdlib Require Import List.
From ITree Require Import ITree ITreeFacts Events.Exception Props.Leaf Props.HasPost.
From S2P Require Import Prelude.

Declare Scope ib_scope.
Delimit Scope ib_scope with ib.
Notation "x <~ t ;; k" := (ITree.bind t (fun x => k))
  (at level 62, t at next level, right associativity) : ib_scope.
Notation "t ~;; k" := (ITree.bind t (fun _ => k))
  (at level 62, right associativity) : ib_scope.

Section Trees.

Context {E : Type -> Type}.

Lemma bind_throw {R S} (e : py_error) (k : R -> itree (exceptE py_error +' E) S) :
  ITree.bind (throw e) k ≅ throw e.
Proof. unfold throw. rewrite bind_vis. apply eqit_Vis. intros []. Qed.

(** [observe] of a bind, one step: what a fuelled run of a tree needs
    to look through a continuation that is stuck on a variable. *)
Lemma observe_subst {T U} (k : T -> itree E U) (t : itree E T) :
  observe (ITree.subst k t) =
  observe (match observe t with
           | RetF r => k r
           | TauF t0 => Tau (ITree.subst k t0)
           | VisF e h => Vis e (fun x => ITree.subst k (h x))
           end).
Proof. reflexivity. Qed.

(** A raised exception is not a return. *)
Lemma Leaf_throw {R} (e : py_error) (r : R) :
  Leaf r (throw e : itree (exceptE py_error +' E) R) -> False.
Proof. intros H. apply Leaf_Vis_inv in H. destruct H as [[] _]. Qed.

Lemma has_post_Ret {R} (r : R) (Q : R -> Prop) : Q r -> has_post (Ret r : itree E R) Q.
Proof. intros H. unfold has_post. now apply eqit_Ret. Qed.

Lemma has_post_trigger {X} (e : E X) : has_post (ITree.trigger e) (fun _ => True).
Proof. apply has_post_True. Qed.

(** A raised exception satisfies every postcondition: it has no leaf. *)
Lemma has_post_throw {R} (e : py_error) (Q : R -> Prop) :
  has_post (throw e : itree (exceptE py_error +' E) R) Q.
Proof. unfold has_post, throw. apply eqit_Vis. intros []. Qed.

End Trees.

Create HintDb itree_post.
#[export] Hint Resolve has_post_Ret has_post_trigger has_post_True has_post_throw : itree_post.
