(* ===== verification/Broker.v ===== *)
(** * The broker wrapper

    [IBKRWrapper] of [src/FuturesQuant/Dashboard/api/api/indicators.py]
    (lines 10-81). Every call the wrapper makes on its [ib_insync.IB]
    client, and every [print], is an event of an interaction tree; a
    Python exception is an [exceptE py_error] event. The client's answers
    are whatever a handler gives, so the theorems hold for every
    behaviour of the gateway. [run] executes a tree against a handler
    with fuel and returns the list of calls made and the outcome; it is
    what the witnesses evaluate.

    The module's route [/api/aggregated-signals] (lines 83-111) is the
    same code as the endpoint of [Dashboard/api/indicators.py], which
    [Aggregator.get_aggregated_signals] models. *)

From Stdlib Require Import String ZArith QArith List Bool Lia.
From ITree Require Import ITree ITreeFacts Events.Exception.
From S2P Require Import Prelude Registry Interaction.
Import ListNotations.
Local Open Scope nat_scope.
Local Open Scope ib_scope.

Module IBKR.

(** [Stock(symbol, exchange, currency)]. *)
Record contract : Type := Stock { c_symbol : string; c_exchange : string; c_currency : string }.

(** What the client hands back: a ticker handle, an order, a trade. *)
Record ticker : Type := mk_ticker { bid : jval; ask : jval; last : jval }.
Record order : Type := mk_order { o_kind : string; o_action : jval; o_quantity : jval }.
Record trade : Type := mk_trade { t_contract : contract; t_order : order }.

(** The calls of the wrapper on [self.ib], and [print]. *)
Variant ibE : Type -> Type :=
| Connect (host : string) (port client_id : Z) : ibE unit
| Disconnect : ibE unit
| QualifyContracts (c : contract) : ibE unit
| ReqMktData (c : contract) : ibE ticker
| Sleep (secs : Z) : ibE unit
| MarketOrderCall (action quantity : jval) : ibE order
| PlaceOrder (c : contract) (o : order) : ibE trade
| Print (s : string) : ibE unit.

Definition E : Type -> Type := exceptE py_error +' ibE.

(** The instance attributes of [__init__] (lines 11-23); [IB()] builds
    the client object without a call. *)
Record wrapper : Type := mk_wrapper { host : string; port : Z; client_id : Z }.

Definition init (h : string) (p c : Z) : wrapper := mk_wrapper h p c.
Definition default_wrapper : wrapper := init "127.0.0.1" 4002 1.

Definition call {X} (e : ibE X) : itree E X := trigger e.

(** [connect()] (lines 25-30). *)
Definition connect (w : wrapper) : itree E unit :=
  call (Connect (host w) (port w) (client_id w)) ~;;
  call (Print "Connected to IBKR Gateway").

(** [disconnect()] (lines 32-37). *)
Definition disconnect (w : wrapper) : itree E unit :=
  call Disconnect ~;; call (Print "Disconnected from IBKR Gateway").

(** [get_market_data(symbol, exchange='SMART', currency='USD')]
    (lines 39-60): the dict is built from the ticker after the sleep;
    the gateway's ticker stands for the live object's fields at that
    point. *)
Definition get_market_data (w : wrapper) (symbol exchange currency : string) : itree E jval :=
  let c := Stock symbol exchange currency in
  call (QualifyContracts c) ~;;
  t <~ call (ReqMktData c) ;;
  call (Sleep 2) ~;;
  Ret (JObj [("symbol", JStr symbol); ("bid", bid t); ("ask", ask t); ("last", last t)])%string.

(** [place_order(symbol, action, quantity, order_type='MKT', ...)]
    (lines 62-81). The limit branch reads the name [price], which is not
    bound in the method, so it raises [NameError] before calling the
    client. *)
Definition place_order (w : wrapper) (symbol : string) (action quantity : jval)
  (order_type exchange currency : string) : itree E trade :=
  let c := Stock symbol exchange currency in
  call (QualifyContracts c) ~;;
  o <~ (if String.eqb order_type "MKT" then call (MarketOrderCall action quantity)
        else throw NameError) ;;
  call (PlaceOrder c o).

(** ** Running a tree against the gateway *)

(** The calls as a log. *)
Inductive call_rec : Type :=
| RConnect (host : string) (port client_id : Z)
| RDisconnect
| RQualify (c : contract)
| RReqMktData (c : contract)
| RSleep (secs : Z)
| RMarketOrder (action quantity : jval)
| RPlaceOrder (c : contract) (o : order)
| RPrint (s : string).

Definition record_of {X} (e : ibE X) : call_rec :=
  match e with
  | Connect h p c => RConnect h p c
  | Disconnect => RDisconnect
  | QualifyContracts c => RQualify c
  | ReqMktData c => RReqMktData c
  | Sleep s => RSleep s
  | MarketOrderCall a q => RMarketOrder a q
  | PlaceOrder c o => RPlaceOrder c o
  | Print s => RPrint s
  end.

(** A gateway: the answer to every call. *)
Definition gateway : Type := forall X, ibE X -> X.

(** At most [fuel] steps of the tree: the calls made and the outcome. *)
Fixpoint run {R} (fuel : nat) (g : gateway) (t : itree E R) : option (list call_rec * result R) :=
  match fuel with
  | 0 => None
  | S f =>
      match observe t with
      | RetF r => Some ([], Ok r)
      | TauF t' => run f g t'
      | VisF (inl1 (Throw e)) _ => Some ([], Err e)
      | VisF (inr1 ev) k =>
          match run f g (k (g _ ev)) with
          | Some (tr, r) => Some (record_of ev :: tr, r)
          | None => None
          end
      end
  end.

End IBKR.

(** ** Lemmas *)

Section BrokerLemmas.
Import IBKR.

(** A limit order raises right after qualifying the contract. *)
Lemma place_order_not_market w symbol action quantity order_type exchange currency :
  String.eqb order_type "MKT" = false ->
  place_order w symbol action quantity order_type exchange currency ≅
  (call (QualifyContracts (Stock symbol exchange currency)) ~;; throw NameError).
Proof.
  intros H. unfold place_order. rewrite H. apply eqit_bind; [reflexivity |].
  intros []. apply bind_throw.
Qed.

End BrokerLemmas.

(** ** Properties *)

Section BrokerProps.
Import IBKR.

(** C25. Against every gateway, [place_order] first qualifies the
    contract; a market order then creates the order and places it, and
    returns the gateway's trade, while any other order type raises
    [NameError] (the unbound [price]) and never reaches [placeOrder]. *)
Theorem place_order_calls (g : gateway) w symbol action quantity order_type exchange currency fuel :
  (4 <= fuel)%nat ->
  let c := Stock symbol exchange currency in
  let o := g _ (MarketOrderCall action quantity) in
  run fuel g (place_order w symbol action quantity order_type exchange currency) =
  if String.eqb order_type "MKT"
  then Some ([RQualify c; RMarketOrder action quantity; RPlaceOrder c o], Ok (g _ (PlaceOrder c o)))
  else Some ([RQualify c], Err NameError).
Proof.
  intros Hf. do 4 (destruct fuel as [|fuel]; [exfalso; lia |]).
  unfold place_order. destruct (String.eqb order_type "MKT"); reflexivity.
Qed.

End BrokerProps.

(** ** Witnesses *)

(** A gateway that answers every call. *)
Definition sample_gateway : IBKR.gateway :=
  fun X e =>
    match e in IBKR.ibE X return X with
    | IBKR.Connect _ _ _ => tt
    | IBKR.Disconnect => tt
    | IBKR.QualifyContracts _ => tt
    | IBKR.ReqMktData _ => IBKR.mk_ticker (JNum 4999%Q) (JNum 5001%Q) (JNum 5000%Q)
    | IBKR.Sleep _ => tt
    | IBKR.MarketOrderCall a q => IBKR.mk_order "MKT" a q
    | IBKR.PlaceOrder c o => IBKR.mk_trade c o
    | IBKR.Print _ => tt
    end.

Lemma place_order_calls_witness :
  (4 <= 5)%nat /\
  IBKR.run 5 sample_gateway
    (IBKR.place_order IBKR.default_wrapper "ES" (JStr "BUY") (JNum 1%Q) "LMT" "SMART" "USD") =
  Some ([IBKR.RQualify (IBKR.Stock "ES" "SMART" "USD")], Err NameError).
Proof.
  split; [lia |].
  exact (place_order_calls sample_gateway IBKR.default_wrapper "ES" (JStr "BUY") (JNum 1)
           "LMT" "SMART" "USD" 5 ltac:(lia)).
Defined.
