(* ===== verification/DataSources.v ===== *)
(** * Configuration and the TwelveData client

    [Config] of [src/config/config.py]: [load_dotenv()] adds the
    variables of the [.env] file that the environment does not already
    define, the class body reads both API keys with [os.getenv], and
    [Config.validate()] runs at import time, raising [ValueError] for the
    first key that is missing or empty.

    [TwelveDataClient] of [src/data_sources/twelvedata_client.py]:
    [requests.get] is a section variable (the HTTP server); [requests]
    leaves out query parameters whose value is [None].
    [_make_request] writes the API key into the caller's [params] dict,
    so it is a [PyM] computation on that dict. [get_time_series] builds
    a DataFrame from the ["values"] records, parses its ["datetime"]
    column ([pd.to_datetime], a section variable, missing cells are
    [NaT]) and sorts the rows by it, [NaT] last, as [Series.argsort]
    sorts. The DataFrame constructor on anything but a list of records
    is a section variable as well. The module's [unittest] class patches
    a module path that is not in the repository and is not modelled. *)

From Stdlib Require Import String QArith ZArith List Bool Arith Lia Permutation Sorted.
From S2P Require Import Prelude Series Registry.
Import ListNotations.
Local Open Scope nat_scope.
Local Open Scope py_scope.
Local Open Scope string_scope.

Module Config.

(** [os.environ] and the parsed [.env] file. *)
Definition env : Type := list (string * string).

(** [load_dotenv()] (line 5): existing variables are not overridden. *)
Definition load_dotenv (dotenv e : env) : env := (e ++ dotenv)%list.

(** [os.getenv(key)]. *)
Definition getenv (e : env) (key : string) : option string := assoc String.eqb key e.

(** The class attributes (lines 7-9). *)
Record config : Type := mk_config {
  POLYGON_API_KEY : option string;
  TWELVEDATA_API_KEY : option string
}.

Definition class_body (e : env) : config :=
  mk_config (getenv e "POLYGON_API_KEY") (getenv e "TWELVEDATA_API_KEY").

(** [not value] for a string or [None]. *)
Definition falsy (v : option string) : bool :=
  match v with Some s => String.eqb s "" | None => true end.

(** [Config.validate()] (lines 11-16). *)
Definition validate (c : config) : result unit :=
  if falsy (POLYGON_API_KEY c) then Err ValueError
  else if falsy (TWELVEDATA_API_KEY c) then Err ValueError
  else Ok tt.

(** Importing the module (lines 1-19). *)
Definition import_config (dotenv e : env) : result config :=
  let c := class_body (load_dotenv dotenv e) in
  _ <-? validate c ;; Ok c.

End Config.

Module TwelveData.

(** What [requests.get] returns: a status and a body that may not parse
    as JSON. *)
Record response : Type := mk_response { status_code : Z; body : option jval }.

(** A DataFrame row: a record of cells, an absent key being a missing
    cell. *)
Definition row : Type := list (string * jval).

Definition BASE_URL : string := "https://api.twelvedata.com".

(** [TwelveDataClient()] (lines 8-9): the key or [None]. *)
Record client : Type := mk_client { api_key : jval }.

Definition init (c : Config.config) : client :=
  mk_client (match Config.TWELVEDATA_API_KEY c with Some s => JStr s | None => JNull end).

(** [response.raise_for_status()]: 4xx and 5xx raise [HTTPError]. *)
Definition raise_for_status (r : response) : result unit :=
  if (400 <=? status_code r)%Z && (status_code r <? 600)%Z then Err HTTPError else Ok tt.

(** [response.json()]: a body that does not parse raises a
    [ValueError]. *)
Definition json (r : response) : result jval :=
  match body r with Some v => Ok v | None => Err ValueError end.

(** The query [requests] sends: [None] values are left out. *)
Definition query (params : list (string * jval)) : list (string * jval) :=
  filter (fun kv => match snd kv with JNull => false | _ => true end) params.

Section Client.

Context (http_get : string -> list (string * jval) -> response).

(** [_make_request(endpoint, params)] (lines 11-15), on the caller's
    dict. *)
Definition make_request (cl : client) (endpoint : string) : PyM (list (string * jval)) jval :=
  modify (dict_set String.eqb "apikey" (api_key cl)) ;;;
  params <- get ;;
  let response := http_get (BASE_URL ++ "/" ++ endpoint) (query params) in
  lift (_ <-? raise_for_status response ;; json response).

(** [get_price(symbol)] (lines 17-20). *)
Definition get_price (cl : client) (symbol : string) : result jval :=
  data <-? fst (make_request cl "price" [("symbol", JStr symbol)]) ;;
  subscript data "price".

(** [pd.DataFrame(values)] on a list of records; other inputs go to
    pandas' constructor. *)
Context (dataframe_other : jval -> result (list row)).

Definition records (l : list jval) : option (list row) :=
  fold_right (fun v acc => match v, acc with
                           | JObj r, Some rs => Some (r :: rs)
                           | _, _ => None
                           end) (Some []) l.

Definition dataframe (v : jval) : result (list row) :=
  match v with
  | JArr l => match records l with Some rs => Ok rs | None => dataframe_other v end
  | _ => dataframe_other v
  end.

(** [pd.to_datetime] on one cell; [NaT] is [NaN]. *)
Context (to_datetime : jval -> result fl).

(** [df["datetime"] = pd.to_datetime(df["datetime"])]: the column must
    exist in some row. *)
Definition datetime_column (rows : list row) : result (list fl) :=
  if existsb (fun r => match assoc String.eqb "datetime" r with Some _ => true | None => false end) rows
  then rmap (fun r => match assoc String.eqb "datetime" r with
                      | Some v => to_datetime v
                      | None => Ok NaN
                      end) rows
  else Err KeyError.

Definition drop_datetime (r : row) : row :=
  filter (fun kv => negb (String.eqb (fst kv) "datetime")) r.

(** [df.set_index("datetime").sort_index()]. *)
Definition sort_by_index (keys : list fl) (rows : list row) : list (fl * row) :=
  map (fun i => (nth i keys NaN, drop_datetime (nth i rows []))) (argsort keys).

(** [get_time_series(symbol, interval="1min", outputsize=30)]
    (lines 22-31). *)
Definition get_time_series (cl : client) (symbol interval : string) (outputsize : Z)
  : result (list (fl * row)) :=
  data <-? fst (make_request cl "time_series"
                  [("symbol", JStr symbol); ("interval", JStr interval);
                   ("outputsize", JNum (inject_Z outputsize))]) ;;
  values <-? subscript data "values" ;;
  rows <-? dataframe values ;;
  keys <-? datetime_column rows ;;
  Ok (sort_by_index keys rows).

End Client.

(** ** The module's test case (lines 33-45) *)

(** What the patched [requests.get] returns on every call: [json()]
    gives the configured dict, and [raise_for_status()], a mock method,
    does not raise, as with a success status. *)
Definition mock_get (url : string) (params : list (string * jval)) : response :=
  mk_response 200 (Some (JObj [("price", JStr "150.00")])).

(** [@patch] imports the module part of its target when the test runs;
    patching [requests.get] there patches the shared [requests] module. *)
Definition patch_module : string := "trading_bot.src.twelvedata_client".

(** [TestTwelveDataClient.test_get_price] (lines 36-42); [importable]
    says which modules import. *)
Definition test_get_price (importable : string -> bool) (c : Config.config) : result unit :=
  if importable patch_module then
    price <-? get_price mock_get (init c) "AAPL" ;;
    match price with
    | JStr p => if String.eqb p "150.00" then Ok tt else Err AssertionError
    | _ => Err AssertionError
    end
  else Err ImportError.

End TwelveData.

(** ** Lemmas *)

Lemma assoc_app {V} k (l1 l2 : list (string * V)) :
  assoc String.eqb k (l1 ++ l2)%list =
  match assoc String.eqb k l1 with Some v => Some v | None => assoc String.eqb k l2 end.
Proof.
  induction l1 as [|[k' v'] l1 IH]; [reflexivity |]. simpl.
  destruct (String.eqb k' k); [reflexivity | exact IH].
Qed.

Lemma Sorted_map_impl {A B} (R : A -> A -> Prop) (R' : B -> B -> Prop) (f : A -> B) l :
  (forall x y, R x y -> R' (f x) (f y)) -> Sorted R l -> Sorted R' (map f l).
Proof.
  intros HR HS. induction HS as [|x l HS IH Hhd]; simpl; constructor; [exact IH |].
  destruct Hhd; simpl; constructor. now apply HR.
Qed.

Lemma map_nth_seq_combine {A B} (xs : list A) (ys : list B) dx dy :
  length xs = length ys ->
  map (fun i => (nth i xs dx, nth i ys dy)) (seq 0 (length xs)) = combine xs ys.
Proof.
  revert ys. induction xs as [|x xs IH]; intros [|y ys] H; try discriminate; [reflexivity |].
  simpl. f_equal. rewrite <- seq_shift, map_map. apply IH. simpl in H. lia.
Qed.

Section TimeSeries.
Import TwelveData.

(** [sort_index] returns the rows, without the index column, each once,
    in ascending index order with [NaT] last. *)
Lemma sort_by_index_spec keys rows :
  length keys = length rows ->
  Permutation (sort_by_index keys rows) (combine keys (map drop_datetime rows)) /\
  Sorted (fun a b => sort_le (fst a) (fst b) = true) (sort_by_index keys rows).
Proof.
  intros Hl. unfold sort_by_index. split.
  - rewrite (map_ext _ (fun i => (nth i keys NaN, nth i (map drop_datetime rows) [])));
      [| intros i; change (@nil (string * jval)) with (drop_datetime []) at 2; now rewrite map_nth].
    rewrite <- (map_nth_seq_combine keys (map drop_datetime rows) NaN []) by (now rewrite length_map).
    apply Permutation_map, argsort_perm.
  - eapply Sorted_map_impl; [| apply argsort_sorted]. intros i j [H _]. exact H.
Qed.

End TimeSeries.

(** ** Properties *)

Section DataSourceProps.

(** C26. When [get_time_series] returns, its rows are the records of the
    response, each exactly once and without the ["datetime"] column,
    paired with their parsed timestamps, in ascending timestamp order
    with the unparsable-as-missing ([NaT]) rows last. *)
Theorem time_series_sorted http_get dataframe_other to_datetime cl symbol interval outputsize out :
  TwelveData.get_time_series http_get dataframe_other to_datetime cl symbol interval outputsize = Ok out ->
  Sorted (fun a b => sort_le (fst a) (fst b) = true) out /\
  exists rows keys, TwelveData.datetime_column to_datetime rows = Ok keys /\
    Permutation out (combine keys (map TwelveData.drop_datetime rows)).
Proof.
  unfold TwelveData.get_time_series.
  destruct (fst _) as [data |]; [| discriminate]. cbn [rbind].
  destruct (subscript data "values") as [values |]; [| discriminate]. cbn [rbind].
  destruct (TwelveData.dataframe _ values) as [rows |]; [| discriminate]. cbn [rbind].
  destruct (TwelveData.datetime_column to_datetime rows) as [keys |] eqn:Hk; [| discriminate].
  cbn [rbind]. intros H. inversion H; subst; clear H.
  assert (Hl : length keys = length rows).
  { unfold TwelveData.datetime_column in Hk. destruct (existsb _ _); [| discriminate].
    exact (rmap_length _ _ _ Hk). }
  destruct (sort_by_index_spec keys rows Hl) as [Hp Hs].
  split; [exact Hs | exists rows, keys; split; [exact Hk | exact Hp]].
Qed.

(** Importing [config] succeeds exactly when both API keys are set
    and non-empty, a variable of the environment taking precedence over
    the [.env] file; otherwise it raises [ValueError]. *)
Theorem import_config_env_first dotenv e :
  let pick k := match Config.getenv e k with Some v => Some v | None => Config.getenv dotenv k end in
  Config.import_config dotenv e =
  if Config.falsy (pick "POLYGON_API_KEY") || Config.falsy (pick "TWELVEDATA_API_KEY")
  then Err ValueError
  else Ok (Config.mk_config (pick "POLYGON_API_KEY") (pick "TWELVEDATA_API_KEY")).
Proof.
  cbv zeta. unfold Config.import_config, Config.class_body, Config.getenv, Config.load_dotenv.
  rewrite !assoc_app. unfold Config.validate. cbn [Config.POLYGON_API_KEY Config.TWELVEDATA_API_KEY].
  destruct (Config.falsy _); [reflexivity |]. cbn [orb].
  destruct (Config.falsy _); reflexivity.
Qed.

End DataSourceProps.

(** ** Witnesses *)

(** A server answering the time series of the API's documentation, out
    of order, and a parser of integer timestamps. *)
(** The client passes its unit test whenever the patch target imports,
    whatever the configuration; in the repository the target's module
    does not exist and the test errors with [ImportError]. *)
Lemma test_get_price_outcome importable c :
  TwelveData.test_get_price importable c =
  if importable TwelveData.patch_module then Ok tt else Err ImportError.
Proof. unfold TwelveData.test_get_price. destruct (importable _); reflexivity. Qed.

Definition sample_http (url : string) (params : list (string * jval)) : TwelveData.response :=
  TwelveData.mk_response 200
    (Some (JObj [("values", JArr [JObj [("datetime", JNum 3); ("close", JNum 10)];
                                  JObj [("datetime", JNum 1); ("close", JNum 11)];
                                  JObj [("close", JNum 12)];
                                  JObj [("datetime", JNum 2); ("close", JNum 13)]])])).

Definition sample_to_datetime (v : jval) : result fl :=
  match v with JNum q => Ok (Fin q) | _ => Err ValueError end.

Definition sample_dataframe_other (v : jval) : result (list TwelveData.row) := Err ValueError.

Lemma time_series_sorted_witness :
  exists out,
  TwelveData.get_time_series sample_http sample_dataframe_other sample_to_datetime
    (TwelveData.mk_client (JStr "k")) "ES" "1min" 30 = Ok out /\
  map fst out = [Fin 1; Fin 2; Fin 3; NaN] /\
  Sorted (fun a b => sort_le (fst a) (fst b) = true) out.
Proof.
  eexists. split; [vm_compute; reflexivity |]. split; [vm_compute; reflexivity |].
  apply (proj1 (time_series_sorted sample_http sample_dataframe_other sample_to_datetime
    (TwelveData.mk_client (JStr "k")) "ES" "1min" 30 _ eq_refl)).
Defined.
