(* ===== verification/MarketData.v ===== *)
(** * Market data: the mock data fetcher and the data handler

    [DataFetcher] of [src/FuturesQuant/src/data/data_fetcher.py]. Python's
    [random] module is a generator state [S] with [random()] and
    [_randbelow(n)] as section variables; [uniform(a, b)] is
    [a + (b - a) * random()] and [randint(a, b)] is
    [a + _randbelow(b - a + 1)], as CPython defines them. The clock
    ([datetime.now()], in minutes) and [isoformat] are parameters. The
    generator is threaded through [_generate_mock_data] in the order of
    the calls. Prices are exact rationals: the bounds are those of the
    real computation.

    [DataHandler] of [src/FuturesQuant/core/data_handler.py]: its two
    fetch methods are stubs returning [None]; [subscribe] only logs, but
    the log line joins the symbols, which raises [TypeError] on anything
    but an iterable of strings. *)

From Stdlib Require Import String QArith Qround ZArith List Bool Arith Lia Lqa.
From S2P Require Import Prelude Registry.
Import ListNotations.
Local Open Scope py_scope.
Local Open Scope string_scope.

(** [x in container] for a string [x]. *)
Definition py_in_str (x : string) (container : jval) : result bool :=
  match container with
  | JArr l => Ok (existsb (fun v => match v with JStr s => String.eqb s x | _ => false end) l)
  | JObj l => Ok (existsb (fun kv => String.eqb (fst kv) x) l)
  | JStr s => Ok (match String.index 0 x s with Some _ => true | None => false end)
  | _ => Err TypeError
  end.

Module DataFetcher.

Record fetcher : Type := mk_fetcher { config : jval; data_sources : jval }.

(** [__init__(config=None)] (lines 16-25): [config or {}], then
    [.get("data_sources", ["mock"])]. *)
Definition init (cfg : jval) : result fetcher :=
  let c := if truthy cfg then cfg else JObj [] in
  ds <-? get_default c "data_sources" (JArr [JStr "mock"]) ;;
  Ok (mk_fetcher c ds).

Definition instruments : list string := ["ES"; "NQ"; "CL"; "GC"; "ZB"].

(** The [base_price] dict of lines 57-63 with its default. *)
Definition base_price (instrument : string) : Q :=
  match assoc String.eqb instrument
          [("ES", 5000); ("NQ", 17500); ("CL", 75); ("GC", 2300); ("ZB", 110)]%Q with
  | Some b => b
  | None => 100
  end.

Section Generator.

Context {S : Type}.
Context (random : S -> Q * S).
Context (randbelow : nat -> S -> nat * S).
Context (iso : Z -> string).

(** [random.uniform(a, b)]. *)
Definition uniform (a b : Q) : PyM S Q :=
  fun s => let (r, s') := random s in (Ok (a + (b - a) * r), s').

(** [random.randint(a, b)]. *)
Definition randint (a b : Z) : PyM S Z :=
  fun s => let (n, s') := randbelow (Z.to_nat (b - a + 1)) s in (Ok (a + Z.of_nat n)%Z, s').

(** One pass of the loop of lines 70-76. *)
Definition history_point (now : Z) (base : Q) (i : nat) : PyM S jval :=
  let time_point := (now - Z.of_nat i)%Z in
  u <- uniform (-15 # 1000) (15 # 1000) ;;
  ret (JObj [("timestamp", JStr (iso time_point)); ("price", JNum (base * (1 + u)))])%string.

(** One pass of the loop of lines 55-86. *)
Definition instrument_data (now : Z) (instrument : string) : PyM S (string * jval) :=
  let base := base_price instrument in
  u <- uniform (-1 # 100) (1 # 100) ;;
  history <- mmap (history_point now base) (seq 0 10) ;;
  volume <- randint 1000 5000 ;;
  oi <- randint 10000 50000 ;;
  ret (instrument, JObj [("current_price", JNum (base * (1 + u)));
                         ("price_history", JArr history);
                         ("volume", JNum (inject_Z volume));
                         ("open_interest", JNum (inject_Z oi))])%string.

(** [_generate_mock_data()] (lines 40-89). *)
Definition generate_mock_data (now : Z) : PyM S jval :=
  insts <- mmap (instrument_data now) instruments ;;
  ret (JObj [("timestamp", JStr (iso now)); ("instruments", JObj insts)])%string.

(** [fetch_latest_data()] (lines 27-38): both branches generate mock
    data; the membership test raises on a non-container. *)
Definition fetch_latest_data (f : fetcher) (now : Z) : PyM S jval :=
  is_mock <- lift (py_in_str "mock" (data_sources f)) ;;
  if is_mock then generate_mock_data now else generate_mock_data now.

End Generator.

End DataFetcher.

Module DataHandler.

Record handler : Type := mk_handler { config : jval; data_cache : list (string * jval) }.

(** [__init__(config)] (lines 15-24). *)
Definition init (cfg : jval) : handler := mk_handler cfg [].

(** [get_historical_data] and [get_latest_price] (lines 26-53): the
    bodies are [pass]. *)
Definition get_historical_data (h : handler) (symbol timeframe : string) (bars : Z) : jval := JNull.
Definition get_latest_price (h : handler) (symbol : string) : jval := JNull.

(** [subscribe(symbols)] (lines 55-63): [', '.join(symbols)] in the log
    line. *)
Definition subscribe (h : handler) (symbols : jval) : result unit :=
  items <-? py_iter symbols ;;
  if forallb (fun v => match v with JStr _ => true | _ => false end) items
  then Ok tt else Err TypeError.

End DataHandler.

(** ** The generator never raises *)

Section MockTotal.
Import DataFetcher.
Context {S : Type} (random : S -> Q * S) (randbelow : nat -> S -> nat * S) (iso : Z -> string).

Lemma instrument_data_total now name s :
  exists p s', instrument_data random randbelow iso now name s = (Ok p, s').
Proof.
  unfold instrument_data, bind, uniform, randint. destruct (random s) as [u s1].
  destruct (mmap_total (history_point random iso now (base_price name)) (fun _ _ => True) (seq 0 10)
              (fun i s0 _ => ltac:(unfold history_point, bind, uniform; destruct (random s0);
                                   eexists _, _; split; [reflexivity | exact I])) s1)
    as (hist & s2 & E2 & _).
  rewrite E2. destruct (randbelow _ s2) as [v s3]. destruct (randbelow _ s3) as [o s4].
  eexists _, _. reflexivity.
Qed.

(** [_generate_mock_data()] returns, whatever the generator's state. *)
Lemma generate_mock_data_total now s :
  exists d s', generate_mock_data random randbelow iso now s = (Ok d, s').
Proof.
  unfold generate_mock_data, bind.
  destruct (mmap_total (instrument_data random randbelow iso now) (fun _ _ => True) instruments
              (fun name s0 _ => let '(ex_intro _ p (ex_intro _ s' E)) := instrument_data_total now name s0 in
                                ex_intro _ p (ex_intro _ s' (conj E I))) s) as (insts & s1 & E & _).
  rewrite E. eexists _, _. reflexivity.
Qed.

End MockTotal.

(** ** Bounds of the mock data *)

Section MockBounds.
Import DataFetcher.

Context {S : Type}.
Context (random : S -> Q * S).
Context (randbelow : nat -> S -> nat * S).
Context (iso : Z -> string).

(** [random()] lies in [[0, 1)] and [_randbelow(n)] below [n]. *)
Hypothesis random_range : forall s, 0 <= fst (random s) /\ fst (random s) < 1.
Hypothesis randbelow_range : forall n s, (0 < n)%nat -> (fst (randbelow n s) < n)%nat.

(** A price within [[lo, hi]] times the base price. *)
Definition price_within (lo hi base : Q) (v : jval) : Prop :=
  exists q, v = JNum q /\ lo * base <= q <= hi * base.

Definition int_within (lo hi : Z) (v : jval) : Prop :=
  exists z, v = JNum (inject_Z z) /\ (lo <= z <= hi)%Z.

Definition point_ok (now : Z) (base : Q) (i : nat) (p : jval) : Prop :=
  exists q, p = JObj [("timestamp", JStr (iso (now - Z.of_nat i))); ("price", JNum q)] /\
            price_within (985 # 1000) (1015 # 1000) base (JNum q).

Definition instrument_ok (now : Z) (name : string) (p : string * jval) : Prop :=
  fst p = name /\
  exists c hist vol oi,
    snd p = JObj [("current_price", c); ("price_history", JArr hist); ("volume", vol);
                  ("open_interest", oi)] /\
    price_within (99 # 100) (101 # 100) (base_price name) c /\
    Forall2 (point_ok now (base_price name)) (seq 0 10) hist /\
    int_within 1000 5000 vol /\ int_within 10000 50000 oi.

Lemma uniform_range a b s :
  a <= b -> exists u s', uniform random a b s = (Ok u, s') /\ a <= u <= b.
Proof.
  intros Hab. unfold uniform. destruct (random s) as [r s'] eqn:E.
  pose proof (random_range s) as [H0 H1]. rewrite E in H0, H1. simpl in H0, H1.
  exists (a + (b - a) * r), s'. split; [reflexivity |].
  assert (0 <= (b - a) * r) by (apply Qmult_le_0_compat; lra).
  assert (r * (b - a) <= 1 * (b - a)) by (apply Qmult_le_compat_r; lra).
  lra.
Qed.

Lemma randint_range a b s :
  (a <= b)%Z -> exists z s', randint randbelow a b s = (Ok z, s') /\ (a <= z <= b)%Z.
Proof.
  intros Hab. unfold randint. destruct (randbelow _ s) as [n s'] eqn:E.
  pose proof (randbelow_range (Z.to_nat (b - a + 1)) s ltac:(lia)) as H. rewrite E in H. simpl in H.
  exists (a + Z.of_nat n)%Z, s'. split; [reflexivity | lia].
Qed.

(** [base * (1 + u)] for [u] in [[-d, d]]. *)
Lemma scaled_price base u d :
  0 <= base -> - d <= u <= d -> (1 - d) * base <= base * (1 + u) <= (1 + d) * base.
Proof.
  intros Hb Hu. split.
  - rewrite (Qmult_comm base). apply Qmult_le_compat_r; lra.
  - rewrite (Qmult_comm base). apply Qmult_le_compat_r; lra.
Qed.

Lemma base_price_nonneg name : 0 <= base_price name.
Proof.
  unfold base_price. simpl.
  repeat match goal with |- context [if ?c then _ else _] => destruct c end; discriminate.
Qed.

Lemma history_point_ok now base i s :
  0 <= base -> exists p s', history_point random iso now base i s = (Ok p, s') /\ point_ok now base i p.
Proof.
  intros Hb. unfold history_point, bind.
  destruct (uniform_range (-15 # 1000) (15 # 1000) s) as (u & s1 & E & Hu); [lra |]. rewrite E.
  eexists _, s1. split; [reflexivity |]. eexists. split; [reflexivity |].
  eexists. split; [reflexivity |]. pose proof (scaled_price base u (15 # 1000) Hb Hu). lra.
Qed.

Lemma instrument_data_ok now name s :
  exists p s', instrument_data random randbelow iso now name s = (Ok p, s') /\ instrument_ok now name p.
Proof.
  pose proof (base_price_nonneg name) as Hb. unfold instrument_data, bind.
  destruct (uniform_range (-1 # 100) (1 # 100) s) as (u & s1 & E1 & Hu); [lra |]. rewrite E1.
  destruct (mmap_total (history_point random iso now (base_price name)) (point_ok now (base_price name))
              (seq 0 10) (fun i s _ => history_point_ok now _ i s Hb) s1) as (hist & s2 & E2 & Hh).
  rewrite E2.
  destruct (randint_range 1000 5000 s2) as (vol & s3 & E3 & Hv); [lia |]. rewrite E3.
  destruct (randint_range 10000 50000 s3) as (oi & s4 & E4 & Ho); [lia |]. rewrite E4.
  eexists _, s4. split; [reflexivity |]. split; [reflexivity |].
  do 4 eexists. split; [reflexivity |].
  split; [eexists; split; [reflexivity |]; pose proof (scaled_price _ u (1 # 100) Hb Hu); lra |].
  split; [exact Hh |]. split; eexists; split; (reflexivity || lia).
Qed.

(** C27. Whatever the generator's state, [_generate_mock_data] returns a
    dict with the timestamp and one entry per instrument, in the order
    ES, NQ, CL, GC, ZB; each current price lies within 1% of the
    instrument's base price, each of the ten history prices within 1.5%
    and stamped [now - i] minutes, the volume in [[1000, 5000]] and the
    open interest in [[10000, 50000]]. *)
Theorem mock_data_bounds now s :
  exists insts s',
    generate_mock_data random randbelow iso now s =
      (Ok (JObj [("timestamp", JStr (iso now)); ("instruments", JObj insts)]), s') /\
    Forall2 (instrument_ok now) instruments insts.
Proof.
  unfold generate_mock_data, bind.
  destruct (mmap_total (instrument_data random randbelow iso now) (instrument_ok now) instruments
              (fun name s _ => instrument_data_ok now name s) s) as (insts & s1 & E & H).
  rewrite E. exists insts, s1. split; [reflexivity | exact H].
Qed.

End MockBounds.

(** ** Witnesses *)

(** A generator on [Z]: a linear congruential step, [random()] the last
    three digits over 1000. *)
Definition sample_next (s : Z) : Z := (s * 1103515245 + 12345) mod 2147483648.
Definition sample_random (s : Z) : Q * Z := ((s mod 1000) # 1000, sample_next s).
Definition sample_randbelow (n : nat) (s : Z) : nat * Z :=
  (Z.to_nat (s mod Z.of_nat n), sample_next s).
Definition sample_iso (t : Z) : string := "t".

Lemma mock_data_bounds_witness :
  (forall s, 0 <= fst (sample_random s) /\ fst (sample_random s) < 1) /\
  (forall n s, (0 < n)%nat -> (fst (sample_randbelow n s) < n)%nat) /\
  exists insts s',
    DataFetcher.generate_mock_data sample_random sample_randbelow sample_iso 0%Z 7%Z =
      (Ok (JObj [("timestamp", JStr "t"); ("instruments", JObj insts)]), s') /\
    Forall2 (instrument_ok sample_iso 0%Z) DataFetcher.instruments insts.
Proof.
  assert (Hr : forall s, 0 <= fst (sample_random s) /\ fst (sample_random s) < 1).
  { intros s. unfold sample_random, Qle, Qlt. simpl. pose proof (Z.mod_pos_bound s 1000). lia. }
  assert (Hb : forall n s, (0 < n)%nat -> (fst (sample_randbelow n s) < n)%nat).
  { intros n s Hn. unfold sample_randbelow. simpl. pose proof (Z.mod_pos_bound s (Z.of_nat n)). lia. }
  split; [exact Hr |]. split; [exact Hb |].
  exact (mock_data_bounds sample_random sample_randbelow sample_iso Hr Hb 0%Z 7%Z).
Defined.
