(* ===== verification/CopilotMain.v ===== *)
(** * The copilot entry point

    [main()] of [src/FuturesQuant/FuturesQuantCopilotFiles/main.py]
    (lines 19-43): a [DataFetcher], a fresh [SignalAgent], a portfolio
    manager and a trading strategy, then one pass of fetch, signal,
    decide, trade, with the two [len] calls of the log lines. The
    portfolio manager and the trading strategy come from modules that
    are not in the repository; their methods are section variables. The
    generator state of [MarketData] is threaded through. An exception is
    logged and re-raised, so it is the result of [main]. Run as a
    script, the module first imports its four dependencies; two of them
    are not in the repository. *)

From Stdlib Require Import String QArith ZArith List.
From S2P Require Import Prelude Registry Agents MarketData.
Import ListNotations.
Local Open Scope py_scope.

Module CopilotMain.

Section Main.

Context {S : Type}.
Context (random : S -> Q * S) (randbelow : nat -> S -> nat * S) (iso : Z -> string) (now : Z).
Context {model D T : Type}.
Context (predict : model -> jval -> result (pyiter jval)).
Context (make_decisions : list jval -> result D).
Context (execute_trades : D -> result (pyiter T)).

(** [main()] (lines 19-43). *)
Definition main : PyM S unit :=
  data_fetcher <- lift (DataFetcher.init JNull) ;;
  let signal_agent := @SignalAgent.init model JNull in
  market_data <- DataFetcher.fetch_latest_data random randbelow iso data_fetcher now ;;
  let signals := SignalAgent.generate_signals predict signal_agent market_data in
  decisions <- lift (make_decisions signals) ;;
  trades <- lift (execute_trades decisions) ;;
  _ <- lift (py_len (PyList signals)) ;;
  _ <- lift (py_len trades) ;;
  ret tt.

(** The pass after the signals, on a given list of signals. *)
Definition decide_and_trade (signals : list jval) : result unit :=
  decisions <-? make_decisions signals ;;
  trades <-? execute_trades decisions ;;
  _ <-? py_len trades ;;
  Ok tt.

(** The module's imports (lines 7-10), in order. *)
Definition imports : list string :=
  ["src.agents.signal_agent"; "src.agents.portfolio_manager"; "src.data.data_fetcher";
   "src.strategies.trading_strategy"]%string.

(** Running [main.py] as a script (lines 7-10 and 45-46): a module that
    does not import raises [ImportError] ([ModuleNotFoundError]) before
    [main] runs. [importable] says which modules import. *)
Definition run_script (importable : string -> bool) : PyM S unit :=
  if forallb importable imports then main else raise ImportError.

End Main.

End CopilotMain.

(** ** Properties *)

Section MainProps.
Import CopilotMain.

Context {S : Type}.
Context (random : S -> Q * S) (randbelow : nat -> S -> nat * S) (iso : Z -> string) (now : Z).
Context {model D T : Type}.
Context (predict : model -> jval -> result (pyiter jval)).
Context (make_decisions : list jval -> result D).
Context (execute_trades : D -> result (pyiter T)).

(** The signal agent [main] builds has no model, so whatever the
    market data, the portfolio manager always decides on the empty list
    of signals: [main]'s outcome is that of deciding and trading on [[]],
    for every state of the generator. *)
Theorem main_decides_on_no_signals s :
  fst (main random randbelow iso now predict make_decisions execute_trades s) =
  decide_and_trade make_decisions execute_trades [].
Proof.
  destruct (generate_mock_data_total random randbelow iso now s) as (md & s1 & Hg).
  unfold main, decide_and_trade, bind, lift, ret. cbn -[DataFetcher.generate_mock_data].
  rewrite Hg. cbn.
  destruct (make_decisions []) as [d | e]; cbn; [| reflexivity].
  destruct (execute_trades d) as [t | e]; cbn; [| reflexivity].
  destruct (py_len t); reflexivity.
Qed.

End MainProps.
