(* ===== verification/ComputationEngine.v ===== *)
(** * The Python computation engine

    [ComputationEngine] of [src/src/computation/python/engine.py]. The
    file as committed does not parse: the class header (line 23) and the
    first line of [__init__] (line 26) are garbled, and JavaScript follows
    the entry point. The methods' bodies are intact, and this file models
    them as written, with [__init__] setting [port], [models] and
    [data_cache] (lines 25-29).

    The engine's state is the record [engine]; the message handlers are
    [PyM engine] computations. The model plug-ins are loaded from a
    [models] package that is not in the repository: [importlib], the
    module's class attribute, the model's constructor and its methods are
    section variables, and a model's methods may mutate it, which the
    cached object shows ([call_model]). [pd.DataFrame], [json.loads],
    [json.dumps], [str(value)] and [str(exception)] are section variables
    too. [start] is an interaction tree over the websocket calls: an
    [async with] around a [while True] loop, written with [ITree.iter].
    The websocket calls that may raise answer with a [result]. Logging is
    not modelled.

    Strings are Python [str] values whose characters are ASCII:
    [py_lower] and [py_capitalize] change the case of ASCII letters only. *)

From ITree Require Import ITree ITreeFacts Events.Exception Props.Leaf Props.HasPost.
From Stdlib Require Import String Ascii QArith ZArith List Bool Lia Lqa Btauto DecimalString.
From S2P Require Import Prelude Registry Interaction.
Import ListNotations.
Local Open Scope string_scope.
Local Open Scope py_scope.

(** ** Python strings and hashable keys *)

Definition ascii_lower (c : ascii) : ascii :=
  let n := nat_of_ascii c in
  if ((65 <=? n) && (n <=? 90))%nat then ascii_of_nat (n + 32) else c.

Definition ascii_upper (c : ascii) : ascii :=
  let n := nat_of_ascii c in
  if ((97 <=? n) && (n <=? 122))%nat then ascii_of_nat (n - 32) else c.

(** [s.lower()]. *)
Fixpoint py_lower (s : string) : string :=
  match s with
  | EmptyString => EmptyString
  | String c s' => String (ascii_lower c) (py_lower s')
  end.

(** [s.capitalize()]: the first character upper case, the rest lower. *)
Definition py_capitalize (s : string) : string :=
  match s with
  | EmptyString => EmptyString
  | String c s' => String (ascii_upper c) (py_lower s')
  end.

(** [s.replace(a, b)] for one-character [a] and [b]. *)
Fixpoint py_replace_char (a b : ascii) (s : string) : string :=
  match s with
  | EmptyString => EmptyString
  | String c s' => String (if Ascii.eqb c a then b else c) (py_replace_char a b s')
  end.

(** The numeric value of a [bool], [int] or [float]. *)
Definition num_of (v : jval) : option Q :=
  match v with
  | JNum q => Some q
  | JBool b => Some (if b then 1 else 0)%Q
  | _ => None
  end.

(** Key equality of a dict: [True == 1 == 1.0], a string equals only a
    string, [None] only [None]. *)
Definition py_key_eqb (a b : jval) : bool :=
  match a, b with
  | JStr x, JStr y => String.eqb x y
  | JNull, JNull => true
  | _, _ => match num_of a, num_of b with Some x, Some y => Qeq_bool x y | _, _ => false end
  end.

(** [v == "literal"]. *)
Definition py_eq_str (v : jval) (s : string) : bool :=
  match v with JStr x => String.eqb x s | _ => false end.

(** [v > c] for a float literal [c]: a [bool] compares as [0] or [1],
    anything else but a number raises [TypeError]. *)
Definition py_gt_q (v : jval) (c : Q) : result bool :=
  match num_of v with Some q => Ok (Qltb c q) | None => Err TypeError end.

(** [k in d] / [d.get(k)] on a dict with arbitrary keys. *)
Definition dict_lookup {V} (k : jval) (d : list (jval * V)) : result (option V) :=
  if hashable k then Ok (assoc py_key_eqb k d) else Err TypeError.

(** [d[k] = v] for a hashable [k]: an equal key keeps its place and its
    original object. *)
Fixpoint dict_store {V} (k : jval) (v : V) (d : list (jval * V)) : list (jval * V) :=
  match d with
  | [] => [(k, v)]
  | (k', v') :: d' => if py_key_eqb k' k then (k', v) :: d' else (k', v') :: dict_store k v d'
  end.

Definition setitem {V} (k : jval) (v : V) (d : list (jval * V)) : result (list (jval * V)) :=
  if hashable k then Ok (dict_store k v d) else Err TypeError.

(** ** Lemmas on dicts *)

Lemma py_key_eqb_refl k : hashable k = true -> py_key_eqb k k = true.
Proof. destruct k; simpl; intros H; try discriminate; auto using String.eqb_refl; apply Qeq_bool_refl. Qed.

Lemma assoc_dict_store_same {V} k (v : V) d :
  hashable k = true -> assoc py_key_eqb k (dict_store k v d) = Some v.
Proof.
  intros Hk. induction d as [|[k' v'] d IH]; simpl; [now rewrite py_key_eqb_refl |].
  destruct (py_key_eqb k' k) eqn:E; simpl; rewrite E; [reflexivity | exact IH].
Qed.

(** ** The websocket calls *)

Variant wsE : Type -> Type :=
| Connect (uri : string) : wsE (result unit)
| Send (msg : string) : wsE (result unit)
| Recv : wsE (result string)
| Now : wsE string
| Close : wsE unit.

Definition E : Type -> Type := exceptE py_error +' wsE.

(** ** Running a tree against the integration server *)

(** The calls as a log. *)
Inductive call_rec : Type :=
| RConnect (uri : string)
| RSend (msg : string)
| RRecv
| RNow
| RClose.

Definition record_of {X} (e : wsE X) : call_rec :=
  match e with
  | Connect u => RConnect u
  | Send m => RSend m
  | Recv => RRecv
  | Now => RNow
  | Close => RClose
  end.

(** At most [fuel] steps of a tree against a server with state [St]: the
    calls made and the outcome, [None] when the fuel runs out. *)
Fixpoint run {St R} (h : forall X, wsE X -> St -> X * St) (fuel : nat) (s : St) (t : itree E R)
  : list call_rec * option (result R) :=
  match fuel with
  | O => ([], None)
  | Datatypes.S f =>
      match observe t with
      | RetF r => ([], Some (Ok r))
      | TauF t' => run h f s t'
      | VisF (inl1 (Throw e)) _ => ([], Some (Err e))
      | VisF (inr1 ev) k =>
          let (x, s') := h _ ev s in
          let (tr, o) := run h f s' (k x) in (record_of ev :: tr, o)
      end
  end.

(** A server that sends the messages of its inbox in order (a closed
    socket, an [Err], once it is empty), accepts every message, and whose
    clock reads [ts]. *)
Definition server (ts : string) (X : Type) (e : wsE X)
  : list (result string) -> X * list (result string) :=
  match e in wsE X return list (result string) -> X * list (result string) with
  | Recv => fun s => match s with r :: s' => (r, s') | [] => (Err ValueError, []) end
  | Send _ => fun s => (Ok tt, s)
  | Now => fun s => (ts, s)
  | Connect _ => fun s => (Ok tt, s)
  | Close => fun s => (tt, s)
  end.

(** The messages a log shows sent. *)
Definition sends (tr : list call_rec) : list string :=
  flat_map (fun c => match c with RSend m => [m] | _ => [] end) tr.

Module ComputationEngine.

Section Engine.

Context {Mod Cls Model DF : Type}.
(** [importlib.import_module(path)], [getattr(module, name)] and
    [model_class()]. *)
Context (import_module : string -> result Mod).
Context (getattr : Mod -> string -> result Cls).
Context (instantiate : Cls -> result Model).
(** [from models.generic import GenericModel; GenericModel()]. *)
Context (generic_model : result Model).
(** [model.process(symbol, values)], [model.run] on the unpacked [params] and
    [model.get_info()], which may mutate the model. *)
Context (model_process : Model -> jval -> jval -> result jval * Model).
Context (model_run : Model -> list (string * jval) -> result jval * Model).
Context (model_get_info : Model -> result jval * Model).
Context (dataframe : jval -> result DF).
Context (py_str : jval -> string).
Context (err_str : py_error -> string).
Context (json_loads : string -> result jval).
Context (json_dumps : jval -> string).

(** The attributes of [__init__(port=8081)] (lines 24-29). *)
Record engine : Type := mk_engine {
  port : Z;
  models : list (jval * Model);
  data_cache : list (jval * DF)
}.

Definition init (p : Z) : engine := mk_engine p [] [].

Definition set_models (ms : list (jval * Model)) (e : engine) : engine :=
  mk_engine (port e) ms (data_cache e).
Definition set_data_cache (dc : list (jval * DF)) (e : engine) : engine :=
  mk_engine (port e) (models e) dc.

Definition error_dict (msg : string) : jval :=
  JObj [("status", JStr "error"); ("message", JStr msg)].

(** A method call on a model. The cache holds the object itself, so a
    model cached under [origin] shows the mutation. *)
Definition call_model {A} (origin : option jval) (m : Model) (f : Model -> result A * Model)
  : PyM engine A :=
  let (r, m') := f m in
  (match origin with
   | Some k => modify (fun e => set_models (dict_store k m' (models e)) e)
   | None => ret tt
   end) ;;;
  lift r.

(** [_get_model(model_name)] (lines 171-187): the cache first; otherwise
    import [models.<name>], read its [<Name>Model] class, instantiate it
    and cache it. The [except] clause logs and re-raises. *)
Definition get_model (model_name : jval) : PyM engine Model :=
  e <- get ;;
  cached <- lift (dict_lookup model_name (models e)) ;;
  match cached with
  | Some m => ret m
  | None =>
      module <- lift (import_module ("models." ++ py_str model_name)) ;;
      cls_name <- lift (match model_name with
                        | JStr s => Ok (py_capitalize s ++ "Model")
                        | _ => Err AttributeError
                        end) ;;
      model_class <- lift (getattr module cls_name) ;;
      model <- lift (instantiate model_class) ;;
      modify (fun e => set_models (dict_store model_name model (models e)) e) ;;;
      ret model
  end.

(** [_get_model_for_indicator(indicator_name)] (lines 161-169): only an
    [ImportError] falls back to a fresh [GenericModel], which is not
    cached. The model comes with the key it is cached under. *)
Definition get_model_for_indicator (indicator_name : jval) : PyM engine (option jval * Model) :=
  name <- lift (match indicator_name with
                | JStr s => Ok (JStr (py_replace_char " " "_" (py_lower s)))
                | _ => Err AttributeError
                end) ;;
  py_try (m <- get_model name ;; ret (Some name, m))
         (fun err => match err with
                     | ImportError => m <- lift generic_model ;; ret (None, m)
                     | _ => raise err
                     end).

(** [_calculate_position_size(symbol, result)] (lines 189-200). *)
Definition calculate_position_size (symbol res : jval) : result jval :=
  confidence <-? get_default res "confidence" (JNum (1 # 2)) ;;
  hi <-? py_gt_q confidence (4 # 5) ;;
  if hi then Ok (JNum 1) else
  mid <-? py_gt_q confidence (3 # 5) ;;
  Ok (JNum (if mid then 1 # 2 else 1 # 4)).

(** [process_alert(alert)] (lines 86-116): every exception becomes an
    error dict. *)
Definition process_alert (alert : jval) : PyM engine jval :=
  py_try
    (indicator <- lift (get_default alert "indicator" JNull) ;;
     symbol <- lift (get_default alert "ticker" JNull) ;;
     values <- lift (get_default alert "values" (JObj [])) ;;
     om <- get_model_for_indicator indicator ;;
     res <- call_model (fst om) (snd om) (fun m => model_process m symbol values) ;;
     sig <- lift (get_default res "signal" JNull) ;;
     if truthy sig then
       action <- lift (subscript res "signal") ;;
       quantity <- lift (calculate_position_size symbol res) ;;
       price <- lift (get_default res "price" JNull) ;;
       confidence <- lift (get_default res "confidence" (JNum (1 # 2))) ;;
       ret (JObj [("type", JStr "signal"); ("symbol", symbol); ("action", action);
                  ("quantity", quantity); ("price", price); ("confidence", confidence);
                  ("source", indicator)])
     else ret (JObj [("status", JStr "processed"); ("no_signal", JBool true)]))
    (fun err => ret (error_dict (err_str err))).

(** [process_market_data(data)] (lines 118-132): no [try]. *)
Definition process_market_data (data : jval) : PyM engine jval :=
  symbol <- lift (get_default data "symbol" JNull) ;;
  bars <- lift (get_default data "bars" JNull) ;;
  if negb (truthy symbol) || negb (truthy bars) then ret (error_dict "Missing symbol or data") else
  df <- lift (dataframe bars) ;;
  e <- get ;;
  cache <- lift (setitem symbol df (data_cache e)) ;;
  put (set_data_cache cache e) ;;;
  ret (JObj [("status", JStr "success"); ("message", JStr ("Cached data for " ++ py_str symbol))]).

(** [process_model_request(request)] (lines 134-159): the model is
    loaded before the action is looked at. *)
Definition process_model_request (request : jval) : PyM engine jval :=
  model_name <- lift (get_default request "model" JNull) ;;
  action <- lift (get_default request "action" JNull) ;;
  params <- lift (get_default request "params" (JObj [])) ;;
  if negb (truthy model_name) || negb (truthy action)
  then ret (error_dict "Missing model name or action") else
  py_try
    (model <- get_model model_name ;;
     if py_eq_str action "run" then
       kwargs <- lift (match params with JObj l => Ok l | _ => Err TypeError end) ;;
       res <- call_model (Some model_name) model (fun m => model_run m kwargs) ;;
       ret (JObj [("status", JStr "success"); ("result", res)])
     else if py_eq_str action "info" then
       info <- call_model (Some model_name) model model_get_info ;;
       ret (JObj [("status", JStr "success"); ("info", info)])
     else ret (error_dict ("Unknown action: " ++ py_str action)))
    (fun err => ret (error_dict (err_str err))).

(** [process_message(message)] (lines 69-84); [None] is [JNull]. *)
Definition process_message (message : jval) : PyM engine jval :=
  message_type <- lift (get_default message "type" JNull) ;;
  if py_eq_str message_type "alert" then process_alert message
  else if py_eq_str message_type "market_data" then process_market_data message
  else if py_eq_str message_type "model_request" then process_model_request message
  else ret JNull.

Local Open Scope ib_scope.

(** The [try] body of the [while True] loop of [start] (lines 52-67)
    after [recv()] answered [m]: every exception is logged and the loop
    goes on; the state the handlers reached is kept. *)
Definition handle_recv (e : engine) (m : result string) : itree E (engine + unit) :=
  match m with
  | Err _ => Ret (inl e)
  | Ok message =>
      match json_loads message with
      | Err _ => Ret (inl e)
      | Ok data =>
          let (r, e') := process_message data e in
          match r with
          | Ok res =>
              if truthy res then
                ts <~ trigger Now ;;
                trigger (Send (json_dumps (JObj [("type", JStr "result"); ("data", res);
                                                  ("timestamp", JStr ts)]))) ~;;
                Ret (inl e')
              else Ret (inl e')
          | Err _ => Ret (inl e')
          end
      end
  end.

(** One pass of the loop (lines 48-67). *)
Definition loop_body (e : engine) : itree E (engine + unit) :=
  m <~ trigger Recv ;; handle_recv e m.

(** [uri] (line 33). *)
Definition ws_uri (e : engine) : string := "ws://localhost:" ++ str_of_int (port e).

(** The status message of lines 40-45, when the clock reads [ts]. *)
Definition status_msg (ts : string) : string :=
  json_dumps (JObj [("type", JStr "status"); ("status", JStr "connected");
                    ("engine", JStr "python"); ("timestamp", JStr ts)]).

(** [start()] (lines 31-67): connect, announce, then loop. An exception
    before the loop leaves the [async with], which closes the socket. *)
Definition start (e : engine) : itree E unit :=
  c <~ trigger (Connect (ws_uri e)) ;;
  match c with
  | Err err => throw err
  | Ok _ =>
      ts <~ trigger Now ;;
      s <~ trigger (Send (status_msg ts)) ;;
      match s with
      | Err err => trigger Close ~;; throw err
      | Ok _ => ITree.iter loop_body e
      end
  end.

(** What one pass of the loop answers to what [recv()] gave, when the
    clock reads [ts], and the engine after it. *)
Definition reply (ts : string) (e : engine) (r : result string) : option string * engine :=
  match r with
  | Err _ => (None, e)
  | Ok message =>
      match json_loads message with
      | Err _ => (None, e)
      | Ok data =>
          let (res, e') := process_message data e in
          match res with
          | Ok v =>
              (if truthy v
               then Some (json_dumps (JObj [("type", JStr "result"); ("data", v); ("timestamp", JStr ts)]))
               else None, e')
          | Err _ => (None, e')
          end
      end
  end.

(** The replies to an inbox, message by message, and the final engine. *)
Fixpoint replies (ts : string) (e : engine) (inbox : list (result string)) : list string * engine :=
  match inbox with
  | [] => ([], e)
  | r :: rest =>
      let (out, e1) := reply ts e r in
      let (ms, e2) := replies ts e1 rest in
      (match out with Some m => m :: ms | None => ms end, e2)
  end.

Lemma process_alert_ok alert s : exists a, fst (process_alert alert s) = Ok a.
Proof. apply py_try_ret_ok. Qed.

Lemma process_model_request_ok l s : exists a, fst (process_model_request (JObj l) s) = Ok a.
Proof.
  unfold process_model_request. py_unfold. simpl.
  destruct (_ || _); [eexists; reflexivity | apply py_try_ret_ok].
Qed.

(** ** Properties *)

(** C29. [process_message] raises only on a message that is not a dict
    ([AttributeError] from [message.get]) or on a [market_data] message,
    and there only when [pd.DataFrame] rejects the bars or the symbol is
    unhashable: alerts and model requests turn every error into a reply. *)
Theorem process_message_raises message e err :
  fst (process_message message e) = Err err ->
  (err = AttributeError /\ forall l, message <> JObj l) \/
  (exists l, message = JObj l /\ assoc String.eqb "type" l = Some (JStr "market_data") /\
     ((exists bars, assoc String.eqb "bars" l = Some bars /\ dataframe bars = Err err) \/
      (err = TypeError /\ exists symbol, assoc String.eqb "symbol" l = Some symbol /\
                                         hashable symbol = false))).
Proof.
  unfold process_message. py_unfold.
  destruct message as [| | | | |l]; simpl; intros H;
    try (left; split; [congruence | discriminate]).
  right. exists l. split; [reflexivity |].
  destruct (py_eq_str _ "alert").
  { destruct (process_alert_ok (JObj l) e) as [a Ha]. congruence. }
  destruct (py_eq_str _ "market_data") eqn:Hm; cycle 1.
  { destruct (py_eq_str _ "model_request"); [| discriminate].
    destruct (process_model_request_ok l e) as [a Ha]. congruence. }
  destruct (assoc String.eqb "type" l) as [[t| | | | |]|]; simpl in Hm; try discriminate.
  apply String.eqb_eq in Hm. subst t. split; [reflexivity |].
  revert H. unfold process_market_data. py_unfold. simpl.
  destruct (assoc String.eqb "symbol" l) as [sym|], (assoc String.eqb "bars" l) as [bars|];
    simpl; try (rewrite orb_true_r; discriminate); try discriminate.
  destruct (_ || _); [discriminate |].
  destruct (dataframe bars) eqn:Hd; simpl; [| intros H; inversion H; subst; eauto].
  unfold setitem. destruct (hashable sym) eqn:Hh; simpl; [discriminate |].
  intros H. inversion H. eauto.
Qed.

(** The value of [d.get(key, default)] on a dict literal. *)
Definition field (l : list (string * jval)) (key : string) (dflt : jval) : jval :=
  match assoc String.eqb key l with Some v => v | None => dflt end.

(** C32. An alert for a cached model whose [process] returns a dict with
    a truthy ["signal"] is answered with the signal dict: the action is
    the signal, the quantity the position size, the price and the
    confidence read from the model's result, the source the indicator;
    the model's mutation stays in the cache. *)
Theorem alert_signal_reply l s e m m' rl sig q :
  let name := JStr (py_replace_char " " "_" (py_lower s)) in
  let symbol := field l "ticker" JNull in
  assoc String.eqb "indicator" l = Some (JStr s) ->
  assoc py_key_eqb name (models e) = Some m ->
  model_process m symbol (field l "values" (JObj [])) = (Ok (JObj rl), m') ->
  assoc String.eqb "signal" rl = Some sig -> truthy sig = true ->
  calculate_position_size symbol (JObj rl) = Ok q ->
  process_alert (JObj l) e =
  (Ok (JObj [("type", JStr "signal"); ("symbol", symbol); ("action", sig); ("quantity", q);
             ("price", field rl "price" JNull); ("confidence", field rl "confidence" (JNum (1 # 2)));
             ("source", JStr s)]),
   set_models (dict_store name m' (models e)) e).
Proof.
  intros name symbol Hi Hc Hp Hs Ht Hq. unfold symbol, field in *.
  unfold process_alert, get_model_for_indicator, get_model, call_model, dict_lookup, py_try.
  py_unfold. cbn -[py_lower py_replace_char]. rewrite Hi. cbn -[py_lower py_replace_char].
  fold name. rewrite Hc. cbn -[py_lower py_replace_char].
  rewrite Hp. unfold get_default, subscript. rewrite Hs, Ht, Hq. reflexivity.
Qed.

(** The position size is a quarter, a half or a whole position,
    and it does not decrease when the confidence grows. *)
Theorem position_size_tiers symbol c1 c2 :
  c1 <= c2 ->
  exists q1 q2,
    calculate_position_size symbol (JObj [("confidence", JNum c1)]) = Ok (JNum q1) /\
    calculate_position_size symbol (JObj [("confidence", JNum c2)]) = Ok (JNum q2) /\
    1 # 4 <= q1 <= q2 /\ q2 <= 1.
Proof.
  intros Hc. unfold calculate_position_size, py_gt_q. simpl.
  destruct (Qltb (4 # 5) c1) eqn:A1, (Qltb (4 # 5) c2) eqn:A2,
           (Qltb (3 # 5) c1) eqn:B1, (Qltb (3 # 5) c2) eqn:B2; simpl;
    eexists _, _; (split; [reflexivity | split; [reflexivity |]]);
    rewrite ?Qltb_iff, ?Qltb_false in *; lra.
Qed.

(** C31. An alert falls back to a fresh [GenericModel] only when
    importing [models.<indicator>] raises [ImportError]; when the module
    exists but has no [<Indicator>Model] class, the [AttributeError]
    propagates and nothing is cached. *)
Theorem indicator_fallback_import_only s e :
  let n := py_replace_char " " "_" (py_lower s) in
  assoc py_key_eqb (JStr n) (models e) = None ->
  (import_module ("models." ++ py_str (JStr n)) = Err ImportError ->
     get_model_for_indicator (JStr s) e =
     (match generic_model with Ok g => Ok (None, g) | Err err => Err err end, e)) /\
  (forall module, import_module ("models." ++ py_str (JStr n)) = Ok module ->
     getattr module (py_capitalize n ++ "Model") = Err AttributeError ->
     get_model_for_indicator (JStr s) e = (Err AttributeError, e)).
Proof.
  intros n Hc. unfold get_model_for_indicator, get_model, dict_lookup, py_try. py_unfold.
  cbn -[py_lower py_replace_char py_capitalize]. fold n. rewrite Hc.
  split; [intros Hi | intros module Hi Ha]; rewrite Hi; [now destruct generic_model |].
  cbn -[py_capitalize]. now rewrite Ha.
Qed.

(** A model request loads the model before it looks at the action: with
    an action other than [run] and [info], a model that fails to load is
    reported as the load error, and one that loads is cached although
    the request is refused. *)
Lemma model_request_loads_first l e name action :
  assoc String.eqb "model" l = Some name -> truthy name = true ->
  assoc String.eqb "action" l = Some action -> truthy action = true ->
  py_eq_str action "run" = false -> py_eq_str action "info" = false ->
  process_model_request (JObj l) e =
  match get_model name e with
  | (Ok _, e') => (Ok (error_dict ("Unknown action: " ++ py_str action)), e')
  | (Err err, e') => (Ok (error_dict (err_str err)), e')
  end.
Proof.
  intros Hn Htn Ha Hta Hr Hi. unfold process_model_request, py_try. py_unfold. simpl.
  rewrite Hn, Ha, Htn, Hta. simpl.
  destruct (get_model name e) as [[m|err] e']; simpl; [rewrite Hr, Hi |]; reflexivity.
Qed.

(** ** The loop against a server *)

Ltac close_run :=
  match goal with |- context [run ?h ?f ?s ?t] => destruct (run h f s t); reflexivity end.

(** Reduce a fuelled run through the loop's binds, using what the
    hypotheses say of [json.loads], the handler and the truth test. *)
Ltac pass_tac :=
  do 6 (cbn -[process_message];
        rewrite ?observe_subst;
        repeat match goal with H : _ = _ |- _ => rewrite H end);
  cbn; close_run.

Lemma run_idle ts f e :
  run (server ts) (S (S f)) [] (ITree.iter loop_body e) =
  let (tr, o) := run (server ts) f [] (ITree.iter loop_body e) in (RRecv :: tr, o).
Proof. cbn. close_run. Qed.

Lemma run_pass_quiet ts f e r rest e' :
  reply ts e r = (None, e') ->
  run (server ts) (S (S f)) (r :: rest) (ITree.iter loop_body e) =
  let (tr, o) := run (server ts) f rest (ITree.iter loop_body e') in (RRecv :: tr, o).
Proof.
  unfold reply. intros H.
  destruct r as [message|err]; [| inversion H; subst; cbn; close_run].
  destruct (json_loads message) as [data|err] eqn:Hj; [| inversion H; subst; clear H; pass_tac].
  destruct (process_message data e) as [[v|err] e1] eqn:Hp;
    [destruct (truthy v) eqn:Ht |]; inversion H; subst; clear H; pass_tac.
Qed.

Lemma run_pass_send ts f e r rest m e' :
  reply ts e r = (Some m, e') ->
  run (server ts) (S (S (S (S f)))) (r :: rest) (ITree.iter loop_body e) =
  let (tr, o) := run (server ts) f rest (ITree.iter loop_body e') in
  (RRecv :: RNow :: RSend m :: tr, o).
Proof.
  unfold reply. intros H.
  destruct r as [message|err]; [| discriminate].
  destruct (json_loads message) as [data|err] eqn:Hj; [| discriminate].
  destruct (process_message data e) as [[v|err] e1] eqn:Hp;
    [destruct (truthy v) eqn:Ht |]; inversion H; subst; clear H; pass_tac.
Qed.

Lemma run_idle_silent ts fuel e :
  sends (fst (run (server ts) fuel [] (ITree.iter loop_body e))) = [] /\
  snd (run (server ts) fuel [] (ITree.iter loop_body e)) = None.
Proof.
  induction fuel as [fuel IH] using lt_wf_ind.
  destruct fuel as [|[|f]]; [split; reflexivity | split; reflexivity |].
  rewrite run_idle. destruct (IH f ltac:(lia)) as [H1 H2].
  destruct (run (server ts) f [] _) as [tr o]. simpl in *. now split.
Qed.

(** What a pass leaves to run after [recv()]: the next pass at once, or
    a clock read and one send first. *)
Lemma handle_recv_shape e m :
  (exists e', handle_recv e m = Ret (inl e')) \/
  (exists (msg : string -> string) e',
     handle_recv e m = (ts <~ trigger Now ;; trigger (Send (msg ts)) ~;; Ret (inl e'))).
Proof.
  unfold handle_recv. destruct m as [message|]; [| eauto].
  destruct (json_loads message) as [data|]; [| eauto].
  destruct (process_message data e) as [[res|] e']; [| eauto].
  destruct (truthy res); [right | eauto].
  exists (fun ts => json_dumps (JObj [("type", JStr "result"); ("data", res); ("timestamp", JStr ts)])), e'.
  reflexivity.
Qed.

Lemma run_subst_ret {St T U R} (h : forall X, wsE X -> St -> X * St) f s
    (k : T -> itree E U) (k2 : U -> itree E R) (x : T) :
  run h f s (ITree.subst k2 (ITree.subst k (Ret x))) = run h f s (ITree.subst k2 (k x)).
Proof. destruct f; reflexivity. Qed.

Lemma run_subst_ret1 {St T R} (h : forall X, wsE X -> St -> X * St) f s
    (k : T -> itree E R) (x : T) :
  run h f s (ITree.subst k (Ret x)) = run h f s (k x).
Proof. destruct f; reflexivity. Qed.

(** The events of a [trigger] are injected by [resum]; name them. *)
Ltac unresum :=
  repeat match goal with |- context [resum IFun ?X ?ev] => change (resum IFun X ev) with ev end.

(** Run one event of a tree against [h], whatever [h] answers. *)
Ltac run_event h :=
  cbn -[handle_recv]; rewrite ?observe_subst;
  try match goal with |- context [h ?X ?ev ?st] => destruct (h X ev st) end.

(** Close a pass by the induction hypothesis on the next one. *)
Ltac next_pass :=
  match goal with
  | IH : forall m, _ -> forall s e, snd (run ?h m s _) = None
    |- context [run ?h ?g ?st (ITree.iter loop_body ?e0)] =>
      pose proof (IH g ltac:(lia) st e0) as Hn; destruct (run h g st _); exact Hn
  end.

(** Against any peer, the loop neither returns nor raises: whatever
    [recv()], the clock and [send()] answer, a run of any length is cut
    by the fuel. *)
Lemma run_loop_no_outcome {St} (h : forall X, wsE X -> St -> X * St) fuel s e :
  snd (run h fuel s (ITree.iter loop_body e)) = None.
Proof.
  revert s e. induction fuel as [fuel IH] using lt_wf_ind. intros s e.
  destruct fuel as [|f]; [reflexivity |].
  run_event h. rename r into x, s0 into s1. rewrite run_subst_ret.
  destruct (handle_recv_shape e x) as [[e' Hx] | (msg & e' & Hx)]; rewrite Hx.
  - destruct f as [|f]; [reflexivity |]. cbn.
    next_pass.
  - destruct f as [|[|[|f]]]; repeat run_event h; try reflexivity. next_pass.
Qed.

(** C28. [start] never returns, whatever the integration server
    answers: against any peer and for a run of any length it has either
    not finished or raised, and it raises only the error with which
    connecting, or sending the status message, failed. Once the status
    message is sent, no answer of [recv()], the clock or [send()] ends the
    loop. *)
Theorem start_loops_forever {St} (h : forall X, wsE X -> St -> X * St) fuel s e :
  match snd (run h fuel s (start e)) with
  | None => True
  | Some (Ok _) => False
  | Some (Err err) =>
      fst (h _ (Connect (ws_uri e)) s) = Err err \/
      (exists u s1 ts s2, h _ (Connect (ws_uri e)) s = (Ok u, s1) /\ h _ Now s1 = (ts, s2) /\
         fst (h _ (Send (status_msg ts)) s2) = Err err)
  end.
Proof.
  unfold start. destruct fuel as [|f]; [exact I |]. cbn -[ITree.iter]. unresum.
  destruct (h _ (Connect (ws_uri e)) s) as [[u|err] s1] eqn:Hc; rewrite run_subst_ret1.
  - destruct f as [|f]; [exact I |]. cbn -[ITree.iter]. unresum.
    destruct (h _ Now s1) as [ts s2] eqn:Hn. rewrite run_subst_ret1.
    destruct f as [|f]; [exact I |]. cbn -[ITree.iter]. unresum.
    destruct (h _ (Send (status_msg ts)) s2) as [[u'|err] s3] eqn:Hs; rewrite run_subst_ret1.
    + pose proof (run_loop_no_outcome h f s3 e) as H. destruct (run h f s3 _) as [tr o].
      simpl in H |- *. now rewrite H.
    + destruct f as [|[|f]]; cbn; unresum; destruct (h _ Close s3); [exact I | exact I |].
      cbn. right. exists u, s1, ts, s2. now rewrite Hs.
  - destruct f as [|f]; cbn; [exact I |]. left. reflexivity.
Qed.

(** C34. Against a server that delivers an inbox of messages in order
    (then a closed socket), the loop of [start] answers the messages one
    by one: with fuel for four steps a message, the messages it sends are
    exactly the replies [reply] gives, in the order of the inbox, each
    computed on the engine the previous messages left, and the loop has
    not returned. *)
Theorem loop_replies ts inbox e fuel :
  (4 * length inbox <= fuel)%nat ->
  sends (fst (run (server ts) fuel inbox (ITree.iter loop_body e))) = fst (replies ts e inbox) /\
  snd (run (server ts) fuel inbox (ITree.iter loop_body e)) = None.
Proof.
  revert e fuel. induction inbox as [|r rest IH]; intros e fuel Hf; [apply run_idle_silent |].
  simpl in Hf |- *. destruct (reply ts e r) as [[m|] e'] eqn:Hr.
  - destruct fuel as [|[|[|[|f]]]]; try lia. rewrite (run_pass_send _ _ _ _ _ _ _ Hr).
    destruct (IH e' f ltac:(lia)) as [H1 H2].
    destruct (run _ f rest _) as [tr o], (replies ts e' rest) as [ms e2]. simpl in *.
    split; [now rewrite H1 | exact H2].
  - destruct fuel as [|[|f]]; try lia. rewrite (run_pass_quiet _ _ _ _ _ _ Hr).
    destruct (IH e' f ltac:(lia)) as [H1 H2].
    destruct (run _ f rest _) as [tr o], (replies ts e' rest) as [ms e2]. simpl in *.
    split; [exact H1 | exact H2].
Qed.

End Engine.

(** C30. A model [_get_model] returns is cached under its name, and
    asking again returns the same object from the cache, whatever
    [importlib], the module's attribute and the class's constructor would
    do on the second call: they are not called. *)
Theorem get_model_cached {Mod Cls Model DF : Type} (import_module : string -> result Mod)
    (getattr : Mod -> string -> result Cls) (instantiate : Cls -> result Model)
    (py_str : jval -> string) name (e e' : @engine Model DF) m :
  get_model import_module getattr instantiate py_str name e = (Ok m, e') ->
  assoc py_key_eqb name (models e') = Some m /\
  forall (Mod' Cls' : Type) (import_module' : string -> result Mod')
         (getattr' : Mod' -> string -> result Cls') (instantiate' : Cls' -> result Model)
         (py_str' : jval -> string),
    get_model import_module' getattr' instantiate' py_str' name e' = (Ok m, e').
Proof.
  unfold get_model, dict_lookup. py_unfold.
  destruct (hashable name) eqn:Hh; simpl; [| discriminate].
  intros H. assert (Hc : assoc py_key_eqb name (models e') = Some m).
  { revert H. destruct (assoc py_key_eqb name (models e)) as [m0|] eqn:Hc; simpl.
    - intros H. inversion H; subst. exact Hc.
    - destruct (import_module _); simpl; [| discriminate].
      destruct name; simpl; try discriminate;
      destruct (getattr _ _); simpl; try discriminate;
      destruct (instantiate _); simpl; try discriminate;
      intros H; inversion H; subst; simpl; now rewrite assoc_dict_store_same. }
  split; [exact Hc |]. intros. simpl. now rewrite Hc.
Qed.

End ComputationEngine.

(** ** Witnesses *)

Section Samples.
Import ComputationEngine.

(** A [models] package with [rsi.py] defining [RsiModel] and [macd.py]
    without its class; a model is a call counter. *)
Definition sample_import (path : string) : result string :=
  if String.eqb path "models.rsi" then Ok path
  else if String.eqb path "models.macd" then Ok path
  else Err ImportError.
Definition sample_getattr (module cls : string) : result string :=
  if String.eqb cls "RsiModel" then Ok cls else Err AttributeError.
Definition sample_instantiate (cls : string) : result nat := Ok 0%nat.
Definition sample_generic : result nat := Ok 100%nat.
Definition sample_process (m : nat) (symbol values : jval) : result jval * nat :=
  (Ok (JObj [("signal", JStr "BUY"); ("confidence", JNum (9 # 10))]), S m).
Definition sample_run (m : nat) (kwargs : list (string * jval)) : result jval * nat :=
  (Ok (JNum (inject_Z (Z.of_nat m))), S m).
Definition sample_info (m : nat) : result jval * nat := (Ok (JStr "model"), m).
Definition sample_dataframe (v : jval) : result (list jval) :=
  match v with JArr l => Ok l | _ => Err ValueError end.
Definition sample_str (v : jval) : string := match v with JStr s => s | _ => "?" end.
Definition sample_err_str (e : py_error) : string := "error".
Definition sample_loads (s : string) : result jval :=
  if String.eqb s "alert" then Ok (JObj [("type", JStr "alert"); ("indicator", JStr "RSI"); ("ticker", JStr "ES")])
  else if String.eqb s "bars" then
    Ok (JObj [("type", JStr "market_data"); ("symbol", JStr "ES"); ("bars", JArr [JNum 1])])
  else Err ValueError.
(** [json.dumps] of a reply: its type and the type of its data. *)
Definition sample_dumps (v : jval) : string :=
  match v with
  | JObj ((_, JStr t) :: (_, JObj ((_, JStr d) :: _)) :: _) => t ++ ":" ++ d
  | _ => "?"
  end.

Definition sample_engine : @engine nat (list jval) := init 8081.
Definition sample_pm : jval -> PyM engine jval :=
  process_message sample_import sample_getattr sample_instantiate sample_generic sample_process
    sample_run sample_info sample_dataframe sample_str sample_err_str.
Definition sample_market : jval :=
  JObj [("type", JStr "market_data"); ("symbol", JStr "ES"); ("bars", JArr [JNum 1])].
Definition sample_bad_market : jval :=
  JObj [("type", JStr "market_data"); ("symbol", JArr [JStr "ES"]); ("bars", JArr [JNum 1])].
Definition sample_alert : list (string * jval) :=
  [("type", JStr "alert"); ("indicator", JStr "RSI"); ("ticker", JStr "ES")].
Definition sample_cached : @engine nat (list jval) := mk_engine 8081 [(JStr "rsi", 0%nat)] [].

Lemma process_message_raises_witness :
  fst (sample_pm sample_bad_market sample_engine) = Err TypeError /\
  ((TypeError = AttributeError /\ forall l, sample_bad_market <> JObj l) \/
   (exists l, sample_bad_market = JObj l /\ assoc String.eqb "type" l = Some (JStr "market_data") /\
      ((exists bars, assoc String.eqb "bars" l = Some bars /\ sample_dataframe bars = Err TypeError) \/
       (TypeError = TypeError /\ exists symbol, assoc String.eqb "symbol" l = Some symbol /\
                                          hashable symbol = false)))).
Proof.
  assert (H : fst (sample_pm sample_bad_market sample_engine) = Err TypeError) by reflexivity.
  split; [exact H | exact (process_message_raises _ _ _ _ _ _ _ _ _ _ _ _ _ H)].
Defined.

Lemma get_model_cached_witness :
  get_model sample_import sample_getattr sample_instantiate sample_str (JStr "rsi") sample_engine =
    (Ok 0%nat, sample_cached) /\
  assoc py_key_eqb (JStr "rsi") (models sample_cached) = Some 0%nat /\
  get_model (fun _ => @Err string ImportError) sample_getattr sample_instantiate sample_str
    (JStr "rsi") sample_cached = (Ok 0%nat, sample_cached).
Proof.
  assert (H : get_model sample_import sample_getattr sample_instantiate sample_str (JStr "rsi")
                sample_engine = (Ok 0%nat, sample_cached)) by reflexivity.
  destruct (get_model_cached _ _ _ _ _ _ _ _ H) as [H1 H2].
  split; [exact H | split; [exact H1 | apply H2]].
Defined.

Lemma alert_signal_reply_witness :
  process_alert sample_import sample_getattr sample_instantiate sample_generic sample_process
    sample_str sample_err_str (JObj sample_alert) sample_cached =
  (Ok (JObj [("type", JStr "signal"); ("symbol", JStr "ES"); ("action", JStr "BUY");
             ("quantity", JNum 1); ("price", JNull); ("confidence", JNum (9 # 10));
             ("source", JStr "RSI")]),
   mk_engine 8081 [(JStr "rsi", 1%nat)] []).
Proof.
  exact (alert_signal_reply sample_import sample_getattr sample_instantiate sample_generic
           sample_process sample_str sample_err_str sample_alert "RSI" sample_cached 0%nat 1%nat
           [("signal", JStr "BUY"); ("confidence", JNum (9 # 10))] (JStr "BUY") (JNum 1)
           eq_refl eq_refl eq_refl eq_refl eq_refl eq_refl).
Defined.

Lemma position_size_tiers_witness :
  (1 # 2) <= (9 # 10) /\
  exists q1 q2,
    calculate_position_size (JStr "ES") (JObj [("confidence", JNum (1 # 2))]) = Ok (JNum q1) /\
    calculate_position_size (JStr "ES") (JObj [("confidence", JNum (9 # 10))]) = Ok (JNum q2) /\
    1 # 4 <= q1 <= q2 /\ q2 <= 1.
Proof.
  assert (H : (1 # 2) <= (9 # 10)) by (apply Qle_bool_iff; reflexivity).
  split; [exact H | exact (position_size_tiers (JStr "ES") _ _ H)].
Defined.

Lemma indicator_fallback_import_only_witness :
  get_model_for_indicator sample_import sample_getattr sample_instantiate sample_generic sample_str
    (JStr "Foo Bar") sample_engine = (Ok (None, 100%nat), sample_engine) /\
  get_model_for_indicator sample_import sample_getattr sample_instantiate sample_generic sample_str
    (JStr "MACD") sample_engine = (Err AttributeError, sample_engine).
Proof.
  split.
  - exact (proj1 (indicator_fallback_import_only sample_import sample_getattr sample_instantiate
                    sample_generic sample_str "Foo Bar" sample_engine eq_refl) eq_refl).
  - exact (proj2 (indicator_fallback_import_only sample_import sample_getattr sample_instantiate
                    sample_generic sample_str "MACD" sample_engine eq_refl) "models.macd" eq_refl eq_refl).
Defined.

Definition sample_loop :=
  ITree.iter (loop_body sample_import sample_getattr sample_instantiate sample_generic sample_process
                sample_run sample_info sample_dataframe sample_str sample_err_str sample_loads sample_dumps).

Lemma loop_replies_witness :
  (4 * length [Ok "alert"; Ok "bars"; Err ValueError] <= 12)%nat /\
  sends (fst (run (server "now") 12 [Ok "alert"; Ok "bars"; Err ValueError] (sample_loop sample_engine))) =
    ["result:signal"; "result:success"] /\
  snd (run (server "now") 12 [Ok "alert"; Ok "bars"; Err ValueError] (sample_loop sample_engine)) = None.
Proof.
  assert (H : (4 * length [@Ok string "alert"; Ok "bars"; Err ValueError] <= 12)%nat) by (simpl; lia).
  destruct (loop_replies sample_import sample_getattr sample_instantiate sample_generic sample_process
              sample_run sample_info sample_dataframe sample_str sample_err_str sample_loads sample_dumps
              "now" _ sample_engine 12 H) as [H1 H2].
  unfold sample_loop. split; [exact H | split; [rewrite H1; vm_compute; reflexivity | exact H2]].
Defined.

End Samples.
