(* ===== verification/StrategyStub.v ===== *)
(** * The strategy stub

    [BaseStrategy] of [src/strategies/base copy.py]: a copy of a strategy
    base class whose constructor sets [name] and whose four methods have
    [pass] bodies, so each returns [None] and leaves the object as it
    was. A method is a function from the object to its result and the
    object after the call. *)

From Stdlib Require Import String.
From S2P Require Import Prelude Registry.

Module StrategyStub.

Record strategy : Type := mk_strategy { name : string }.

(** [__init__] (lines 2-3). *)
Definition init : strategy := mk_strategy "Base Strategy".

(** [initialize()] (lines 5-7). *)
Definition initialize (s : strategy) : jval * strategy := (JNull, s).

(** [execute(market_data)] (lines 9-11). *)
Definition execute (s : strategy) (market_data : jval) : jval * strategy := (JNull, s).

(** [analyze(historical_data)] (lines 13-15). *)
Definition analyze (s : strategy) (historical_data : jval) : jval * strategy := (JNull, s).

(** [get_signals()] (lines 17-19). *)
Definition get_signals (s : strategy) : jval * strategy := (JNull, s).

End StrategyStub.
